(** * AI-Powered Product Recommendation System: recommendation service and
      interaction tracker

    A shallow embedding of [lib/ai-recommendations.ts] (class
    [AIRecommendationService]) and [lib/interaction-tracker.ts] (class
    [InteractionTracker]), with the properties stated of them.

    Conventions of the embedding.
    - A JavaScript [number] that the code only adds, subtracts, multiplies,
      divides and compares is an exact rational ([Q]); [Math.log] is the real
      logarithm.  Rounding of IEEE doubles is outside the model.  Equality of
      numbers is [Qeq] ([==]), not syntactic equality of fractions.
    - An [async] method is its sequential meaning: every [await] sits directly
      on a call, so the promise plumbing adds no interleaving inside one call.
    - A thrown exception or rejected promise is the [Throws] outcome of an
      error monad; [try]/[catch] is [try_catch].
    - The generative model, the remote store, [JSON.parse], the number and
      string conversions of ECMAScript, the random identifier source and
      the clock are inputs of the functions that use them.
    - The arguments of a method have the types its TypeScript signature
      declares; what [JSON.parse] returns has no type and is a [json]. *)

From Stdlib Require Import Ascii String QArith Qabs Reals Qreals Lia Permutation Sorted.
From stdpp Require Import gmap strings list pretty.
From Stdlib Require Import Psatz.

Local Open Scope string_scope.
Local Open Scope Z_scope.

(** ** JavaScript array operations used by both classes *)

Module JS.

(** [arr.includes(x)] on an array of strings. *)
Definition includes (l : list string) (x : string) : bool :=
  existsb (String.eqb x) l.

(** [arr.slice(0, e)] for an integral [e]: a negative [e] counts from the
    end, the result never reaches past the array. *)
Definition slice0 {A} (l : list A) (e : Z) : list A :=
  let len := Z.of_nat (length l) in
  let final := if e <? 0 then Z.max (len + e) 0 else Z.min e len in
  take (Z.to_nat final) l.

(** [arr.sort(cmp)]: ECMAScript requires a stable sort.  [after x y] stands
    for [cmp(x, y) > 0], "x must come after y".  For a consistent comparator
    every stable sort returns the list computed here. *)
Fixpoint insert_by {A} (after : A -> A -> bool) (x : A) (l : list A) : list A :=
  match l with
  | [] => [x]
  | y :: l' => if after x y then y :: insert_by after x l' else x :: l
  end.

Definition sort_by {A} (after : A -> A -> bool) (l : list A) : list A :=
  foldr (insert_by after) [] l.

(** [text.match(/\{[\s\S]*\}/)] and [text.match(/\[[\s\S]*\]/)]: the
    leftmost opening character that has a closing character after it, up to
    the last closing character of the text (the star is greedy). *)
Fixpoint from_first (c : ascii) (s : string) : option string :=
  match s with
  | EmptyString => None
  | String a s' => if Ascii.eqb a c then Some s' else from_first c s'
  end.

Fixpoint upto_last (c : ascii) (s : string) : option string :=
  match s with
  | EmptyString => None
  | String a s' =>
      match upto_last c s' with
      | Some r => Some (String a r)
      | None => if Ascii.eqb a c then Some (String a EmptyString) else None
      end
  end.

Definition match_span (opening closing : ascii) (text : string) : option string :=
  match from_first opening text with
  | None => None
  | Some rest =>
      match upto_last closing rest with
      | None => None
      | Some body => Some (String opening body)
      end
  end.

(** The sign test [v > 0] on a rational. *)
Definition positive (q : Q) : bool := 0 <? Qnum q.

(** [arr.sort((a, b) => cmp(a, b))] for a comparator computing a rational. *)
Definition sort {A} (cmp : A -> A -> Q) : list A -> list A :=
  sort_by (fun a b => positive (cmp a b)).

End JS.

(** ** Outcomes of a call: normal return or a thrown exception *)

Inductive result (A : Type) : Type :=
  | Returns (a : A)
  | Throws.
Arguments Returns {A} a.
Arguments Throws {A}.

Definition result_bind {A B} (r : result A) (k : A -> result B) : result B :=
  match r with
  | Returns a => k a
  | Throws => Throws
  end.

Declare Scope result_scope.
Delimit Scope result_scope with result.
Notation "x <- c ;; k" := (result_bind c (fun x => k))
  (at level 100, c at next level, right associativity) : result_scope.

(** ** JavaScript values that [JSON.parse] can build *)

(** A number a response can denote: a finite value or, for an exponent out
    of the range of a double, an infinity.  [JSON.parse] never yields NaN;
    where arithmetic can, NaN is [None : option number]. *)
Inductive number : Type :=
  | Finite (q : Q)
  | PosInf
  | NegInf.

#[warnings="-register-all"] Inductive json : Type :=
  | JNull
  | JBool (b : bool)
  | JNum (n : number)
  | JStr (s : string)
  | JArr (items : list json)
  | JObj (fields : list (string * json)).
(** [JObj fields] lists the own properties of the object, each key once, as
    [JSON.parse] creates them.  [undefined] is [None : option json]. *)

Module Value.

Local Open Scope result_scope.

(** Own-property lookup. *)
Fixpoint own (k : string) (fields : list (string * json)) : option json :=
  match fields with
  | [] => None
  | (k', v) :: rest => if String.eqb k k' then Some v else own k rest
  end.

(** [v.k] for the property names this code reads ([productId], [score],
    [reason], [category], [intent], [categoryStrength], [brandLoyalty],
    [priceSensitivity], [topFeatures], [behaviorPatterns]): none of them is
    defined on a built-in prototype, so the read finds an own property of an
    object or nothing; reading a property of [null] is a TypeError. *)
Definition get (v : json) (k : string) : result (option json) :=
  match v with
  | JNull => Throws
  | JObj fields => Returns (own k fields)
  | _ => Returns None
  end.

Section Conversions.
  (** [Number::toString] and [StringToNumber] of ECMAScript, library
      functions taken as given; [None] is NaN. *)
Variable NumberToString : number -> string.
Variable StringToNumber : string -> option number.

  (** [ToString(v)], as a template literal applies it to a substitution.
      An array joins its elements with commas, [null] elements giving the
      empty string.  An object prints through [Object.prototype.toString]
      unless it has an own property [toString]: a value from [JSON.parse] is
      never callable, [valueOf] then returns the object itself or is not
      callable either, and [ToPrimitive] ends in a TypeError. *)
Fixpoint to_string (v : json) : result string :=
    match v with
    | JNull => Returns "null"
    | JBool true => Returns "true"
    | JBool false => Returns "false"
    | JNum n => Returns (NumberToString n)
    | JStr s => Returns s
    | JArr items =>
        (fix join (l : list json) : result string :=
           match l with
           | [] => Returns ""
           | x :: l' =>
               s <- match x with JNull => Returns "" | _ => to_string x end ;;
               match l' with
               | [] => Returns s
               | _ => r <- join l' ;; Returns (s ++ "," ++ r)
               end
           end) items
    | JObj fields =>
        match own "toString" fields with
        | Some _ => Throws
        | None => Returns "[object Object]"
        end
    end.

  (** [`${e}`] for an expression that may be [undefined]. *)
Definition interpolate (v : option json) : result string :=
    match v with
    | None => Returns "undefined"
    | Some v => to_string v
    end.

  (** [v.join(', ')]: only an array has a callable [join]; the elements are
      converted as in [to_string]. *)
Definition join (v : option json) : result string :=
    match v with
    | Some (JArr items) =>
        parts <- foldr (fun x acc =>
                   s <- match x with JNull => Returns "" | _ => to_string x end ;;
                   r <- acc ;; Returns (s :: r)) (Returns []) items ;;
        Returns (String.concat ", " parts)
    | _ => Throws
    end.

  (** [ToNumber(v)], as the subtraction operator applies it. *)
Definition to_number (v : option json) : result (option number) :=
    match v with
    | None => Returns None
    | Some JNull => Returns (Some (Finite 0))
    | Some (JBool true) => Returns (Some (Finite 1))
    | Some (JBool false) => Returns (Some (Finite 0))
    | Some (JNum n) => Returns (Some n)
    | Some (JStr s) => Returns (StringToNumber s)
    | Some v => s <- to_string v ;; Returns (StringToNumber s)
    end.
End Conversions.

(** [x - y] on numbers; [None] is NaN.  The sign of a difference of two
    doubles is the sign of the exact difference. *)
Definition sub (x y : option number) : option number :=
  match x, y with
  | Some (Finite a), Some (Finite b) => Some (Finite (a - b))
  | Some PosInf, Some PosInf | Some NegInf, Some NegInf => None
  | Some PosInf, Some _ => Some PosInf
  | Some NegInf, Some _ => Some NegInf
  | Some (Finite _), Some PosInf => Some NegInf
  | Some (Finite _), Some NegInf => Some PosInf
  | _, _ => None
  end.

(** [v > 0] as [Array.prototype.sort] tests a comparator's result
    (NaN counts as [+0]). *)
Definition is_positive (v : option number) : bool :=
  match v with
  | Some (Finite q) => JS.positive q
  | Some PosInf => true
  | _ => false
  end.

Definition number_eqb (x y : number) : bool :=
  match x, y with
  | Finite a, Finite b => Qeq_bool a b
  | PosInf, PosInf | NegInf, NegInf => true
  | _, _ => false
  end.

(** [a === b] for two values read from different nodes of parsed JSON:
    primitives are compared by value; an object or array is only ever
    identical to itself, and different nodes are different objects. *)
Definition strict_eq_apart (a b : option json) : bool :=
  match a, b with
  | None, None => true
  | Some JNull, Some JNull => true
  | Some (JBool x), Some (JBool y) => Bool.eqb x y
  | Some (JNum x), Some (JNum y) => number_eqb x y
  | Some (JStr x), Some (JStr y) => String.eqb x y
  | _, _ => false
  end.

End Value.

(** ** Array methods whose callback may throw *)

Module JSM.

Local Open Scope result_scope.

(** [arr.findIndex(p)]: the first index whose element satisfies [p], or -1.
    The callback is given the index too, which here stands for the identity
    of the element. *)
Fixpoint findIndex_from {A} (p : nat -> A -> result bool) (i : nat) (l : list A)
  : result Z :=
  match l with
  | [] => Returns (-1)
  | x :: l' =>
      b <- p i x ;;
      if b then Returns (Z.of_nat i) else findIndex_from p (S i) l'
  end.

Definition findIndex {A} (p : nat -> A -> result bool) (l : list A) : result Z :=
  findIndex_from p 0 l.

(** [arr.filter((x, index) => p)]: the callback runs on every element. *)
Fixpoint filter_from {A} (p : nat -> A -> result bool) (i : nat) (l : list A)
  : result (list A) :=
  match l with
  | [] => Returns []
  | x :: l' =>
      b <- p i x ;;
      r <- filter_from p (S i) l' ;;
      Returns (if b then x :: r else r)
  end.

Definition filter {A} (p : nat -> A -> result bool) (l : list A) : result (list A) :=
  filter_from p 0 l.

(** [arr.map(f)] for a callback that may throw. *)
Fixpoint map {A B} (f : A -> result B) (l : list A) : result (list B) :=
  match l with
  | [] => Returns []
  | x :: l' => y <- f x ;; r <- map f l' ;; Returns (y :: r)
  end.

(** [arr.sort(cmp)] for a comparator that may throw: [JS.sort_by] with the
    exception propagated.  Any sort compares every element of an array of
    two or more at least once, so whether the call throws does not depend on
    the algorithm when the comparator throws on an element, not on a pair.
    When the comparator is not consistent (a NaN difference counts as a
    tie), ECMAScript leaves the order to the implementation and still
    returns a permutation of the array; the order computed here is one such
    order, and the properties proved of it use the permutation only. *)
Fixpoint insert_by {A} (after : A -> A -> result bool) (x : A) (l : list A)
  : result (list A) :=
  match l with
  | [] => Returns [x]
  | y :: l' =>
      b <- after x y ;;
      if b then r <- insert_by after x l' ;; Returns (y :: r)
      else Returns (x :: l)
  end.

Definition sort_by {A} (after : A -> A -> result bool) (l : list A)
  : result (list A) :=
  foldr (fun x acc => s <- acc ;; insert_by after x s) (Returns []) l.

End JSM.

(** ** The host environment of the recommendation service *)

(** What [model.generateContent(prompt)] does on one call: the promise is
    rejected (or [response.text()] throws), or the response carries free
    text. *)
Inductive reply : Type :=
  | Rejects
  | Responds (text : string).

(** [JSON_parse s] is [None] when [JSON.parse(s)] throws a SyntaxError.
    [model n] is what the generative model does on the call that follows [n]
    earlier ones: the prompt of a call is a function of the caller's
    arguments and of the earlier replies, so every model, deterministic or
    not, is one such sequence. *)
Record Host : Type := {
  JSON_parse : string -> option json;
  NumberToString : number -> string;
  StringToNumber : string -> option number;
  model : nat -> reply
}.

(** A computation over a state [S] that may throw: the state after a throw
    is the state at the throw. *)
Definition Eff (S A : Type) : Type := S -> result A * S.

Definition ret {S A} (a : A) : Eff S A := fun s => (Returns a, s).

Definition throw {S A} : Eff S A := fun s => (Throws, s).

Definition bind {S A B} (c : Eff S A) (k : A -> Eff S B) : Eff S B :=
  fun s => match c s with
           | (Returns a, s') => k a s'
           | (Throws, s') => (Throws, s')
           end.

Definition lift {S A} (r : result A) : Eff S A := fun s => (r, s).

(** [try { body } catch (error) { handler }] *)
Definition try_catch {S A} (body handler : Eff S A) : Eff S A :=
  fun s => match body s with
           | (Returns a, s') => (Returns a, s')
           | (Throws, s') => handler s'
           end.

Declare Scope model_scope.
Delimit Scope model_scope with model.
Notation "x <- c ;; k" := (bind c (fun x => k))
  (at level 100, c at next level, right associativity) : model_scope.

(** A computation of the recommendation service: the state is the number of
    calls issued to the model so far. *)
Definition M (A : Type) : Type := Eff nat A.

(** [await this.model.generateContent(prompt)] followed by
    [result.response.text()]. *)
Definition generateContent (h : Host) : M string :=
  fun n => (match model h n with
            | Rejects => Throws
            | Responds text => Returns text
            end, S n).

(** ** lib/ai-recommendations.ts *)

Module Product.
Record Ratings : Type := { average : Q; count : nat }.
(** [count] is a number of reviews, a natural number. *)
Record t : Type := {
  id : string;
  name : string;
  category : string;
  subcategory : string;
  price : Q;
  originalPrice : Q;
  description : string;
  features : list string;
  tags : list string;
  brand : string;
  ratings : Ratings
}.
End Product.

Inductive InteractionType : Type :=
  | view | like | purchase | cart_add | wishlist_add.

Module UserInteraction.
(** [timestamp] is a [Date], held as milliseconds since the epoch. *)
Record t : Type := {
  productId : string;
  interactionType : InteractionType;
  timestamp : Z;
  metadata : option (list (string * json))
}.
End UserInteraction.

Module UserPreference.
Record t : Type := {
  userId : string;
  preferredCategories : list string;
  preferredBrands : list string;
  priceRange : Q * Q;
  preferredFeatures : list string;
  interactionHistory : list UserInteraction.t
}.
End UserPreference.

Module Recommendation.
Record t : Type := {
  productId : string;
  score : Q;
  reason : string;
  category : string
}.

(** The object literal the code builds, as a JavaScript value. *)
Definition to_json (r : t) : json :=
  JObj [("productId", JStr (productId r));
        ("score", JNum (Finite (score r)));
        ("reason", JStr (reason r));
        ("category", JStr (category r))].
End Recommendation.

Module AIRecommendationService.

Local Open Scope Q_scope.

Definition brace_open : ascii := "{"%char.
Definition brace_close : ascii := "}"%char.
Definition bracket_open : ascii := "["%char.
Definition bracket_close : ascii := "]"%char.

(** The [try] block shared by the parsing sites:
    [const jsonMatch = text.match(re); if (jsonMatch) return JSON.parse(jsonMatch[0])]
    with the SyntaxError caught.  [None] when control falls through. *)
Definition extract (h : Host) (opening closing : ascii) (text : string)
  : option json :=
  match JS.match_span opening closing text with
  | Some m => JSON_parse h m
  | None => None
  end.

(** [[...v]]: an array spreads into its elements; a string is iterable too;
    anything else is not iterable (TypeError).  No string reaches a spread
    in this code when [JSON_parse] is [JSON.parse] (the text parsed starts
    with a bracket); each byte stands for one character there. *)
Definition spread (v : json) : result (list json) :=
  match v with
  | JArr items => Returns items
  | JStr s => Returns (List.map (fun c => JStr (String c EmptyString)) (list_ascii_of_string s))
  | _ => Throws
  end.

(** [v.slice(0, e)]: arrays and strings have a [slice] method; on anything
    else the call is a TypeError.  As for [spread], no string reaches this
    call when [JSON_parse] is [JSON.parse]. *)
Definition slice_value (v : json) (e : Z) : result json :=
  match v with
  | JArr items => Returns (JArr (JS.slice0 items e))
  | JStr s => Returns (JStr (string_of_list_ascii (JS.slice0 (list_ascii_of_string s) e)))
  | _ => Throws
  end.

(** *** getFallbackRecommendations *)

Definition fallback_recommendation (p : Product.t) : Recommendation.t :=
  {| Recommendation.productId := Product.id p;
     Recommendation.score := Product.average (Product.ratings p) * 20;
     Recommendation.reason :=
       ("Recommended based on your interest in " ++ Product.category p)%string;
     Recommendation.category := "fallback" |}.

Definition getFallbackRecommendations
    (products : list Product.t) (userPreferences : UserPreference.t)
    (maxRecommendations : Z) : list Recommendation.t :=
  let interactedProductIds :=
    List.map UserInteraction.productId (UserPreference.interactionHistory userPreferences) in
  let availableProducts :=
    List.filter (fun p => negb (JS.includes interactedProductIds (Product.id p))) products in
  let categoryRecommendations :=
    List.map fallback_recommendation
      (JS.slice0
         (JS.sort (fun a b => Product.average (Product.ratings b)
                              - Product.average (Product.ratings a))
            (List.filter
               (fun p => JS.includes (UserPreference.preferredCategories userPreferences)
                           (Product.category p))
               availableProducts))
         maxRecommendations) in
  categoryRecommendations.

(** *** analyzeUserBehavior *)

(** The analysis returned when the response holds no parsable object. *)
Definition default_analysis (userPreferences : UserPreference.t) : json :=
  JObj [("intent", JStr "browsing");
        ("categoryStrength", JNum (Finite 5));
        ("brandLoyalty", JNum (Finite 5));
        ("priceSensitivity", JNum (Finite 5));
        ("topFeatures",
          JArr (List.map JStr (JS.slice0 (UserPreference.preferredFeatures userPreferences) 3)));
        ("behaviorPatterns", JArr [JStr "general_browsing"])].

(** The prompt is built from the typed preferences only, which cannot
    throw; its text goes to the model and nowhere else. *)
Definition analyzeUserBehavior (h : Host) (userPreferences : UserPreference.t)
  : M json :=
  (text <- generateContent h ;;
   match extract h brace_open brace_close text with
   | Some analysis => ret analysis
   | None => ret (default_analysis userPreferences)
   end)%model.

(** *** Substitutions of the prompts that read the analysis

    [userAnalysis] is whatever [JSON.parse] returned.  Each function lists
    the substitutions of one template literal that read it or the parsed
    candidates, in order; a failing property read, [join] or string
    conversion throws.  The text around them is constant or comes from the
    typed arguments. *)

Definition substitute (h : Host) (v : json) (k : string) : result string :=
  (x <- Value.get v k ;; Value.interpolate (NumberToString h) x)%result.

Definition substitute_join (h : Host) (v : json) (k : string) : result string :=
  (x <- Value.get v k ;; Value.join (NumberToString h) x)%result.

Definition content_prompt (h : Host) (userAnalysis : json) : result (list string) :=
  (intent <- substitute h userAnalysis "intent" ;;
   categoryStrength <- substitute h userAnalysis "categoryStrength" ;;
   brandLoyalty <- substitute h userAnalysis "brandLoyalty" ;;
   priceSensitivity <- substitute h userAnalysis "priceSensitivity" ;;
   topFeatures <- substitute_join h userAnalysis "topFeatures" ;;
   Returns [intent; categoryStrength; brandLoyalty; priceSensitivity; topFeatures])%result.

Definition collaborative_prompt (h : Host) (userAnalysis : json) : result (list string) :=
  (intent <- substitute h userAnalysis "intent" ;;
   behaviorPatterns <- substitute_join h userAnalysis "behaviorPatterns" ;;
   Returns [intent; behaviorPatterns])%result.

Definition rank_entry (h : Host) (rec : json) : result (list string) :=
  (productId <- substitute h rec "productId" ;;
   category <- substitute h rec "category" ;;
   score <- substitute h rec "score" ;;
   reason <- substitute h rec "reason" ;;
   Returns [productId; category; score; reason])%result.

Definition rank_prompt (h : Host) (userAnalysis : json) (uniqueRecommendations : list json)
  : result (list string) :=
  (analysis <- content_prompt h userAnalysis ;;
   entries <- JSM.map (rank_entry h) uniqueRecommendations ;;
   Returns (analysis ++ concat entries)%list)%result.

(** *** getContentBasedRecommendations *)

Definition getContentBasedRecommendations (h : Host)
    (products : list Product.t) (userPreferences : UserPreference.t)
    (userAnalysis : json) : M json :=
  let interactedProductIds :=
    List.map UserInteraction.productId (UserPreference.interactionHistory userPreferences) in
  let interactedProducts :=
    List.filter (fun p => JS.includes interactedProductIds (Product.id p)) products in
  if (length interactedProducts =? 0)%nat then ret (JArr [])
  else
    (_ <- lift (content_prompt h userAnalysis) ;;
     text <- generateContent h ;;
     match extract h bracket_open bracket_close text with
     | Some recommendations => ret recommendations
     | None => ret (JArr [])
     end)%model.

(** *** getCollaborativeRecommendations *)

Definition getCollaborativeRecommendations (h : Host)
    (products : list Product.t) (userPreferences : UserPreference.t)
    (userAnalysis : json) : M json :=
  (_ <- lift (collaborative_prompt h userAnalysis) ;;
   text <- generateContent h ;;
   match extract h bracket_open bracket_close text with
   | Some recommendations => ret recommendations
   | None => ret (JArr [])
   end)%model.

(** *** combineAndRankRecommendations *)

(** [r.productId === rec.productId] for [r] at index [j] and [rec] at index
    [index] of the same array.  The elements of the array are the nodes of
    two parsed responses, so two indices hold the same object only when
    they are equal. *)
Definition same_productId (j : nat) (r : json) (index : nat) (rec : json)
  : result bool :=
  (a <- Value.get r "productId" ;;
   b <- Value.get rec "productId" ;;
   Returns ((j =? index)%nat || Value.strict_eq_apart a b))%result.

(** [all.filter((rec, index, self) =>
       self.findIndex(r => r.productId === rec.productId) === index)] *)
Definition uniqueRecommendations (allRecommendations : list json) : result (list json) :=
  JSM.filter
    (fun index rec =>
       (i <- JSM.findIndex (fun j r => same_productId j r index rec) allRecommendations ;;
        Returns (i =? Z.of_nat index)%Z)%result)
    allRecommendations.

(** [(a, b) => b.score - a.score], as [sort] reads its sign. *)
Definition score_after (h : Host) (a b : json) : result bool :=
  (sb <- Value.get b "score" ;;
   sa <- Value.get a "score" ;;
   nb <- Value.to_number (NumberToString h) (StringToNumber h) sb ;;
   na <- Value.to_number (NumberToString h) (StringToNumber h) sa ;;
   Returns (Value.is_positive (Value.sub nb na)))%result.

(** [[...contentRecommendations, ...collaborativeRecommendations]] *)
Definition allRecommendations (contentRecommendations collaborativeRecommendations : json)
  : result (list json) :=
  (a <- spread contentRecommendations ;;
   b <- spread collaborativeRecommendations ;;
   Returns (a ++ b)%list)%result.

Definition combineAndRankRecommendations (h : Host)
    (contentRecommendations collaborativeRecommendations userAnalysis : json)
  : M json :=
  (all <- lift (allRecommendations contentRecommendations collaborativeRecommendations) ;;
   unique <- lift (uniqueRecommendations all) ;;
   _ <- lift (rank_prompt h userAnalysis unique) ;;
   text <- generateContent h ;;
   match extract h bracket_open bracket_close text with
   | Some ranked => ret ranked
   | None =>
       sorted <- lift (JSM.sort_by (score_after h) unique) ;;
       ret (JArr sorted)
   end)%model.

(** *** generateRecommendations *)

(** The body of the [try] block. *)
Definition pipeline (h : Host) (products : list Product.t)
    (userPreferences : UserPreference.t) (maxRecommendations : Z) : M json :=
  (userAnalysis <- analyzeUserBehavior h userPreferences ;;
   contentRecommendations <-
     getContentBasedRecommendations h products userPreferences userAnalysis ;;
   collaborativeRecommendations <-
     getCollaborativeRecommendations h products userPreferences userAnalysis ;;
   combinedRecommendations <-
     combineAndRankRecommendations h contentRecommendations
       collaborativeRecommendations userAnalysis ;;
   lift (slice_value combinedRecommendations maxRecommendations))%model.

Definition generateRecommendations (h : Host) (userId : string)
    (products : list Product.t) (userPreferences : UserPreference.t)
    (maxRecommendations : Z) : M json :=
  try_catch
    (pipeline h products userPreferences maxRecommendations)
    (ret (JArr (List.map Recommendation.to_json
                  (getFallbackRecommendations products userPreferences
                     maxRecommendations)))).

(** *** getTrendingProducts *)

(** [p.ratings.average * Math.log(p.ratings.count + 1)] *)
Definition trending_weight (p : Product.t) : R :=
  (Q2R (Product.average (Product.ratings p))
   * ln (INR (Product.count (Product.ratings p)) + 1))%R.

(** The sign of [(b.average * log(b.count + 1)) - (a.average * log(a.count + 1))]. *)
Definition trending_after (a b : Product.t) : bool :=
  if Rlt_dec 0 (trending_weight b - trending_weight a) then true else false.

Definition trending_recommendation (h : Host) (p : Product.t) : Recommendation.t :=
  {| Recommendation.productId := Product.id p;
     Recommendation.score := Product.average (Product.ratings p) * 20;
     Recommendation.reason :=
       ("Trending due to high rating ("
        ++ NumberToString h (Finite (Product.average (Product.ratings p)))
        ++ ") and "
        ++ NumberToString h (Finite (inject_Z (Z.of_nat (Product.count (Product.ratings p)))))
        ++ " reviews")%string;
     Recommendation.category := "trending" |}.

(** The statement after the [try] block ("Fallback to high-rated
    products").  [products.sort] also reorders the caller's array in place;
    only the returned array is modelled. *)
Definition trending_fallback (h : Host) (products : list Product.t) (maxResults : Z)
  : list Recommendation.t :=
  List.map (trending_recommendation h)
    (JS.slice0 (JS.sort_by trending_after products) maxResults).

(** The [try] block of [getTrendingProducts] and [getSimilarProducts]: the
    model call and [JSON.parse] are both inside it; [None] when control
    leaves the block without returning. *)
Definition ask_for_array (h : Host) : M (option json) :=
  try_catch
    (text <- generateContent h ;;
     match JS.match_span bracket_open bracket_close text with
     | Some m =>
         match JSON_parse h m with
         | Some v => ret (Some v)
         | None => throw
         end
     | None => ret None
     end)%model
    (ret None).

(** The statement after the [try] block is reached when the call is
    rejected, when the text has no bracketed span, and when [JSON.parse]
    throws on the span. *)
Definition model_failed (h : Host) (n : nat) : Prop :=
  model h n = Rejects
  \/ exists text, model h n = Responds text
                  /\ extract h bracket_open bracket_close text = None.

Definition getTrendingProducts (h : Host) (products : list Product.t)
    (maxResults : Z) : M json :=
  (answer <- ask_for_array h ;;
   match answer with
   | Some v => ret v
   | None =>
       ret (JArr (List.map Recommendation.to_json
                    (trending_fallback h products maxResults)))
   end)%model.

(** *** getSimilarProducts *)

Definition price_distance (targetProduct p : Product.t) : Q :=
  Qabs (Product.price p - Product.price targetProduct).

Definition similar_recommendation (targetProduct p : Product.t) : Recommendation.t :=
  {| Recommendation.productId := Product.id p;
     Recommendation.score := 80 - price_distance targetProduct p / 10;
     Recommendation.reason :=
       ("Similar " ++ Product.category p ++ " product from " ++ Product.brand p)%string;
     Recommendation.category := "similar" |}.

(** The statement after the [try] block ("Fallback to category-based
    similarity"). *)
Definition similar_fallback (targetProduct : Product.t) (allProducts : list Product.t)
    (maxResults : Z) : list Recommendation.t :=
  List.map (similar_recommendation targetProduct)
    (JS.slice0
       (JS.sort (fun a b => price_distance targetProduct a
                            - price_distance targetProduct b)
          (List.filter
             (fun p => negb (String.eqb (Product.id p) (Product.id targetProduct))
                       && String.eqb (Product.category p) (Product.category targetProduct))
             allProducts))
       maxResults).

Definition getSimilarProducts (h : Host) (targetProduct : Product.t)
    (allProducts : list Product.t) (maxResults : Z) : M json :=
  (answer <- ask_for_array h ;;
   match answer with
   | Some v => ret v
   | None =>
       ret (JArr (List.map Recommendation.to_json
                    (similar_fallback targetProduct allProducts maxResults)))
   end)%model.

(** *** Statements about the result of generateRecommendations *)

(** Two entries of a result share their [productId]: the two reads succeed
    and give identical values. *)
Definition shares_productId (a b : json) : bool :=
  match Value.get a "productId", Value.get b "productId" with
  | Returns x, Returns y => Value.strict_eq_apart x y
  | _, _ => false
  end.

(** "No two entries have the same productId." *)
Definition distinct_productIds (items : list json) : Prop :=
  ForallOrdPairs (fun a b => shares_productId a b = false) items.

(** "The returned sequence has length at most maxCount and no two entries
    of it have the same productId." *)
Definition bounded_and_distinct (h : Host) (userId : string)
    (products : list Product.t) (userPreferences : UserPreference.t)
    (maxRecommendations : Z) (n : nat) : Prop :=
  exists (items : list json) (n' : nat),
    generateRecommendations h userId products userPreferences maxRecommendations n
    = (Returns (JArr items), n')
    /\ (Z.of_nat (length items) <= maxRecommendations)%Z
    /\ distinct_productIds items.

(** The calls numbered [n] to [n' - 1] were all answered with text. *)
Definition answered (h : Host) (n n' : nat) : Prop :=
  forall m : nat, (n <= m < n')%nat -> model h m <> Rejects.

(** A computation only moves the call counter forward, and returns only
    when every call it issued was answered. *)
Definition accounted {A} (h : Host) (c : M A) : Prop :=
  forall (n : nat) (r : result A) (n' : nat),
    c n = (r, n') ->
    (n <= n')%nat /\ forall a : A, r = Returns a -> answered h n n'.

(** Every reply of the model from call [n] on is prose: text with neither a
    braced nor a bracketed span. *)
Definition only_prose (h : Host) (n : nat) : Prop :=
  forall m : nat, (n <= m)%nat ->
    exists text, model h m = Responds text
                 /\ JS.match_span brace_open brace_close text = None
                 /\ JS.match_span bracket_open bracket_close text = None.

(** *** Example data *)

Definition quote : string := String (ascii_of_nat 34) EmptyString.

Definition quoted (s : string) : string := (quote ++ s ++ quote)%string.

(** The text
    [[{"productId":"p1","score":90,"reason":"a","category":"collaborative"},
      {"productId":"p1","score":80,"reason":"b","category":"content_based"}]]
    (without the line break), a ranking that names product p1 twice. *)
Definition ranking_text : string :=
  ("[{" ++ quoted "productId" ++ ":" ++ quoted "p1" ++ ","
        ++ quoted "score" ++ ":90,"
        ++ quoted "reason" ++ ":" ++ quoted "a" ++ ","
        ++ quoted "category" ++ ":" ++ quoted "collaborative" ++ "},{"
        ++ quoted "productId" ++ ":" ++ quoted "p1" ++ ","
        ++ quoted "score" ++ ":80,"
        ++ quoted "reason" ++ ":" ++ quoted "b" ++ ","
        ++ quoted "category" ++ ":" ++ quoted "content_based" ++ "}]")%string.

(** What [JSON.parse] returns on [ranking_text]. *)
Definition ranking_value : json :=
  JArr [JObj [("productId", JStr "p1"); ("score", JNum (Finite 90));
              ("reason", JStr "a"); ("category", JStr "collaborative")];
        JObj [("productId", JStr "p1"); ("score", JNum (Finite 80));
              ("reason", JStr "b"); ("category", JStr "content_based")]].

(** The text
    [[{"productId":"p2","score":40,"reason":"c","category":"collaborative"},
      {"productId":"p3","score":70,"reason":"d","category":"collaborative"},
      {"productId":"p2","score":10,"reason":"e","category":"collaborative"}]],
    candidates of the collaborative stage with p2 named twice. *)
Definition candidates_text : string :=
  ("[{" ++ quoted "productId" ++ ":" ++ quoted "p2" ++ ","
        ++ quoted "score" ++ ":40,"
        ++ quoted "reason" ++ ":" ++ quoted "c" ++ ","
        ++ quoted "category" ++ ":" ++ quoted "collaborative" ++ "},{"
        ++ quoted "productId" ++ ":" ++ quoted "p3" ++ ","
        ++ quoted "score" ++ ":70,"
        ++ quoted "reason" ++ ":" ++ quoted "d" ++ ","
        ++ quoted "category" ++ ":" ++ quoted "collaborative" ++ "},{"
        ++ quoted "productId" ++ ":" ++ quoted "p2" ++ ","
        ++ quoted "score" ++ ":10,"
        ++ quoted "reason" ++ ":" ++ quoted "e" ++ ","
        ++ quoted "category" ++ ":" ++ quoted "collaborative" ++ "}]")%string.

Definition candidates_value : json :=
  JArr [JObj [("productId", JStr "p2"); ("score", JNum (Finite 40));
              ("reason", JStr "c"); ("category", JStr "collaborative")];
        JObj [("productId", JStr "p3"); ("score", JNum (Finite 70));
              ("reason", JStr "d"); ("category", JStr "collaborative")];
        JObj [("productId", JStr "p2"); ("score", JNum (Finite 10));
              ("reason", JStr "e"); ("category", JStr "collaborative")]].

(** Library functions for the examples: they agree with [JSON.parse],
    [Number::toString] and [StringToNumber] on every argument the example
    runs pass to them (the two texts above; the integers 5, 10, 40, 70, 80
    and 90; no string). *)
Definition example_parse (s : string) : option json :=
  if String.eqb s ranking_text then Some ranking_value
  else if String.eqb s candidates_text then Some candidates_value
  else None.

Definition example_NumberToString (x : number) : string :=
  match x with
  | Finite q => pretty (Qnum q / Zpos (Qden q))%Z
  | PosInf => "Infinity"
  | NegInf => "-Infinity"
  end.

Definition example_StringToNumber (s : string) : option number := None.

Definition example_host (replies : nat -> reply) : Host :=
  {| JSON_parse := example_parse;
     NumberToString := example_NumberToString;
     StringToNumber := example_StringToNumber;
     model := replies |}.

(** Prose for the analysis and the candidates, then a ranking with a
    duplicate. *)
Definition duplicating_model (n : nat) : reply :=
  match n with
  | 2%nat => Responds ranking_text
  | _ => Responds "I cannot help with that."
  end.

(** Prose for the analysis, candidates with a duplicate, prose for the
    ranking. *)
Definition unranked_model (n : nat) : reply :=
  match n with
  | 1%nat => Responds candidates_text
  | _ => Responds "I cannot help with that."
  end.

(** A model that rejects every call. *)
Definition failing_model (n : nat) : reply := Rejects.

(** The preferences of the repository's test "should handle API failures
    gracefully". *)
Definition test_preferences : UserPreference.t :=
  {| UserPreference.userId := "test-user-id";
     UserPreference.preferredCategories := [];
     UserPreference.preferredBrands := [];
     UserPreference.priceRange := (0, 1000);
     UserPreference.preferredFeatures := [];
     UserPreference.interactionHistory := [] |}.

(** The product of the repository's tests. *)
Definition test_product : Product.t :=
  {| Product.id := "1";
     Product.name := "iPhone 15 Pro";
     Product.category := "Electronics";
     Product.subcategory := "Smartphones";
     Product.price := 99999 # 100;
     Product.originalPrice := 99999 # 100;
     Product.description := "Latest iPhone with advanced camera";
     Product.features := ["A17 Pro chip"; "Titanium design"; "Pro camera system"];
     Product.tags := ["apple"; "smartphone"; "premium"];
     Product.brand := "Apple";
     Product.ratings := {| Product.average := 48 # 10; Product.count := 1234 |} |}.

Definition electronics_preferences : UserPreference.t :=
  {| UserPreference.userId := "test-user-id";
     UserPreference.preferredCategories := ["Electronics"];
     UserPreference.preferredBrands := ["Apple"];
     UserPreference.priceRange := (500, 1500);
     UserPreference.preferredFeatures := ["premium"; "camera"];
     UserPreference.interactionHistory := [] |}.

(** Three products of one category priced 100, 90 and 150. *)
Definition priced (id : string) (price : Q) : Product.t :=
  {| Product.id := id;
     Product.name := id;
     Product.category := "Electronics";
     Product.subcategory := "Smartphones";
     Product.price := price;
     Product.originalPrice := price;
     Product.description := "";
     Product.features := [];
     Product.tags := [];
     Product.brand := "Apple";
     Product.ratings := {| Product.average := 4; Product.count := 10 |} |}.

Definition target_100 : Product.t := priced "target" 100.
Definition candidate_90 : Product.t := priced "near" 90.
Definition candidate_150 : Product.t := priced "far" 150.

(** Product A, rated 4.0 by 100 reviews, and product B, rated 4.5 by 5. *)
Definition rated (id : string) (average : Q) (count : nat) : Product.t :=
  {| Product.id := id;
     Product.name := id;
     Product.category := "Electronics";
     Product.subcategory := "Smartphones";
     Product.price := 100;
     Product.originalPrice := 100;
     Product.description := "";
     Product.features := [];
     Product.tags := [];
     Product.brand := "Apple";
     Product.ratings := {| Product.average := average; Product.count := count |} |}.

Definition product_A : Product.t := rated "A" 4 100.
Definition product_B : Product.t := rated "B" (9 # 2) 5.

End AIRecommendationService.

(** ** lib/interaction-tracker.ts *)

Module InteractionTracker.

Local Open Scope Q_scope.

Definition interactionType_name (k : InteractionType) : string :=
  match k with
  | view => "view"
  | like => "like"
  | purchase => "purchase"
  | cart_add => "cart_add"
  | wishlist_add => "wishlist_add"
  end.

Module Metadata.
Record t : Type := {
  searchQuery : option string;
  category : option string;
  price : option Q;
  referrer : option string;
  durationOnProduct : option Q
}.
(** The object literal [{}]. *)
Definition empty : t :=
  {| searchQuery := None; category := None; price := None;
     referrer := None; durationOnProduct := None |}.
End Metadata.

Module UserInteraction.
(** A [Date] is held as milliseconds since the epoch, in memory and in its
    stored (ISO string) form alike. *)
Record t : Type := {
  id : string;
  userId : string;
  productId : string;
  interactionType : InteractionType;
  timestamp : Z;
  sessionId : string;
  metadata : option Metadata.t
}.
End UserInteraction.

(** [Omit<UserInteraction, 'id' | 'timestamp'>], the argument of
    [trackInteraction]. *)
Module NewInteraction.
Record t : Type := {
  userId : string;
  productId : string;
  interactionType : InteractionType;
  sessionId : string;
  metadata : option Metadata.t
}.
End NewInteraction.

Module UserPreference.
Record t : Type := {
  userId : string;
  preferredCategories : list string;
  preferredBrands : list string;
  priceRange : Q * Q;
  preferredFeatures : list string;
  interactionHistory : list UserInteraction.t;
  lastUpdated : Z
}.
End UserPreference.

(** *** The remote store (Supabase) *)

(** The object passed to [insert] on table [user_interactions]. *)
Module InsertRow.
Record t : Type := {
  user_id : string;
  product_id : string;
  interaction_type : InteractionType;
  session_id : string;
  metadata : Metadata.t
}.
End InsertRow.

(** A row of [user_preferences]; every column is nullable. *)
Module PreferenceRow.
Record t : Type := {
  preferred_categories : option (list string);
  preferred_brands : option (list string);
  price_range_min : option Q;
  price_range_max : option Q;
  preferred_features : option (list string);
  updated_at : option Z
}.
End PreferenceRow.

(** A row of [user_interactions] as [select('*')] returns it. *)
Module InteractionRow.
Record t : Type := {
  id : string;
  product_id : string;
  interaction_type : InteractionType;
  created_at : Z;
  session_id : string;
  metadata : option Metadata.t
}.
End InteractionRow.

(** What an awaited call on the Supabase client does. *)
Inductive outcome (A : Type) : Type :=
  | Rejected
  | Resolved (a : A).
Arguments Rejected {A}.
Arguments Resolved {A} a.

(** The remote side as the tracker sees it.  [auth_getUser] resolves with
    [data.user], the identifier of the authenticated user or [null];
    [insert] resolves with whether [error] is set; the two queries resolve
    with [data], a row (list of rows) or [null].  Each operation of the
    tracker modelled here issues each call at most once. *)
Record Remote : Type := {
  auth_getUser : outcome (option string);
  insert : InsertRow.t -> outcome bool;
  select_preferences : string -> outcome (option PreferenceRow.t);
  select_interactions : string -> outcome (option (list InteractionRow.t))
}.

(** *** The local fallback store and the trace of effects *)

(** [localStorage]: the entry under key [user_interactions] and the entries
    under the keys [user_preferences_<id>], indexed by [<id>].  An entry is
    the text [JSON.stringify] wrote, held as the value it denotes; [None] is
    an absent key.  Reads and writes of [localStorage] do not fail. *)
Record LocalStorage : Type := {
  user_interactions : option (list UserInteraction.t);
  user_preferences : gmap string UserPreference.t
}.

Inductive event : Type :=
  | AuthGetUser
  | RemoteInsert (table : string) (row : InsertRow.t)
  | RemoteSelect (table : string) (user_id : string)
  | LocalGetItem (key : string)
  | LocalSetItem (key : string).

(** Whether an event is a call on the remote store's tables. *)
Definition remote_read (e : event) : bool :=
  match e with RemoteSelect _ _ => true | _ => false end.

Definition remote_write (e : event) : bool :=
  match e with RemoteInsert _ _ => true | _ => false end.

Definition local_write (e : event) : bool :=
  match e with LocalSetItem _ => true | _ => false end.

Definition remote_call (e : event) : bool :=
  match e with
  | AuthGetUser | RemoteInsert _ _ | RemoteSelect _ _ => true
  | _ => false
  end.

(** The world a tracker acts on; [trace] lists the effects, oldest first. *)
Record World : Type := {
  localStorage : LocalStorage;
  trace : list event
}.

(** A tracker: the Supabase client and the session identifier drawn in the
    constructor. *)
Record Tracker : Type := {
  supabase : Remote;
  sessionId : string
}.

Definition T (A : Type) : Type := Eff World A.

Definition emit (e : event) : T unit :=
  fun w => (Returns tt,
            {| localStorage := localStorage w; trace := (trace w ++ [e])%list |}).

Definition await {A} (e : event) (o : outcome A) : T A :=
  (_ <- emit e ;;
   match o with
   | Rejected => throw
   | Resolved a => ret a
   end)%model.

Definition getItem_interactions : T (option (list UserInteraction.t)) :=
  (_ <- emit (LocalGetItem "user_interactions") ;;
   fun w => (Returns (user_interactions (localStorage w)), w))%model.

Definition setItem_interactions (interactions : list UserInteraction.t) : T unit :=
  (_ <- emit (LocalSetItem "user_interactions") ;;
   fun w => (Returns tt,
             {| localStorage :=
                  {| user_interactions := Some interactions;
                     user_preferences := user_preferences (localStorage w) |};
                trace := trace w |}))%model.

Definition getItem_preferences (key : string) : T (option UserPreference.t) :=
  (_ <- emit (LocalGetItem ("user_preferences_" ++ key)) ;;
   fun w => (Returns (user_preferences (localStorage w) !! key), w))%model.

(** *** trackInteractionLocal *)

(** [newId] and [now] are the values of [Math.random().toString(36)
    .substring(2, 15)] and [new Date()] on this call. *)
Definition newInteraction (t : Tracker) (interaction : NewInteraction.t)
    (newId : string) (now : Z) : UserInteraction.t :=
  {| UserInteraction.id := newId;
     UserInteraction.userId := NewInteraction.userId interaction;
     UserInteraction.productId := NewInteraction.productId interaction;
     UserInteraction.interactionType := NewInteraction.interactionType interaction;
     UserInteraction.timestamp := now;
     UserInteraction.sessionId := sessionId t;
     UserInteraction.metadata :=
       Some (default Metadata.empty (NewInteraction.metadata interaction)) |}.

(** [interactions.push(x); if (interactions.length > 1000)
     interactions.splice(0, interactions.length - 1000)] *)
Definition push_capped (interactions : list UserInteraction.t) (x : UserInteraction.t)
  : list UserInteraction.t :=
  let pushed := (interactions ++ [x])%list in
  if (1000 <? length pushed)%nat then drop (length pushed - 1000) pushed
  else pushed.

Definition trackInteractionLocal (t : Tracker) (interaction : NewInteraction.t)
    (newId : string) (now : Z) : T unit :=
  (stored <- getItem_interactions ;;
   setItem_interactions
     (push_capped (default [] stored) (newInteraction t interaction newId now)))%model.

(** One call of [trackInteractionLocal]: its argument and the values of the
    random identifier and of the clock on that call. *)
Definition Insertion : Type := NewInteraction.t * string * Z.

Definition stored_as (t : Tracker) (x : Insertion) : UserInteraction.t :=
  let '(interaction, newId, now) := x in newInteraction t interaction newId now.

(** Consecutive calls of [trackInteractionLocal], first to last. *)
Definition trackInteractionLocal_each (t : Tracker) (insertions : list Insertion)
    (w : World) : World :=
  fold_left
    (fun w (x : Insertion) =>
       let '(interaction, newId, now) := x in
       snd (trackInteractionLocal t interaction newId now w))
    insertions w.

(** *** trackInteraction *)

Definition trackInteraction (t : Tracker) (interaction : NewInteraction.t)
    (newId : string) (now : Z) : T unit :=
  try_catch
    (user <- await AuthGetUser (auth_getUser (supabase t)) ;;
     match user with
     | None => ret tt
     | Some user_id =>
         let row :=
           {| InsertRow.user_id := user_id;
              InsertRow.product_id := NewInteraction.productId interaction;
              InsertRow.interaction_type := NewInteraction.interactionType interaction;
              InsertRow.session_id := sessionId t;
              InsertRow.metadata :=
                default Metadata.empty (NewInteraction.metadata interaction) |} in
         error <- await (RemoteInsert "user_interactions" row) (insert (supabase t) row) ;;
         if (error : bool) then trackInteractionLocal t interaction newId now
         else ret tt
     end)%model
    (trackInteractionLocal t interaction newId now).

(** *** getUserPreferences *)

Definition getDefaultPreferences (now : Z) : UserPreference.t :=
  {| UserPreference.userId := "anonymous";
     UserPreference.preferredCategories := [];
     UserPreference.preferredBrands := [];
     UserPreference.priceRange := (0, 3000);
     UserPreference.preferredFeatures := [];
     UserPreference.interactionHistory := [];
     UserPreference.lastUpdated := now |}.

(** An optional string when it is truthy: neither [undefined]/[null] nor
    empty. *)
Definition truthy (x : option string) : option string :=
  match x with
  | Some s => if String.eqb s "" then None else Some s
  | None => None
  end.

(** [x || d] on optional strings. *)
Definition or_string (x d : option string) : option string :=
  match truthy x with
  | Some s => Some s
  | None => d
  end.

(** [x || d] on an optional number: [0] and [null] give [d]. *)
Definition or_number (x : option Q) (d : Q) : Q :=
  match x with
  | Some q => if Qeq_bool q 0 then d else q
  | None => d
  end.

Definition getUserPreferencesLocal (userId : option string) (now : Z)
  : T UserPreference.t :=
  (stored <- getItem_preferences (default "anonymous" (truthy userId)) ;;
   match stored with
   | Some preferences => ret preferences
   | None => ret (getDefaultPreferences now)
   end)%model.

Definition interaction_of_row (targetUserId : string) (i : InteractionRow.t)
  : UserInteraction.t :=
  {| UserInteraction.id := InteractionRow.id i;
     UserInteraction.userId := targetUserId;
     UserInteraction.productId := InteractionRow.product_id i;
     UserInteraction.interactionType := InteractionRow.interaction_type i;
     UserInteraction.timestamp := InteractionRow.created_at i;
     UserInteraction.sessionId := InteractionRow.session_id i;
     UserInteraction.metadata :=
       Some (default Metadata.empty (InteractionRow.metadata i)) |}.

Definition getUserPreferences (t : Tracker) (userId : option string) (now : Z)
  : T UserPreference.t :=
  try_catch
    (user <- await AuthGetUser (auth_getUser (supabase t)) ;;
     match truthy (or_string userId user) with
     | None => ret (getDefaultPreferences now)
     | Some targetUserId =>
         preferences <-
           await (RemoteSelect "user_preferences" targetUserId)
             (select_preferences (supabase t) targetUserId) ;;
         interactions <-
           await (RemoteSelect "user_interactions" targetUserId)
             (select_interactions (supabase t) targetUserId) ;;
         ret {| UserPreference.userId := targetUserId;
                UserPreference.preferredCategories :=
                  default [] (preferences ≫= PreferenceRow.preferred_categories);
                UserPreference.preferredBrands :=
                  default [] (preferences ≫= PreferenceRow.preferred_brands);
                UserPreference.priceRange :=
                  (or_number (preferences ≫= PreferenceRow.price_range_min) 0,
                   or_number (preferences ≫= PreferenceRow.price_range_max) 3000);
                UserPreference.preferredFeatures :=
                  default [] (preferences ≫= PreferenceRow.preferred_features);
                UserPreference.interactionHistory :=
                  default [] (List.map (interaction_of_row targetUserId) <$> interactions);
                UserPreference.lastUpdated :=
                  default now (preferences ≫= PreferenceRow.updated_at) |}
     end)%model
    (getUserPreferencesLocal userId now).

(** *** getUserAnalytics *)

Definition getAllInteractions : T (list UserInteraction.t) :=
  (stored <- getItem_interactions ;;
   ret (default [] stored))%model.

Definition getUserInteractions (userId : string) : T (list UserInteraction.t) :=
  (interactions <- getAllInteractions ;;
   ret (List.filter (fun i => String.eqb (UserInteraction.userId i) userId) interactions))%model.

(** [acc[k] = (acc[k] || 0) + 1] on a [Record<string, number>] that starts
    empty (for a key that names no property of [Object.prototype]). *)
Definition count_key (acc : gmap string nat) (k : string) : gmap string nat :=
  <[k := (default 0 (acc !! k) + 1)%nat]> acc.

Definition is_view (k : InteractionType) : bool :=
  match k with view => true | _ => false end.

(** [interaction.metadata?.category || 'Unknown'] *)
Definition category_or_unknown (i : UserInteraction.t) : string :=
  default "Unknown" (truthy (UserInteraction.metadata i ≫= Metadata.category)).

(** [i.metadata?.durationOnProduct] when truthy. *)
Definition duration (i : UserInteraction.t) : option Q :=
  match UserInteraction.metadata i ≫= Metadata.durationOnProduct with
  | Some d => if Qeq_bool d 0 then None else Some d
  | None => None
  end.

Module Analytics.
Record t : Type := {
  totalInteractions : nat;
  interactionCounts : gmap string nat;
  categoryViews : gmap string nat;
  avgSessionDuration : Q;
  recentActivity : nat;
  preferredCategories : list string;
  preferredBrands : list string;
  priceRange : Q * Q;
  accountAge : Z
}.
End Analytics.

(** The part of the result computed from the interactions alone. *)
Definition interactionCounts_of (interactions : list UserInteraction.t) : gmap string nat :=
  fold_left (fun acc i => count_key acc (interactionType_name (UserInteraction.interactionType i)))
    interactions ∅.

Definition categoryViews_of (interactions : list UserInteraction.t) : gmap string nat :=
  fold_left (fun acc i => count_key acc (category_or_unknown i))
    (List.filter (fun i => is_view (UserInteraction.interactionType i)) interactions) ∅.

Definition avgSessionDuration_of (interactions : list UserInteraction.t) : Q :=
  let sessionDurations := omap duration interactions in
  if (0 <? length sessionDurations)%nat
  then fold_left Qplus sessionDurations 0 / inject_Z (Z.of_nat (length sessionDurations))
  else 0.

Definition recentActivity_of (weekAgo : Z) (interactions : list UserInteraction.t) : nat :=
  length (List.filter (fun i => (weekAgo <? UserInteraction.timestamp i)%Z) interactions).

(** [now] is [new Date()]; [weekAgo] is [new Date()] moved back seven
    calendar days by [setDate]. *)
Definition getUserAnalytics (t : Tracker) (userId : string) (now weekAgo : Z)
  : T Analytics.t :=
  (interactions <- getUserInteractions userId ;;
   preferences <- getUserPreferences t (Some userId) now ;;
   ret {| Analytics.totalInteractions := length interactions;
          Analytics.interactionCounts := interactionCounts_of interactions;
          Analytics.categoryViews := categoryViews_of interactions;
          Analytics.avgSessionDuration := avgSessionDuration_of interactions;
          Analytics.recentActivity := recentActivity_of weekAgo interactions;
          Analytics.preferredCategories := UserPreference.preferredCategories preferences;
          Analytics.preferredBrands := UserPreference.preferredBrands preferences;
          Analytics.priceRange := UserPreference.priceRange preferences;
          Analytics.accountAge := UserPreference.lastUpdated preferences |})%model.

(** *** Statements about the effects of a call *)

(** The events a computation added to the trace. *)
Definition new_events (w w' : World) : list event :=
  drop (length (trace w)) (trace w').

(** "The call issues no read against the remote store." *)
Definition reads_local_only (t : Tracker) (userId : string) (now weekAgo : Z)
    (w : World) : Prop :=
  Forall (fun e => remote_read e = false)
    (new_events w (snd (getUserAnalytics t userId now weekAgo w))).

(** *** Example data *)

(** A remote side as the repository's tests mock it: the user is
    authenticated, [insert] succeeds, [single()] resolves with no row and
    [limit()] with no rows. *)
Definition mock_remote : Remote :=
  {| auth_getUser := Resolved (Some "test-user-id");
     insert := fun _ => Resolved false;
     select_preferences := fun _ => Resolved None;
     select_interactions := fun _ => Resolved (Some []) |}.

Definition mock_tracker : Tracker :=
  {| supabase := mock_remote; sessionId := "test-session" |}.

(** A remote side on which nobody is signed in. *)
Definition signed_out_tracker : Tracker :=
  {| supabase :=
       {| auth_getUser := Resolved None;
          insert := fun _ => Resolved false;
          select_preferences := fun _ => Resolved None;
          select_interactions := fun _ => Resolved (Some []) |};
     sessionId := "test-session" |}.

Definition empty_world : World :=
  {| localStorage := {| user_interactions := None; user_preferences := ∅ |};
     trace := [] |}.

Definition view_interaction : NewInteraction.t :=
  {| NewInteraction.userId := "test-user-id";
     NewInteraction.productId := "1";
     NewInteraction.interactionType := view;
     NewInteraction.sessionId := "test-session";
     NewInteraction.metadata := None |}.

End InteractionTracker.

(** ** The tracker's preferences as the service receives them *)

(** The callers pass the [UserPreference] that [getUserPreferences] returns
    to [generateRecommendations]; TypeScript's structural typing makes it a
    [UserPreference] of the service, whose code reads none of the extra
    fields. *)
Definition metadata_fields (m : InteractionTracker.Metadata.t) : list (string * json) :=
  omap Datatypes.id
    [(fun s => ("searchQuery", JStr s)) <$> InteractionTracker.Metadata.searchQuery m;
     (fun s => ("category", JStr s)) <$> InteractionTracker.Metadata.category m;
     (fun q => ("price", JNum (Finite q))) <$> InteractionTracker.Metadata.price m;
     (fun s => ("referrer", JStr s)) <$> InteractionTracker.Metadata.referrer m;
     (fun q => ("durationOnProduct", JNum (Finite q)))
       <$> InteractionTracker.Metadata.durationOnProduct m].

Definition service_interaction (i : InteractionTracker.UserInteraction.t)
  : UserInteraction.t :=
  {| UserInteraction.productId := InteractionTracker.UserInteraction.productId i;
     UserInteraction.interactionType := InteractionTracker.UserInteraction.interactionType i;
     UserInteraction.timestamp := InteractionTracker.UserInteraction.timestamp i;
     UserInteraction.metadata :=
       metadata_fields <$> InteractionTracker.UserInteraction.metadata i |}.

Definition service_preferences (p : InteractionTracker.UserPreference.t)
  : UserPreference.t :=
  {| UserPreference.userId := InteractionTracker.UserPreference.userId p;
     UserPreference.preferredCategories :=
       InteractionTracker.UserPreference.preferredCategories p;
     UserPreference.preferredBrands := InteractionTracker.UserPreference.preferredBrands p;
     UserPreference.priceRange := InteractionTracker.UserPreference.priceRange p;
     UserPreference.preferredFeatures :=
       InteractionTracker.UserPreference.preferredFeatures p;
     UserPreference.interactionHistory :=
       List.map service_interaction
         (InteractionTracker.UserPreference.interactionHistory p) |}.

(** ** Counting the calls to the model *)

(** A computation issues at least [lo] and at most [hi] calls. *)
Definition spends {A} (c : M A) (lo hi : nat) : Prop :=
  forall (n : nat) (r : result A) (n' : nat),
    c n = (r, n') -> (n + lo <= n' <= n + hi)%nat.

(** A computation that returns has issued at least [lo] calls. *)
Definition spends_to_return {A} (c : M A) (lo : nat) : Prop :=
  forall (n : nat) (a : A) (n' : nat),
    c n = (Returns a, n') -> (n + lo <= n')%nat.

(** ** De-duplication and ranking without exceptions *)

Module Merge.

(** "Keep an entry when no earlier entry of the array shares its
    productId": what [uniqueRecommendations] computes when no property read
    throws.  [earlier] lists the entries that precede [items] in the
    array. *)
Fixpoint keep_first (earlier items : list json) : list json :=
  match items with
  | [] => []
  | x :: items' =>
      let rest := keep_first (earlier ++ [x]) items' in
      if forallb (fun y => negb (AIRecommendationService.shares_productId y x)) earlier
      then x :: rest
      else rest
  end.


(** The score of a candidate whose [score] is a finite number, and 0 for
    any other candidate. *)
Definition finite_score (x : json) : Q :=
  match Value.get x "score" with
  | Returns (Some (JNum (Finite q))) => q
  | _ => 0%Q
  end.

End Merge.

(** ** The remaining operations of lib/interaction-tracker.ts *)

Module TrackerOperations.

Import InteractionTracker.
Local Open Scope Q_scope.

(** [Partial<UserPreference>]: [None] is an absent property. *)
Module PartialPreference.
Record t : Type := {
  userId : option string;
  preferredCategories : option (list string);
  preferredBrands : option (list string);
  priceRange : option (Q * Q);
  preferredFeatures : option (list string);
  interactionHistory : option (list UserInteraction.t);
  lastUpdated : option Z
}.
End PartialPreference.

(** The object passed to [upsert] on table [user_preferences]. *)
Module UpsertRow.
Record t : Type := {
  user_id : string;
  preferred_categories : list string;
  preferred_brands : list string;
  price_range_min : Q;
  price_range_max : Q;
  preferred_features : list string;
  updated_at : Z
}.
End UpsertRow.

(** A row of [select('product_id, interaction_type, created_at')]; the
    column [interaction_type] holds one of the five types (CHECK constraint
    of the schema). *)
Module TrendRow.
Record t : Type := {
  product_id : string;
  interaction_type : InteractionType;
  created_at : Z
}.
End TrendRow.

(** The calls on the Supabase client that the operations below add:
    [upsert] resolves with whether [error] is set, the query of the recent
    interactions with [data]. *)
Record RemoteTables : Type := {
  upsert : UpsertRow.t -> outcome bool;
  select_since : Z -> outcome (option (list TrendRow.t))
}.

(** The effects of these operations: those of the operations modelled
    earlier, and three more. *)
Inductive effect : Type :=
  | Earlier (e : event)
  | RemoteUpsert (table : string) (row : UpsertRow.t)
  | RemoteSelectSince (table : string) (since : Z)
  | LocalRemoveItem (key : string).

Record Session : Type := {
  store : LocalStorage;
  log : list effect
}.

Definition S (A : Type) : Type := Eff Session A.

(** An operation modelled earlier, run on the session's store; its effects
    are appended to the log. *)
Definition earlier {A} (c : T A) : S A :=
  fun s =>
    let '(r, w) := c {| localStorage := store s; trace := [] |} in
    (r, {| store := localStorage w;
           log := (log s ++ List.map Earlier (trace w))%list |}).

Definition record (e : effect) : S unit :=
  fun s => (Returns tt, {| store := store s; log := (log s ++ [e])%list |}).

Definition awaited {A} (e : effect) (o : outcome A) : S A :=
  (_ <- record e ;;
   match o with
   | Rejected => throw
   | Resolved a => ret a
   end)%model.

(** *** updateUserPreferencesLocal *)

(** [{ ...existing, ...preferences, lastUpdated: new Date() }] *)
Definition merge_preferences (existing : UserPreference.t)
    (preferences : PartialPreference.t) (now : Z) : UserPreference.t :=
  {| UserPreference.userId :=
       default (UserPreference.userId existing) (PartialPreference.userId preferences);
     UserPreference.preferredCategories :=
       default (UserPreference.preferredCategories existing)
         (PartialPreference.preferredCategories preferences);
     UserPreference.preferredBrands :=
       default (UserPreference.preferredBrands existing)
         (PartialPreference.preferredBrands preferences);
     UserPreference.priceRange :=
       default (UserPreference.priceRange existing)
         (PartialPreference.priceRange preferences);
     UserPreference.preferredFeatures :=
       default (UserPreference.preferredFeatures existing)
         (PartialPreference.preferredFeatures preferences);
     UserPreference.interactionHistory :=
       default (UserPreference.interactionHistory existing)
         (PartialPreference.interactionHistory preferences);
     UserPreference.lastUpdated := now |}.

Definition setItem_preferences (key : string) (preferences : UserPreference.t) : T unit :=
  (_ <- emit (LocalSetItem ("user_preferences_" ++ key)) ;;
   fun w => (Returns tt,
             {| localStorage :=
                  {| user_interactions := user_interactions (localStorage w);
                     user_preferences := <[key := preferences]> (user_preferences (localStorage w)) |};
                trace := trace w |}))%model.

(** [now] is the value of [new Date()], which the call evaluates for the
    default preferences and for [lastUpdated]; one value stands for both. *)
Definition updateUserPreferencesLocal (preferences : PartialPreference.t) (now : Z)
  : T unit :=
  let userId := default "anonymous" (truthy (PartialPreference.userId preferences)) in
  (existing <- getUserPreferencesLocal (Some userId) now ;;
   setItem_preferences userId (merge_preferences existing preferences now))%model.

(** *** updateUserPreferences *)

Definition upsert_row (user_id : string) (preferences : PartialPreference.t) (now : Z)
  : UpsertRow.t :=
  {| UpsertRow.user_id := user_id;
     UpsertRow.preferred_categories :=
       default [] (PartialPreference.preferredCategories preferences);
     UpsertRow.preferred_brands :=
       default [] (PartialPreference.preferredBrands preferences);
     UpsertRow.price_range_min :=
       or_number (fst <$> PartialPreference.priceRange preferences) 0;
     UpsertRow.price_range_max :=
       or_number (snd <$> PartialPreference.priceRange preferences) 3000;
     UpsertRow.preferred_features :=
       default [] (PartialPreference.preferredFeatures preferences);
     UpsertRow.updated_at := now |}.

Definition updateUserPreferences (t : Tracker) (tables : RemoteTables)
    (preferences : PartialPreference.t) (now : Z) : S unit :=
  try_catch
    (user <- awaited (Earlier AuthGetUser) (auth_getUser (supabase t)) ;;
     match user with
     | None => ret tt
     | Some user_id =>
         let row := upsert_row user_id preferences now in
         error <- awaited (RemoteUpsert "user_preferences" row) (upsert tables row) ;;
         if (error : bool) then earlier (updateUserPreferencesLocal preferences now)
         else ret tt
     end)%model
    (earlier (updateUserPreferencesLocal preferences now)).

(** *** getTrendingProducts *)

(** [{ view: 1, like: 3, cart_add: 5, purchase: 10, wishlist_add: 2 }];
    every weight is non-zero, so [weights[type] || 1] is the weight. *)
Definition weight (k : InteractionType) : Z :=
  match k with
  | view => 1
  | like => 3
  | cart_add => 5
  | purchase => 10
  | wishlist_add => 2
  end.

(** A [Map<string, number>] as the list of its entries in insertion order. *)
Fixpoint map_get (k : string) (m : list (string * Z)) : option Z :=
  match m with
  | [] => None
  | (k', v) :: m' => if String.eqb k k' then Some v else map_get k m'
  end.

(** [m.set(k, v)]: an existing key keeps its place. *)
Fixpoint map_set (k : string) (v : Z) (m : list (string * Z)) : list (string * Z) :=
  match m with
  | [] => [(k, v)]
  | (k', v') :: m' =>
      if String.eqb k k' then (k', v) :: m' else (k', v') :: map_set k v m'
  end.

(** [x || 0] on a number read from the map. *)
Definition or_zero (x : option Z) : Z :=
  match x with
  | Some v => v
  | None => 0%Z
  end.

(** The body of [interactions.forEach]. *)
Definition add_score (productScores : list (string * Z)) (interaction : TrendRow.t)
  : list (string * Z) :=
  let currentScore := or_zero (map_get (TrendRow.product_id interaction) productScores) in
  map_set (TrendRow.product_id interaction)
    (currentScore + weight (TrendRow.interaction_type interaction))%Z productScores.

Definition productScores (interactions : list TrendRow.t) : list (string * Z) :=
  fold_left add_score interactions [].

(** [Array.from(productScores.entries()).sort((a, b) => b[1] - a[1])
      .slice(0, limit).map(([productId, score]) => ({ productId, score }))] *)
Definition top_scores (interactions : list TrendRow.t) (limit : Z) : list (string * Z) :=
  JS.slice0
    (JS.sort_by (fun a b => (0 <? snd b - snd a)%Z) (productScores interactions))
    limit.

(** [now] is the value of [Date.now()]. *)
Definition getTrendingProducts (tables : RemoteTables) (limit : Z) (now : Z)
  : S (list (string * Z)) :=
  try_catch
    (interactions <-
       awaited (RemoteSelectSince "user_interactions" (now - 7 * 24 * 60 * 60 * 1000)%Z)
         (select_since tables (now - 7 * 24 * 60 * 60 * 1000)%Z) ;;
     match interactions with
     | None => ret []
     | Some rows =>
         if (length rows =? 0)%nat then ret []
         else ret (top_scores rows limit)
     end)%model
    (ret []).

(** The sum of the weights of the rows of one product. *)
Definition score_of (productId : string) (rows : list TrendRow.t) : Z :=
  fold_right Z.add 0%Z
    (List.map (fun r => weight (TrendRow.interaction_type r))
       (List.filter (fun r => String.eqb (TrendRow.product_id r) productId) rows)).

(** The number of rows of one product and one interaction type. *)
Definition rows_of (productId : string) (k : InteractionType) (rows : list TrendRow.t)
  : nat :=
  length (List.filter
            (fun r => String.eqb (TrendRow.product_id r) productId
                      && String.eqb (interactionType_name (TrendRow.interaction_type r))
                           (interactionType_name k))
            rows).

(** *** clearUserData *)

Definition removeItem_preferences (key : string) : S unit :=
  (_ <- record (LocalRemoveItem ("user_preferences_" ++ key)) ;;
   fun s => (Returns tt,
             {| store :=
                  {| user_interactions := user_interactions (store s);
                     user_preferences := delete key (user_preferences (store s)) |};
                log := log s |}))%model.

Definition clearUserData (userId : string) : S unit :=
  (_ <- removeItem_preferences (default "anonymous" (truthy (Some userId))) ;;
   allInteractions <- earlier getAllInteractions ;;
   earlier (setItem_interactions
              (List.filter (fun i => negb (String.eqb (UserInteraction.userId i) userId))
                 allInteractions)))%model.

(** *** Sums over the counters of getUserAnalytics *)

(** The sum of the values of a [Record<string, number>]. *)
Definition total (counts : gmap string nat) : nat :=
  map_fold (fun _ v acc => (v + acc)%nat) 0%nat counts.

(** The number of interactions of one type. *)
Definition count_of_type (k : InteractionType) (interactions : list UserInteraction.t)
  : nat :=
  length (List.filter
            (fun i => String.eqb (interactionType_name (UserInteraction.interactionType i))
                        (interactionType_name k))
            interactions).

(** *** Example data *)

Definition quiet_tables : RemoteTables :=
  {| upsert := fun _ => Resolved false;
     select_since := fun _ => Resolved (Some []) |}.

Definition failing_tables : RemoteTables :=
  {| upsert := fun _ => Rejected;
     select_since := fun _ => Rejected |}.

Definition empty_session : Session :=
  {| store := {| user_interactions := None; user_preferences := ∅ |};
     log := [] |}.

Definition brands_only : PartialPreference.t :=
  {| PartialPreference.userId := None;
     PartialPreference.preferredCategories := None;
     PartialPreference.preferredBrands := Some ["Apple"];
     PartialPreference.priceRange := None;
     PartialPreference.preferredFeatures := None;
     PartialPreference.interactionHistory := None;
     PartialPreference.lastUpdated := None |}.

Definition recent_rows : list TrendRow.t :=
  [ {| TrendRow.product_id := "1"; TrendRow.interaction_type := view; TrendRow.created_at := 3 |};
    {| TrendRow.product_id := "2"; TrendRow.interaction_type := purchase; TrendRow.created_at := 2 |};
    {| TrendRow.product_id := "1"; TrendRow.interaction_type := like; TrendRow.created_at := 1 |} ].

Definition tables_with (rows : list TrendRow.t) : RemoteTables :=
  {| upsert := fun _ => Resolved false;
     select_since := fun _ => Resolved (Some rows) |}.

End TrackerOperations.

(** ** components/product-catalog.tsx: the interaction it tracks *)

Module ProductCatalog.

(** [products.find(p => p.id === productId)]; of the catalog's products
    the handler reads [id], [category] and [price]. *)
Definition find_product (products : list Product.t) (productId : string)
  : option Product.t :=
  List.find (fun p => String.eqb (Product.id p) productId) products.

(** The argument [handleInteraction] passes to
    [interactionTracker.trackInteraction]. *)
Definition tracked_interaction (products : list Product.t) (searchQuery : string)
    (productId : string) (interactionType : InteractionType)
  : InteractionTracker.NewInteraction.t :=
  {| InteractionTracker.NewInteraction.productId := productId;
     InteractionTracker.NewInteraction.interactionType := interactionType;
     InteractionTracker.NewInteraction.userId := "anonymous";
     InteractionTracker.NewInteraction.sessionId := "current_session";
     InteractionTracker.NewInteraction.metadata :=
       Some {| InteractionTracker.Metadata.category :=
                 Product.category <$> find_product products productId;
               InteractionTracker.Metadata.price :=
                 Product.price <$> find_product products productId;
               InteractionTracker.Metadata.searchQuery :=
                 InteractionTracker.truthy (Some searchQuery);
               InteractionTracker.Metadata.referrer := None;
               InteractionTracker.Metadata.durationOnProduct := None |} |}.

(** [likedProducts] and [cartItems], the two [Set<string>] states of the
    component; the page reads them with [has] and [size] only. *)
Record Selection : Type := {
  likedProducts : gset string;
  cartItems : gset string
}.

(** The state updates at the head of [handleInteraction]: [like] toggles the
    product in [likedProducts], [cart_add] adds it to [cartItems]. *)
Definition update_selection (s : Selection) (productId : string)
    (interactionType : InteractionType) : Selection :=
  match interactionType with
  | like =>
      {| likedProducts :=
           if decide (productId ∈ likedProducts s)
           then likedProducts s ∖ {[productId]}
           else likedProducts s ∪ {[productId]};
         cartItems := cartItems s |}
  | cart_add =>
      {| likedProducts := likedProducts s;
         cartItems := cartItems s ∪ {[productId]} |}
  | _ => s
  end.

(** One call of the handler: the new state and the interaction it tracks. *)
Definition handleInteraction (products : list Product.t) (searchQuery : string)
    (s : Selection) (productId : string) (interactionType : InteractionType)
  : Selection * InteractionTracker.NewInteraction.t :=
  (update_selection s productId interactionType,
   tracked_interaction products searchQuery productId interactionType).

End ProductCatalog.

(** ** Facts about the array operations *)

Section JSFacts.
Context {A : Type}.
Implicit Types (l : list A) (after : A -> A -> bool).

Lemma slice0_nonneg l e :
    0 <= e -> JS.slice0 l e = take (Z.to_nat e) l.
Proof.
    intros He. unfold JS.slice0.
    destruct (Z.ltb_spec e 0) as [Hlt|_]; [lia|].
    destruct (Z.le_ge_cases e (Z.of_nat (length l))) as [Hle|Hge].
    - now rewrite Z.min_l.
    - rewrite Z.min_r by lia. rewrite Nat2Z.id.
      rewrite !take_ge; [reflexivity | lia | lia].
Qed.

Lemma slice0_length_le l e : (length (JS.slice0 l e) <= length l)%nat.
Proof. unfold JS.slice0. rewrite length_take. lia. Qed.

Lemma slice0_length_nonneg l e :
    0 <= e -> Z.of_nat (length (JS.slice0 l e)) = Z.min e (Z.of_nat (length l)).
Proof. intros He. rewrite slice0_nonneg, length_take by done. lia. Qed.

Lemma slice0_prefix l e : JS.slice0 l e `prefix_of` l.
Proof. unfold JS.slice0. apply prefix_take. Qed.

Lemma slice0_nil e : JS.slice0 (@nil A) e = [].
Proof. unfold JS.slice0. now rewrite take_nil. Qed.

Lemma insert_by_perm after x l : Permutation (x :: l) (JS.insert_by after x l).
Proof.
    induction l as [|y l IH]; simpl; [reflexivity|].
    destruct (after x y); [|reflexivity].
    rewrite perm_swap. now apply perm_skip.
Qed.

Lemma sort_by_perm after l : Permutation l (JS.sort_by after l).
Proof.
    induction l as [|x l IH]; simpl; [reflexivity|].
    rewrite <- insert_by_perm. now apply perm_skip.
Qed.

Lemma sort_by_length after l : length (JS.sort_by after l) = length l.
Proof. symmetry. apply Permutation_length, sort_by_perm. Qed.

Lemma sort_by_In after l x : In x (JS.sort_by after l) <-> In x l.
Proof.
    split; apply Permutation_in; [symmetry|]; apply sort_by_perm.
Qed.

  (** When "must come after" is the strict part of a total preorder, the
      result is ordered: no element must come after a later one. *)
Section Ordered.
Variable after : A -> A -> bool.
Hypothesis after_asym : forall x y, after x y = true -> after y x = false.
Hypothesis after_trans :
      forall x y z, after x y = false -> after y z = false -> after x z = false.

Let R (x y : A) : Prop := after x y = false.

Lemma insert_by_sorted x l :
      StronglySorted R l -> StronglySorted R (JS.insert_by after x l).
Proof.
      induction 1 as [|y l Hs IH Hall]; simpl.
      - repeat constructor.
      - destruct (after x y) eqn:E.
        + constructor; [exact IH|].
          rewrite List.Forall_forall in *. intros z Hz.
          apply (Permutation_in _ (Permutation_sym (insert_by_perm after x l))) in Hz.
          destruct Hz as [<-|Hz]; [now apply after_asym | now apply Hall].
        + constructor; [now constructor|].
          constructor; [exact E|].
          rewrite List.Forall_forall in *. intros z Hz.
          apply (after_trans x y z); [exact E | now apply Hall].
Qed.

Lemma sort_by_sorted l : StronglySorted R (JS.sort_by after l).
Proof.
      induction l as [|x l IH]; simpl; [constructor | now apply insert_by_sorted].
Qed.
End Ordered.
End JSFacts.


(** ** Sorting by a rational key *)

Lemma positive_spec (q : Q) : JS.positive q = true <-> (0 < q)%Q.
Proof.
  unfold JS.positive, Qlt. simpl. rewrite Z.ltb_lt. lia.
Qed.

Lemma positive_false (q : Q) : JS.positive q = false <-> (q <= 0)%Q.
Proof.
  unfold JS.positive, Qle. simpl. rewrite Z.ltb_ge. lia.
Qed.

Lemma StronglySorted_weaken {A} (R R' : A -> A -> Prop) (l : list A) :
  (forall x y, R x y -> R' x y) -> StronglySorted R l -> StronglySorted R' l.
Proof.
  intros HR. induction 1 as [|x l Hs IH Hall]; constructor; [exact IH|].
  eapply List.Forall_impl; [|exact Hall]. intros y. apply HR.
Qed.

Section KeyedSort.
Context {A : Type} (key : A -> Q).

(** [arr.sort((a, b) => key(b) - key(a))] orders by descending key. *)
Lemma sort_descending (l : list A) :
  StronglySorted (fun a b => (key b <= key a)%Q)
    (JS.sort (fun a b => (key b - key a)%Q) l).
Proof.
  unfold JS.sort.
  eapply StronglySorted_weaken; [|apply sort_by_sorted].
  - intros x y H. simpl in H. apply positive_false in H. lra.
  - intros x y H. apply positive_spec in H. apply positive_false. lra.
  - intros x y z H1 H2. apply positive_false in H1, H2. apply positive_false. lra.
Qed.

(** [arr.sort((a, b) => key(a) - key(b))] orders by ascending key. *)
Lemma sort_ascending (l : list A) :
  StronglySorted (fun a b => (key a <= key b)%Q)
    (JS.sort (fun a b => (key a - key b)%Q) l).
Proof.
  unfold JS.sort.
  eapply StronglySorted_weaken; [|apply sort_by_sorted].
  - intros x y H. simpl in H. apply positive_false in H. lra.
  - intros x y H. apply positive_spec in H. apply positive_false. lra.
  - intros x y z H1 H2. apply positive_false in H1, H2. apply positive_false. lra.
Qed.
End KeyedSort.

Lemma filter_filter {A} (f g : A -> bool) (l : list A) :
  List.filter g (List.filter f l) = List.filter (fun x => f x && g x) l.
Proof.
  induction l as [|x l IH]; simpl; [reflexivity|].
  destruct (f x); simpl; [destruct (g x)|]; now rewrite IH.
Qed.

Lemma includes_spec (l : list string) (x : string) :
  JS.includes l x = true <-> In x l.
Proof.
  unfold JS.includes. rewrite existsb_exists. split.
  - intros (y & Hy & E). apply String.eqb_eq in E. now subst.
  - intros H. exists x. split; [exact H | apply String.eqb_refl].
Qed.

Lemma includes_nil (x : string) : JS.includes [] x = false.
Proof. reflexivity. Qed.

(** ** getFallbackRecommendations *)

Section Fallback.
Import AIRecommendationService.

(** C7: getFallbackRecommendations leaves out exactly the products whose id
    occurs in the interaction history (nothing else, such as stock, is
    looked at), keeps the ones whose category is a preferred category,
    orders them by descending rating average, keeps the first
    maxRecommendations of them, and emits for each its id, the score
    average * 20, the reason built from its category and the tag
    "fallback". *)
Theorem getFallbackRecommendations_characterised
    (products : list Product.t) (userPreferences : UserPreference.t)
    (maxRecommendations : Z) :
  0 <= maxRecommendations ->
  let interacted :=
    List.map UserInteraction.productId
      (UserPreference.interactionHistory userPreferences) in
  exists ranked : list Product.t,
    Permutation ranked
      (List.filter
         (fun p => negb (JS.includes interacted (Product.id p))
                   && JS.includes (UserPreference.preferredCategories userPreferences)
                        (Product.category p))
         products)
    /\ (forall p, In p ranked <->
          In p products
          /\ ~ In (Product.id p) interacted
          /\ In (Product.category p) (UserPreference.preferredCategories userPreferences))
    /\ StronglySorted
         (fun a b => (Product.average (Product.ratings b)
                      <= Product.average (Product.ratings a))%Q)
         ranked
    /\ getFallbackRecommendations products userPreferences maxRecommendations
       = List.map
           (fun p =>
              {| Recommendation.productId := Product.id p;
                 Recommendation.score := (Product.average (Product.ratings p) * 20)%Q;
                 Recommendation.reason :=
                   "Recommended based on your interest in " ++ Product.category p;
                 Recommendation.category := "fallback" |})
           (take (Z.to_nat maxRecommendations) ranked).
Proof.
  intros Hmax interacted.
  set (eligible := fun p => negb (JS.includes interacted (Product.id p))
                   && JS.includes (UserPreference.preferredCategories userPreferences)
                        (Product.category p)).
  set (key := fun p => Product.average (Product.ratings p)).
  exists (JS.sort (fun a b => (key b - key a)%Q) (List.filter eligible products)).
  assert (Hperm : Permutation
            (JS.sort (fun a b => (key b - key a)%Q) (List.filter eligible products))
            (List.filter eligible products))
    by (symmetry; apply sort_by_perm).
  split; [exact Hperm|]. split; [|split].
  - intros p. rewrite (Permutation_in' (eq_refl p) Hperm).
    rewrite filter_In. unfold eligible.
    rewrite andb_true_iff, negb_true_iff, <- not_true_iff_false, !includes_spec.
    tauto.
  - apply (sort_descending key).
  - unfold getFallbackRecommendations. fold interacted.
    rewrite filter_filter, slice0_nonneg by exact Hmax. reflexivity.
Qed.

(** C10: with no preferred category the fallback recommends nothing,
    whatever the catalog and the bound, and so does generateRecommendations
    whenever its pipeline throws. *)
Theorem getFallbackRecommendations_no_category
    (products : list Product.t) (userPreferences : UserPreference.t)
    (maxRecommendations : Z) :
  UserPreference.preferredCategories userPreferences = [] ->
  getFallbackRecommendations products userPreferences maxRecommendations = []
  /\ forall (h : Host) (userId : string) (n n' : nat),
       pipeline h products userPreferences maxRecommendations n = (Throws, n') ->
       generateRecommendations h userId products userPreferences maxRecommendations n
       = (Returns (JArr []), n').
Proof.
  intros Hcat.
  assert (E : getFallbackRecommendations products userPreferences maxRecommendations = []).
  { unfold getFallbackRecommendations. rewrite Hcat.
    assert (F : forall l : list Product.t,
               List.filter (fun p => JS.includes [] (Product.category p)) l = [])
      by (induction l; simpl; auto).
    rewrite F. unfold JS.sort. simpl. now rewrite slice0_nil. }
  split; [exact E|].
  intros h userId n n' Hp. unfold generateRecommendations, try_catch.
  rewrite Hp, E. reflexivity.
Qed.

(** The product of the repository's tests, for a user who prefers its
    category, with room for one recommendation. *)
Lemma getFallbackRecommendations_characterised_witness :
  0 <= 1
  /\ exists ranked : list Product.t,
       Permutation ranked [test_product]
       /\ getFallbackRecommendations [test_product] electronics_preferences 1
          = List.map fallback_recommendation (take 1 ranked).
Proof.
  split; [lia|].
  destruct (getFallbackRecommendations_characterised
              [test_product] electronics_preferences 1 ltac:(lia))
    as (ranked & Hperm & _ & _ & E).
  exists ranked. split; [exact Hperm | exact E].
Defined.

(** The default preferences of the tracker have no preferred category. *)
Lemma getFallbackRecommendations_no_category_witness :
  UserPreference.preferredCategories
    (service_preferences (InteractionTracker.getDefaultPreferences 0)) = []
  /\ getFallbackRecommendations [test_product]
       (service_preferences (InteractionTracker.getDefaultPreferences 0)) 10 = [].
Proof.
  split; [reflexivity|].
  apply (getFallbackRecommendations_no_category [test_product]
           (service_preferences (InteractionTracker.getDefaultPreferences 0)) 10).
  reflexivity.
Defined.

End Fallback.

(** ** The [try] block around a model call that asks for an array *)

Section AskForArray.
Import AIRecommendationService.

Lemma ask_for_array_eq (h : Host) (n : nat) :
  ask_for_array h n
  = (Returns match model h n with
             | Rejects => None
             | Responds text => extract h bracket_open bracket_close text
             end, S n).
Proof.
  unfold ask_for_array, try_catch, bind, generateContent, extract, ret, throw.
  destruct (model h n) as [|text]; [reflexivity|].
  destruct (JS.match_span bracket_open bracket_close text) as [m|]; [|reflexivity].
  destruct (JSON_parse h m); reflexivity.
Qed.

Lemma ask_for_array_failed (h : Host) (n : nat) :
  model_failed h n -> ask_for_array h n = (Returns None, S n).
Proof.
  intros [E|(text & E & Hx)]; rewrite ask_for_array_eq, E; [reflexivity|].
  now rewrite Hx.
Qed.

End AskForArray.

(** ** getSimilarProducts *)

Section Similar.
Import AIRecommendationService.

Lemma price_distance_eq (targetProduct p : Product.t) (a b : Q) :
  (Product.price p == a)%Q -> (Product.price targetProduct == b)%Q ->
  (price_distance targetProduct p == Qabs (a - b))%Q.
Proof. intros Hp Ht. unfold price_distance. now rewrite Hp, Ht. Qed.

(** C5: when the model call fails, getSimilarProducts returns the products
    of the target's category other than the target, in ascending order of
    |price - target.price|, cut to maxResults, each scored
    80 - |price - target.price| / 10 with no clamping.  For a target priced
    100 and candidates priced 90 and 150 the 90 one comes first with score
    79, the 150 one second with score 75; a candidate priced 1000 scores
    -10. *)
Theorem getSimilarProducts_fallback
    (h : Host) (targetProduct : Product.t) (allProducts : list Product.t)
    (maxResults : Z) (n : nat) :
  model_failed h n ->
  getSimilarProducts h targetProduct allProducts maxResults n
  = (Returns (JArr (List.map Recommendation.to_json
                      (similar_fallback targetProduct allProducts maxResults))),
     S n)
  /\ (exists ranked : list Product.t,
        Permutation ranked
          (List.filter
             (fun p => negb (String.eqb (Product.id p) (Product.id targetProduct))
                       && String.eqb (Product.category p) (Product.category targetProduct))
             allProducts)
        /\ (forall p, In p ranked <->
              In p allProducts
              /\ Product.id p <> Product.id targetProduct
              /\ Product.category p = Product.category targetProduct)
        /\ StronglySorted
             (fun a b => (Qabs (Product.price a - Product.price targetProduct)
                          <= Qabs (Product.price b - Product.price targetProduct))%Q)
             ranked
        /\ similar_fallback targetProduct allProducts maxResults
           = List.map
               (fun p =>
                  {| Recommendation.productId := Product.id p;
                     Recommendation.score :=
                       (80 - Qabs (Product.price p - Product.price targetProduct) / 10)%Q;
                     Recommendation.reason :=
                       "Similar " ++ Product.category p ++ " product from " ++ Product.brand p;
                     Recommendation.category := "similar" |})
               (JS.slice0 ranked maxResults))
  /\ (forall near far : Product.t,
        (Product.price targetProduct == 100)%Q ->
        (Product.price near == 90)%Q -> (Product.price far == 150)%Q ->
        Product.category near = Product.category targetProduct ->
        Product.category far = Product.category targetProduct ->
        Product.id near <> Product.id targetProduct ->
        Product.id far <> Product.id targetProduct ->
        2 <= maxResults ->
        similar_fallback targetProduct [far; near] maxResults
        = [similar_recommendation targetProduct near;
           similar_recommendation targetProduct far]
        /\ similar_fallback targetProduct [near; far] maxResults
           = [similar_recommendation targetProduct near;
              similar_recommendation targetProduct far]
        /\ (Recommendation.score (similar_recommendation targetProduct near) == 79)%Q
        /\ (Recommendation.score (similar_recommendation targetProduct far) == 75)%Q)
  /\ (forall p : Product.t,
        (Product.price targetProduct == 100)%Q -> (Product.price p == 1000)%Q ->
        (Recommendation.score (similar_recommendation targetProduct p) == -10)%Q).
Proof.
  intros Hfail. split; [|split; [|split]].
  - unfold getSimilarProducts, bind. rewrite (ask_for_array_failed h n Hfail).
    reflexivity.
  - set (keep := fun p => negb (String.eqb (Product.id p) (Product.id targetProduct))
                   && String.eqb (Product.category p) (Product.category targetProduct)).
    set (key := price_distance targetProduct).
    exists (JS.sort (fun a b => (key a - key b)%Q) (List.filter keep allProducts)).
    assert (Hperm : Permutation
              (JS.sort (fun a b => (key a - key b)%Q) (List.filter keep allProducts))
              (List.filter keep allProducts))
      by (symmetry; apply sort_by_perm).
    split; [exact Hperm|]. split; [|split].
    + intros p. rewrite (Permutation_in' (eq_refl p) Hperm), filter_In.
      unfold keep. rewrite andb_true_iff, negb_true_iff, String.eqb_neq, String.eqb_eq.
      tauto.
    + apply (sort_ascending key).
    + reflexivity.
  - intros near far Ht Hn Hf Cn Cf In_ If_ Hmax.
    assert (Dn : (price_distance targetProduct near == 10)%Q)
      by (rewrite (price_distance_eq _ _ _ _ Hn Ht); reflexivity).
    assert (Df : (price_distance targetProduct far == 50)%Q)
      by (rewrite (price_distance_eq _ _ _ _ Hf Ht); reflexivity).
    assert (Pfn : JS.positive (price_distance targetProduct far
                               - price_distance targetProduct near)%Q = true)
      by (apply positive_spec; rewrite Dn, Df; reflexivity).
    assert (Pnf : JS.positive (price_distance targetProduct near
                               - price_distance targetProduct far)%Q = false)
      by (apply positive_false; rewrite Dn, Df; discriminate).
    apply String.eqb_neq in In_, If_. apply String.eqb_eq in Cn, Cf.
    unfold similar_fallback. simpl. rewrite In_, If_, Cn, Cf. simpl.
    unfold JS.sort. simpl. rewrite Pfn, Pnf.
    rewrite !slice0_nonneg by lia.
    replace (Z.to_nat maxResults) with (S (S (Z.to_nat (maxResults - 2)))) by lia.
    simpl. rewrite take_nil.
    repeat split; unfold similar_recommendation; simpl.
    + rewrite Dn. reflexivity.
    + rewrite Df. reflexivity.
  - intros p Ht Hp. unfold similar_recommendation. simpl.
    rewrite (price_distance_eq _ _ _ _ Hp Ht). reflexivity.
Qed.

Lemma getSimilarProducts_fallback_witness :
  model_failed (example_host failing_model) 0
  /\ getSimilarProducts (example_host failing_model) target_100
       [target_100; candidate_150; candidate_90] 5 0%nat
     = (Returns (JArr (List.map Recommendation.to_json
                         (similar_fallback target_100
                            [target_100; candidate_150; candidate_90] 5))), 1%nat)
  /\ similar_fallback target_100 [candidate_150; candidate_90] 5
     = [similar_recommendation target_100 candidate_90;
        similar_recommendation target_100 candidate_150].
Proof.
  assert (F : model_failed (example_host failing_model) 0) by (left; reflexivity).
  split; [exact F|].
  destruct (getSimilarProducts_fallback (example_host failing_model) target_100
              [target_100; candidate_150; candidate_90] 5 0 F)
    as (E & _ & Hexample & _).
  split; [exact E|].
  apply (Hexample candidate_90 candidate_150); try reflexivity; try discriminate.
Defined.

End Similar.

(** ** getTrendingProducts *)

Section Trending.
Import AIRecommendationService.

Lemma trending_after_true (a b : Product.t) :
  trending_after a b = true <-> (trending_weight a < trending_weight b)%R.
Proof.
  unfold trending_after.
  destruct (Rlt_dec 0 (trending_weight b - trending_weight a)); split;
    intros; try discriminate; try reflexivity; lra.
Qed.

Lemma trending_after_false (a b : Product.t) :
  trending_after a b = false <-> (trending_weight b <= trending_weight a)%R.
Proof.
  unfold trending_after.
  destruct (Rlt_dec 0 (trending_weight b - trending_weight a)); split;
    intros; try discriminate; try reflexivity; lra.
Qed.

Lemma trending_sorted (l : list Product.t) :
  StronglySorted (fun a b => (trending_weight b <= trending_weight a)%R)
    (JS.sort_by trending_after l).
Proof.
  eapply StronglySorted_weaken; [|apply sort_by_sorted].
  - intros x y H. now apply trending_after_false.
  - intros x y H. apply trending_after_true in H. apply trending_after_false. lra.
  - intros x y z H1 H2. apply trending_after_false in H1, H2.
    apply trending_after_false. lra.
Qed.

(** 4.0 * ln(101) > 4.5 * ln(6), since 101 > 6 * 6. *)
Lemma ln_101_vs_6 : (9 / 2 * ln 6 < 4 * ln 101)%R.
Proof.
  assert (H6 : (0 < ln 6)%R) by (rewrite <- ln_1; apply ln_increasing; lra).
  assert (H36 : (ln (6 * 6) < ln 101)%R) by (apply ln_increasing; lra).
  rewrite ln_mult in H36 by lra. lra.
Qed.

Lemma trending_weight_eq (p : Product.t) (a : Q) (c : nat) :
  (Product.average (Product.ratings p) == a)%Q ->
  Product.count (Product.ratings p) = c ->
  trending_weight p = (Q2R a * ln (INR c + 1))%R.
Proof.
  intros Ha Hc. unfold trending_weight. now rewrite (Qeq_eqR _ _ Ha), Hc.
Qed.

Lemma slice0_take {A} (l : list A) (e : Z) :
  JS.slice0 l e
  = take (Z.to_nat (if e <? 0 then Z.of_nat (length l) + e else e)) l.
Proof.
  unfold JS.slice0. destruct (Z.ltb_spec e 0) as [Hneg|Hpos].
  - f_equal. lia.
  - destruct (Z.le_ge_cases e (Z.of_nat (length l))) as [Hle|Hge].
    + now rewrite Z.min_l.
    + rewrite Z.min_r by lia. rewrite Nat2Z.id.
      rewrite !take_ge; [reflexivity | lia | lia].
Qed.

Lemma Forall2_map_r {A B} (P : A -> B -> Prop) (f : A -> B) (l : list A) :
  (forall x, P x (f x)) -> Forall2 P l (List.map f l).
Proof.
  intros H. induction l as [|x l IH]; cbn [List.map]; constructor; auto.
Qed.

(** C6: when the model call fails, getTrendingProducts returns one entry
    for each of the first maxResults products of the catalog arranged in
    descending order of ratings.average * ln(ratings.count + 1) (a negative
    maxResults counts from the end); the entry of a product has its id, the
    score average * 20, a reason quoting the average and the count, and the
    category trending.  A product rated 4.0 by 100 reviews weighs more than
    one rated 4.5 by 5 reviews and is ranked first, so that with
    maxResults = 1 it is the only entry. *)
Theorem getTrendingProducts_fallback
    (h : Host) (products : list Product.t) (maxResults : Z) (n : nat) :
  model_failed h n ->
  exists (ranked : list Product.t) (result : list Recommendation.t),
    getTrendingProducts h products maxResults n
    = (Returns (JArr (List.map Recommendation.to_json result)), S n)
    /\ Permutation ranked products
    /\ StronglySorted
         (fun a b =>
            (Q2R (Product.average (Product.ratings b))
             * ln (INR (Product.count (Product.ratings b)) + 1)
             <= Q2R (Product.average (Product.ratings a))
                * ln (INR (Product.count (Product.ratings a)) + 1))%R)
         ranked
    /\ Forall2
         (fun p r =>
            Recommendation.productId r = Product.id p
            /\ Recommendation.score r = (Product.average (Product.ratings p) * 20)%Q
            /\ Recommendation.reason r
               = ("Trending due to high rating ("
                  ++ NumberToString h (Finite (Product.average (Product.ratings p)))
                  ++ ") and "
                  ++ NumberToString h
                       (Finite (inject_Z (Z.of_nat (Product.count (Product.ratings p)))))
                  ++ " reviews")%string
            /\ Recommendation.category r = "trending")
         (take (Z.to_nat (if maxResults <? 0
                          then Z.of_nat (length products) + maxResults
                          else maxResults))
            ranked)
         result
    /\ (0 <= maxResults ->
        length result = Nat.min (Z.to_nat maxResults) (length products))
    /\ (forall a b : Product.t,
          (Product.average (Product.ratings a) == 4)%Q ->
          Product.count (Product.ratings a) = 100%nat ->
          (Product.average (Product.ratings b) == 9 # 2)%Q ->
          Product.count (Product.ratings b) = 5%nat ->
          (Q2R (Product.average (Product.ratings b))
           * ln (INR (Product.count (Product.ratings b)) + 1)
           < Q2R (Product.average (Product.ratings a))
             * ln (INR (Product.count (Product.ratings a)) + 1))%R
          /\ (products = [b; a] \/ products = [a; b] -> ranked = [a; b])).
Proof.
  intros Hfail.
  exists (JS.sort_by trending_after products),
         (trending_fallback h products maxResults).
  assert (Hlen : length (JS.sort_by trending_after products) = length products)
    by apply sort_by_length.
  assert (Hall : Forall2
         (fun p r =>
            Recommendation.productId r = Product.id p
            /\ Recommendation.score r = (Product.average (Product.ratings p) * 20)%Q
            /\ Recommendation.reason r
               = ("Trending due to high rating ("
                  ++ NumberToString h (Finite (Product.average (Product.ratings p)))
                  ++ ") and "
                  ++ NumberToString h
                       (Finite (inject_Z (Z.of_nat (Product.count (Product.ratings p)))))
                  ++ " reviews")%string
            /\ Recommendation.category r = "trending")
         (take (Z.to_nat (if maxResults <? 0
                          then Z.of_nat (length products) + maxResults
                          else maxResults))
            (JS.sort_by trending_after products))
         (trending_fallback h products maxResults)).
  { unfold trending_fallback. rewrite slice0_take, Hlen.
    apply Forall2_map_r. intros p. repeat split. }
  split; [|split; [|split; [|split; [|split]]]].
  - unfold getTrendingProducts, bind. rewrite (ask_for_array_failed h n Hfail).
    reflexivity.
  - symmetry. apply sort_by_perm.
  - apply trending_sorted.
  - exact Hall.
  - intros Hmax. apply Forall2_length in Hall. rewrite <- Hall.
    destruct (Z.ltb_spec maxResults 0) as [Hneg|_]; [lia|].
    rewrite length_take, Hlen. reflexivity.
  - intros a b Ha Ca Hb Cb.
    assert (W : (trending_weight b < trending_weight a)%R).
    { rewrite (trending_weight_eq a 4 100 Ha Ca), (trending_weight_eq b (9 # 2) 5 Hb Cb).
      replace (INR 100 + 1)%R with 101%R
        by (rewrite INR_IZR_INZ; change (Z.of_nat 100) with 100%Z; lra).
      replace (INR 5 + 1)%R with 6%R
        by (rewrite INR_IZR_INZ; change (Z.of_nat 5) with 5%Z; lra).
      replace (Q2R 4) with 4%R by (unfold Q2R; simpl; lra).
      replace (Q2R (9 # 2)) with (9 / 2)%R by (unfold Q2R; simpl; lra).
      exact ln_101_vs_6. }
    split; [exact W|].
    assert (Eba : trending_after b a = true) by now apply trending_after_true.
    assert (Eab : trending_after a b = false) by (apply trending_after_false; lra).
    intros [->| ->]; cbn [JS.sort_by foldr JS.insert_by].
    + now rewrite Eba.
    + now rewrite Eab.
Qed.

(** Product B before product A in the catalog and maxResults = 1: the one
    entry returned is that of A, with score 80. *)
Lemma getTrendingProducts_fallback_witness :
  model_failed (example_host failing_model) 0
  /\ exists r : Recommendation.t,
       getTrendingProducts (example_host failing_model) [product_B; product_A] 1 0%nat
       = (Returns (JArr [Recommendation.to_json r]), 1%nat)
       /\ Recommendation.productId r = "A"
       /\ Recommendation.score r = (4 * 20)%Q
       /\ Recommendation.category r = "trending".
Proof.
  assert (F : model_failed (example_host failing_model) 0) by (left; reflexivity).
  split; [exact F|].
  destruct (getTrendingProducts_fallback (example_host failing_model)
              [product_B; product_A] 1 0 F)
    as (ranked & result & E & _ & _ & Hall & _ & Hexample).
  destruct (Hexample product_A product_B) as [_ Hranked]; try reflexivity.
  rewrite (Hranked (or_introl eq_refl)) in Hall.
  cbn [Z.ltb Z.compare Z.to_nat Pos.to_nat Pos.iter_op Nat.add take] in Hall.
  inversion Hall as [|p r ps rs (Hid & Hscore & _ & Hcat) Hrest]; subst.
  inversion Hrest; subst.
  exists r. split; [exact E|]. split; [exact Hid|]. split; [exact Hscore | exact Hcat].
Defined.

End Trending.

(** ** The interaction tracker's local fallback store *)

Section LocalStore.
Import InteractionTracker.

Lemma push_capped_length (l : list UserInteraction.t) (x : UserInteraction.t) :
  (length (push_capped l x) <= 1000)%nat.
Proof.
  unfold push_capped.
  destruct (Nat.ltb_spec 1000 (length (l ++ [x]))) as [H|H].
  - rewrite length_drop. lia.
  - exact H.
Qed.

Lemma push_capped_room (l : list UserInteraction.t) (x : UserInteraction.t) :
  (length l < 1000)%nat -> push_capped l x = (l ++ [x])%list.
Proof.
  intros H. unfold push_capped.
  destruct (Nat.ltb_spec 1000 (length (l ++ [x]))) as [H'|_]; [|reflexivity].
  rewrite length_app in H'. simpl in H'. lia.
Qed.

Lemma push_capped_full (l : list UserInteraction.t) (x : UserInteraction.t) :
  length l = 1000%nat -> push_capped l x = (tail l ++ [x])%list.
Proof.
  intros H. unfold push_capped.
  assert (E : length (l ++ [x]) = 1001%nat) by (rewrite length_app; simpl; lia).
  rewrite E. change (1000 <? 1001)%nat with true. cbv iota.
  change (1001 - 1000)%nat with 1%nat.
  destruct l as [|y l]; [discriminate|]. reflexivity.
Qed.

Lemma trackInteractionLocal_eq (t : Tracker) (interaction : NewInteraction.t)
    (newId : string) (now : Z) (w : World) :
  trackInteractionLocal t interaction newId now w
  = (Returns tt,
     {| localStorage :=
          {| user_interactions :=
               Some (push_capped (default [] (user_interactions (localStorage w)))
                       (newInteraction t interaction newId now));
             user_preferences := user_preferences (localStorage w) |};
        trace := trace w ++ [LocalGetItem "user_interactions";
                             LocalSetItem "user_interactions"] |}).
Proof.
  unfold trackInteractionLocal, bind, getItem_interactions, setItem_interactions,
    bind, emit. simpl. now rewrite <- app_assoc.
Qed.

Lemma trackInteractionLocal_each_cons (t : Tracker) (interaction : NewInteraction.t)
    (newId : string) (now : Z) (insertions : list Insertion) (w : World) :
  trackInteractionLocal_each t ((interaction, newId, now) :: insertions) w
  = trackInteractionLocal_each t insertions
      {| localStorage :=
           {| user_interactions :=
                Some (push_capped (default [] (user_interactions (localStorage w)))
                        (newInteraction t interaction newId now));
              user_preferences := user_preferences (localStorage w) |};
         trace := trace w ++ [LocalGetItem "user_interactions";
                              LocalSetItem "user_interactions"] |}.
Proof.
  unfold trackInteractionLocal_each at 1. cbn [fold_left].
  rewrite trackInteractionLocal_eq. reflexivity.
Qed.

(** Below the cap, consecutive insertions append. *)
Lemma trackInteractionLocal_each_room (t : Tracker) (insertions : list Insertion)
    (w : World) :
  (length (default [] (user_interactions (localStorage w))) + length insertions
   <= 1000)%nat ->
  insertions <> [] ->
  user_interactions (localStorage (trackInteractionLocal_each t insertions w))
  = Some (default [] (user_interactions (localStorage w))
          ++ List.map (stored_as t) insertions)%list.
Proof.
  revert w. induction insertions as [|[[i newId] now] ins IH]; intros w Hlen Hne;
    [congruence|].
  rewrite trackInteractionLocal_each_cons.
  remember (default [] (user_interactions (localStorage w))) as l0 eqn:El0.
  cbn [length] in Hlen.
  assert (Hpush : push_capped l0 (newInteraction t i newId now)
                  = (l0 ++ [newInteraction t i newId now])%list)
    by (apply push_capped_room; lia).
  rewrite Hpush.
  destruct ins as [|y ins]; [reflexivity|].
  rewrite IH.
  - cbn [localStorage user_interactions]. f_equal.
    change (default [] (Some (l0 ++ [newInteraction t i newId now])%list))
      with (l0 ++ [newInteraction t i newId now])%list.
    rewrite <- app_assoc. reflexivity.
  - cbn [localStorage user_interactions].
    change (default [] (Some (l0 ++ [newInteraction t i newId now])%list))
      with (l0 ++ [newInteraction t i newId now])%list.
    rewrite length_app. cbn [length] in *. lia.
  - discriminate.
Qed.

Lemma trackInteractionLocal_each_app (t : Tracker) (xs ys : list Insertion) (w : World) :
  trackInteractionLocal_each t (xs ++ ys) w
  = trackInteractionLocal_each t ys (trackInteractionLocal_each t xs w).
Proof. unfold trackInteractionLocal_each. apply fold_left_app. Qed.

(** C4: after any call of trackInteractionLocal the local store holds at
    most 1000 interactions; 1001 insertions into an empty store leave the
    1000 inserted last, in insertion order, the first one being dropped. *)
Theorem trackInteractionLocal_capped_fifo (t : Tracker) :
  (forall (interaction : NewInteraction.t) (newId : string) (now : Z) (w : World),
     exists (w' : World) (stored : list UserInteraction.t),
       trackInteractionLocal t interaction newId now w = (Returns tt, w')
       /\ user_interactions (localStorage w') = Some stored
       /\ (length stored <= 1000)%nat)
  /\ (forall (insertions : list Insertion) (w : World),
        default [] (user_interactions (localStorage w)) = [] ->
        length insertions = 1001%nat ->
        user_interactions (localStorage (trackInteractionLocal_each t insertions w))
        = Some (List.map (stored_as t) (tail insertions))
        /\ length (List.map (stored_as t) (tail insertions)) = 1000%nat).
Proof.
  split.
  - intros interaction newId now w. rewrite trackInteractionLocal_eq.
    eexists _, _. split; [reflexivity|]. split; [reflexivity|].
    apply push_capped_length.
  - intros insertions w Hempty Hlen.
    split; [|rewrite length_map; destruct insertions; simpl in *; lia].
    destruct (exists_last (l := insertions)) as (front & [[i newId] now] & ->).
    { intros ->. discriminate. }
    rewrite length_app in Hlen. simpl in Hlen.
    assert (Hfront : length front = 1000%nat) by lia.
    rewrite trackInteractionLocal_each_app, trackInteractionLocal_each_cons.
    cbn [trackInteractionLocal_each fold_left localStorage user_interactions].
    rewrite trackInteractionLocal_each_room, Hempty.
    + cbn [default from_option app]. unfold Datatypes.id.
      rewrite push_capped_full by now rewrite length_map.
      destruct front as [|x front]; [discriminate|]. cbn [tail List.map app].
      now rewrite map_app.
    + rewrite Hempty. cbn [length]. lia.
    + intros ->. discriminate.
Qed.

(** The same interaction inserted 1001 times into an empty store. *)
Lemma trackInteractionLocal_capped_fifo_witness :
  length (repeat (view_interaction, "id", 0) 1001) = 1001%nat
  /\ user_interactions
       (localStorage
          (trackInteractionLocal_each mock_tracker
             (repeat (view_interaction, "id", 0) 1001) empty_world))
     = Some (List.map (stored_as mock_tracker)
               (tail (repeat (view_interaction, "id", 0) 1001))).
Proof.
  split; [apply repeat_length|].
  apply (trackInteractionLocal_capped_fifo mock_tracker);
    [reflexivity | apply repeat_length].
Defined.

(** C8: when the identity lookup resolves with no user, trackInteraction
    returns normally having only asked for the user: nothing is inserted
    remotely, nothing is written locally, the local store is as before. *)
Theorem trackInteraction_no_user (t : Tracker) (interaction : NewInteraction.t)
    (newId : string) (now : Z) (w : World) :
  auth_getUser (supabase t) = Resolved None ->
  exists w' : World,
    trackInteraction t interaction newId now w = (Returns tt, w')
    /\ localStorage w' = localStorage w
    /\ trace w' = (trace w ++ [AuthGetUser])%list
    /\ Forall (fun e => remote_write e = false /\ local_write e = false)
         (new_events w w').
Proof.
  intros Hauth.
  exists {| localStorage := localStorage w; trace := trace w ++ [AuthGetUser] |}.
  split; [|split; [reflexivity|split; [reflexivity|]]].
  - unfold trackInteraction, try_catch, bind, await, emit. simpl.
    rewrite Hauth. reflexivity.
  - unfold new_events. simpl. rewrite drop_app_length. repeat constructor.
Qed.

Lemma trackInteraction_no_user_witness :
  auth_getUser (supabase signed_out_tracker) = Resolved None
  /\ exists w' : World,
       trackInteraction signed_out_tracker view_interaction "id" 0 empty_world
       = (Returns tt, w')
       /\ localStorage w' = localStorage empty_world
       /\ trace w' = [AuthGetUser]
       /\ Forall (fun e => remote_write e = false /\ local_write e = false)
            (new_events empty_world w').
Proof.
  split; [reflexivity|].
  exact (trackInteraction_no_user signed_out_tracker view_interaction "id" 0
           empty_world eq_refl).
Defined.

(** C3 as stated fails: on the remote side the repository's tests mock,
    getUserAnalytics queries both remote tables. *)
Lemma getUserAnalytics_reads_remote :
  ~ reads_local_only mock_tracker "test-user-id" 0 0 empty_world.
Proof.
  unfold reads_local_only. vm_compute. intros H.
  inversion H as [|e1 l1 _ H1]; subst.
  inversion H1 as [|e2 l2 _ H2]; subst.
  inversion H2 as [|e3 l3 H3 _]; subst.
  discriminate.
Qed.

Lemma getUserInteractions_eq (userId : string) (w : World) :
  getUserInteractions userId w
  = (Returns (List.filter (fun i => String.eqb (UserInteraction.userId i) userId)
                (default [] (user_interactions (localStorage w)))),
     {| localStorage := localStorage w;
        trace := trace w ++ [LocalGetItem "user_interactions"] |}).
Proof. reflexivity. Qed.

(** getUserPreferences always returns, leaves the local store as it was,
    and starts by asking the remote side for the user. *)
Lemma getUserPreferences_returns (t : Tracker) (userId : option string) (now : Z)
    (w : World) :
  exists (p : UserPreference.t) (rest : list event),
    getUserPreferences t userId now w
    = (Returns p,
       {| localStorage := localStorage w;
          trace := trace w ++ AuthGetUser :: rest |}).
Proof.
  unfold getUserPreferences, try_catch, bind, await, emit, getUserPreferencesLocal,
    getItem_preferences, bind, emit, ret, throw.
  cbn [localStorage trace].
  repeat (match goal with
          | |- context [match ?x with Rejected => _ | Resolved _ => _ end] => destruct x
          | |- context [match ?x with Some _ => _ | None => _ end] => destruct x
          end; cbn [localStorage trace user_preferences]);
    eexists _, _; rewrite <- ?app_assoc; reflexivity.
Qed.

Lemma truthy_nonempty (s : string) : s <> "" -> truthy (Some s) = Some s.
Proof.
  intros H. unfold truthy. now destruct (String.eqb_spec s "").
Qed.

(** With a user identifier at hand and the identity lookup resolved, the
    preferences are read from the remote table. *)
Lemma getUserPreferences_selects (t : Tracker) (userId : string)
    (user : option string) (now : Z) (w : World) :
  auth_getUser (supabase t) = Resolved user -> userId <> "" ->
  exists (p : UserPreference.t) (rest : list event),
    getUserPreferences t (Some userId) now w
    = (Returns p,
       {| localStorage := localStorage w;
          trace := trace w ++ AuthGetUser
                           :: RemoteSelect "user_preferences" userId :: rest |}).
Proof.
  intros Hauth Hne.
  unfold getUserPreferences, try_catch, bind, await, emit, getUserPreferencesLocal,
    getItem_preferences, bind, emit, ret, throw.
  rewrite Hauth. unfold or_string. rewrite (truthy_nonempty userId Hne).
  cbn [localStorage trace]. rewrite (truthy_nonempty userId Hne).
  repeat (match goal with
          | |- context [match ?x with Rejected => _ | Resolved _ => _ end] => destruct x
          | |- context [match ?x with Some _ => _ | None => _ end] => destruct x
          end; cbn [localStorage trace user_preferences]);
    eexists _, _; rewrite <- ?app_assoc; reflexivity.
Qed.

(** C3, amended: getUserAnalytics always returns and leaves the local store
    as it was.  Its interaction aggregates (total, counts by type, views by
    category, mean duration, recent activity) are computed from the
    interactions of the local store alone.  It also calls
    getUserPreferences: the identity lookup is issued on every call, the
    table user_preferences is read whenever the lookup resolves and userId
    is not empty, and the preference fields of the result are those of that
    call. *)
Theorem getUserAnalytics_effects (t : Tracker) (userId : string) (now weekAgo : Z)
    (w : World) :
  exists (a : Analytics.t) (w' : World),
    getUserAnalytics t userId now weekAgo w = (Returns a, w')
    /\ localStorage w' = localStorage w
    /\ (let interactions :=
          List.filter (fun i => String.eqb (UserInteraction.userId i) userId)
            (default [] (user_interactions (localStorage w))) in
        Analytics.totalInteractions a = length interactions
        /\ Analytics.interactionCounts a = interactionCounts_of interactions
        /\ Analytics.categoryViews a = categoryViews_of interactions
        /\ Analytics.avgSessionDuration a = avgSessionDuration_of interactions
        /\ Analytics.recentActivity a = recentActivity_of weekAgo interactions)
    /\ (exists rest : list event,
          new_events w w' = LocalGetItem "user_interactions" :: AuthGetUser :: rest)
    /\ (forall user : option string,
          auth_getUser (supabase t) = Resolved user -> userId <> "" ->
          exists rest : list event,
            new_events w w'
            = LocalGetItem "user_interactions" :: AuthGetUser
              :: RemoteSelect "user_preferences" userId :: rest)
    /\ (exists p : UserPreference.t,
          fst (getUserPreferences t (Some userId) now
                 {| localStorage := localStorage w;
                    trace := trace w ++ [LocalGetItem "user_interactions"] |})
          = Returns p
          /\ Analytics.preferredCategories a = UserPreference.preferredCategories p
          /\ Analytics.preferredBrands a = UserPreference.preferredBrands p
          /\ Analytics.priceRange a = UserPreference.priceRange p
          /\ Analytics.accountAge a = UserPreference.lastUpdated p).
Proof.
  set (w1 := {| localStorage := localStorage w;
                trace := trace w ++ [LocalGetItem "user_interactions"] |}).
  destruct (getUserPreferences_returns t (Some userId) now w1) as (p & rest & E).
  unfold getUserAnalytics, bind. rewrite getUserInteractions_eq. fold w1.
  rewrite E. unfold ret.
  eexists _, _. split; [reflexivity|].
  split; [reflexivity|]. split; [repeat split|]. split; [|split].
  - exists rest. unfold new_events. cbn [trace localStorage w1].
    now rewrite <- app_assoc, drop_app_length.
  - intros user Hauth Hne.
    destruct (getUserPreferences_selects t userId user now w1 Hauth Hne)
      as (p' & rest' & E').
    rewrite E in E'. injection E' as _ Et. apply app_inv_head in Et.
    injection Et as ->. exists rest'.
    unfold new_events. cbn [trace localStorage w1].
    now rewrite <- app_assoc, drop_app_length.
  - exists p. repeat split.
Qed.

(** On the remote side the repository's tests mock, the call reads the
    table user_preferences. *)
Lemma getUserAnalytics_effects_witness :
  auth_getUser (supabase mock_tracker) = Resolved (Some "test-user-id")
  /\ "test-user-id" <> ""
  /\ exists (a : Analytics.t) (w' : World) (rest : list event),
       getUserAnalytics mock_tracker "test-user-id" 0 0 empty_world = (Returns a, w')
       /\ localStorage w' = localStorage empty_world
       /\ new_events empty_world w'
          = LocalGetItem "user_interactions" :: AuthGetUser
            :: RemoteSelect "user_preferences" "test-user-id" :: rest.
Proof.
  split; [reflexivity|]. split; [discriminate|].
  destruct (getUserAnalytics_effects mock_tracker "test-user-id" 0 0 empty_world)
    as (a & w' & E & Hls & _ & _ & Hselect & _).
  destruct (Hselect (Some "test-user-id") eq_refl ltac:(discriminate)) as (rest & Hr).
  exists a, w', rest. split; [exact E|]. split; [exact Hls | exact Hr].
Defined.

End LocalStore.

(** ** The pipeline of generateRecommendations *)

Section Pipeline.
Import AIRecommendationService.

(** *** Calls to the model are accounted for *)

Lemma accounted_ret {A} (h : Host) (a : A) : accounted h (ret a).
Proof.
  intros n r n' E. injection E as <- <-. split; [lia|].
  intros _ _ m Hm. lia.
Qed.

Lemma accounted_lift {A} (h : Host) (x : result A) : accounted h (lift x).
Proof.
  intros n r n' E. injection E as <- <-. split; [lia|].
  intros _ _ m Hm. lia.
Qed.

Lemma accounted_generateContent (h : Host) : accounted h (generateContent h).
Proof.
  intros n r n' E. unfold generateContent in E. injection E as <- <-.
  split; [lia|]. intros a Ha m Hm. assert (m = n) as -> by lia.
  destruct (model h n); [discriminate|]. discriminate.
Qed.

Lemma accounted_bind {A B} (h : Host) (c : M A) (k : A -> M B) :
  accounted h c -> (forall a, accounted h (k a)) -> accounted h (bind c k).
Proof.
  intros Hc Hk n r n' E. unfold bind in E.
  destruct (c n) as [[a|] n1] eqn:Ec.
  - destruct (Hc _ _ _ Ec) as [Hle Hans].
    destruct (Hk a _ _ _ E) as [Hle' Hans'].
    split; [lia|]. intros b Hb m Hm.
    destruct (Nat.lt_ge_cases m n1).
    + apply (Hans a eq_refl). lia.
    + apply (Hans' b Hb). lia.
  - injection E as <- <-. destruct (Hc _ _ _ Ec) as [Hle _].
    split; [exact Hle|]. discriminate.
Qed.

Lemma accounted_match {A B} (h : Host) (x : option A) (f : A -> M B) (d : M B) :
  (forall a, accounted h (f a)) -> accounted h d ->
  accounted h (match x with Some a => f a | None => d end).
Proof. intros Hf Hd. destruct x; auto. Qed.

Lemma accounted_analyzeUserBehavior h userPreferences :
  accounted h (analyzeUserBehavior h userPreferences).
Proof.
  apply accounted_bind; [apply accounted_generateContent|].
  intros text. apply accounted_match; intros; apply accounted_ret.
Qed.

Lemma accounted_getContentBasedRecommendations h products userPreferences userAnalysis :
  accounted h (getContentBasedRecommendations h products userPreferences userAnalysis).
Proof.
  unfold getContentBasedRecommendations.
  destruct (_ =? 0)%nat; [apply accounted_ret|].
  apply accounted_bind; [apply accounted_lift|]. intros _.
  apply accounted_bind; [apply accounted_generateContent|].
  intros text. apply accounted_match; intros; apply accounted_ret.
Qed.

Lemma accounted_getCollaborativeRecommendations h products userPreferences userAnalysis :
  accounted h (getCollaborativeRecommendations h products userPreferences userAnalysis).
Proof.
  apply accounted_bind; [apply accounted_lift|]. intros _.
  apply accounted_bind; [apply accounted_generateContent|].
  intros text. apply accounted_match; intros; apply accounted_ret.
Qed.

Lemma accounted_combineAndRankRecommendations h content collaborative userAnalysis :
  accounted h (combineAndRankRecommendations h content collaborative userAnalysis).
Proof.
  apply accounted_bind; [apply accounted_lift|]. intros all.
  apply accounted_bind; [apply accounted_lift|]. intros unique.
  apply accounted_bind; [apply accounted_lift|]. intros _.
  apply accounted_bind; [apply accounted_generateContent|].
  intros text. apply accounted_match; [intros; apply accounted_ret|].
  apply accounted_bind; [apply accounted_lift|]. intros; apply accounted_ret.
Qed.

Lemma accounted_pipeline h products userPreferences maxRecommendations :
  accounted h (pipeline h products userPreferences maxRecommendations).
Proof.
  apply accounted_bind; [apply accounted_analyzeUserBehavior|]. intros userAnalysis.
  apply accounted_bind; [apply accounted_getContentBasedRecommendations|]. intros content.
  apply accounted_bind; [apply accounted_getCollaborativeRecommendations|]. intros collab.
  apply accounted_bind; [apply accounted_combineAndRankRecommendations|]. intros combined.
  apply accounted_lift.
Qed.

(** *** Replies without JSON *)

Lemma only_prose_later (h : Host) (n n' : nat) :
  (n <= n')%nat -> only_prose h n -> only_prose h n'.
Proof. intros Hle H m Hm. apply H. lia. Qed.

Lemma generateContent_prose (h : Host) (n : nat) :
  only_prose h n ->
  exists text, generateContent h n = (Returns text, S n)
               /\ extract h brace_open brace_close text = None
               /\ extract h bracket_open bracket_close text = None.
Proof.
  intros H. destruct (H n (Nat.le_refl n)) as (text & E & H1 & H2).
  exists text. unfold generateContent, extract. now rewrite E, H1, H2.
Qed.

Lemma join_strings (f : number -> string) (l : list string) :
  Value.join f (Some (JArr (List.map JStr l))) = Returns (String.concat ", " l).
Proof.
  unfold Value.join.
  assert (E : foldr (fun x acc =>
                (s <- match x with JNull => Returns "" | _ => Value.to_string f x end ;;
                 r <- acc ;; Returns (s :: r))%result) (Returns []) (List.map JStr l)
              = Returns l).
  { induction l as [|s l IH]; simpl; [reflexivity|]. now rewrite IH. }
  now rewrite E.
Qed.

Lemma content_prompt_default (h : Host) (userPreferences : UserPreference.t) :
  exists prompt, content_prompt h (default_analysis userPreferences) = Returns prompt.
Proof.
  unfold content_prompt, substitute, substitute_join, default_analysis.
  cbn [Value.get Value.own String.eqb Ascii.eqb Bool.eqb result_bind
       Value.interpolate Value.to_string].
  rewrite join_strings. cbn [result_bind]. eexists. reflexivity.
Qed.

Lemma collaborative_prompt_default (h : Host) (userPreferences : UserPreference.t) :
  exists prompt, collaborative_prompt h (default_analysis userPreferences) = Returns prompt.
Proof.
  unfold collaborative_prompt, substitute, substitute_join, default_analysis.
  cbn [Value.get Value.own String.eqb Ascii.eqb Bool.eqb result_bind
       Value.interpolate Value.to_string].
  rewrite (join_strings _ ["general_browsing"]). cbn [result_bind].
  eexists. reflexivity.
Qed.

Lemma pipeline_prose (h : Host) (products : list Product.t)
    (userPreferences : UserPreference.t) (maxRecommendations : Z) (n : nat) :
  only_prose h n ->
  exists n', pipeline h products userPreferences maxRecommendations n
             = (Returns (JArr []), n').
Proof.
  intros Hprose. unfold pipeline, bind at 1.
  (* analysis *)
  unfold analyzeUserBehavior, bind at 1.
  destruct (generateContent_prose h n Hprose) as (t1 & E1 & B1 & _).
  rewrite E1, B1. unfold ret at 1.
  assert (P1 : only_prose h (S n)) by (apply (only_prose_later h n); [lia|exact Hprose]).
  (* content-based candidates *)
  assert (C : exists n2,
             (n <= n2)%nat
             /\ getContentBasedRecommendations h products userPreferences
                  (default_analysis userPreferences) (S n)
                = (Returns (JArr []), n2)).
  { unfold getContentBasedRecommendations.
    destruct (_ =? 0)%nat; [exists (S n); split; [lia | reflexivity]|].
    destruct (content_prompt_default h userPreferences) as (p & Ep).
    unfold bind, lift. rewrite Ep.
    destruct (generateContent_prose h (S n) P1) as (t2 & E2 & _ & B2).
    rewrite E2, B2. exists (S (S n)). split; [lia | reflexivity]. }
  destruct C as (n2 & Hn2 & EC). unfold bind at 1. rewrite EC.
  assert (P2 : only_prose h n2) by (apply (only_prose_later h n); [lia|exact Hprose]).
  (* collaborative candidates *)
  unfold bind at 1. unfold getCollaborativeRecommendations.
  destruct (collaborative_prompt_default h userPreferences) as (p & Ep).
  unfold bind at 1, lift at 1. rewrite Ep.
  destruct (generateContent_prose h n2 P2) as (t3 & E3 & _ & B3).
  unfold bind at 1. rewrite E3, B3. unfold ret at 1.
  assert (P3 : only_prose h (S n2)) by (apply (only_prose_later h n); [lia|exact Hprose]).
  (* merge and rank *)
  unfold bind at 1, combineAndRankRecommendations.
  unfold bind at 1, lift at 1. cbn [allRecommendations spread result_bind app].
  unfold bind at 1, lift at 1.
  cbn [uniqueRecommendations JSM.filter JSM.filter_from].
  unfold bind at 1, lift at 1. unfold rank_prompt.
  destruct (content_prompt_default h userPreferences) as (p' & Ep'). rewrite Ep'.
  cbn [result_bind JSM.map].
  destruct (generateContent_prose h (S n2) P3) as (t4 & E4 & _ & B4).
  unfold bind at 1. rewrite E4, B4.
  unfold bind at 1, lift at 1. cbn [JSM.sort_by foldr]. unfold ret at 1.
  unfold lift, slice_value. rewrite slice0_nil. eexists. reflexivity.
Qed.

(** *** The content-based stage on an empty history *)

Lemma filter_includes_nil (products : list Product.t) :
  List.filter (fun p => JS.includes [] (Product.id p)) products = [].
Proof. induction products; simpl; auto. Qed.



(** *** generateRecommendations never throws *)

(** C2: generateRecommendations returns normally for every input and every
    behaviour of the model.  When the pipeline throws, the result is that
    of getFallbackRecommendations; in particular this is so whenever one
    of the calls the pipeline issued to the model was rejected.  When every
    reply is prose without braces or brackets, each stage takes its default
    and the call returns the empty array. *)
Theorem generateRecommendations_never_throws
    (h : Host) (userId : string) (products : list Product.t)
    (userPreferences : UserPreference.t) (maxRecommendations : Z) (n : nat) :
  let fallback :=
    JArr (List.map Recommendation.to_json
            (getFallbackRecommendations products userPreferences maxRecommendations)) in
  (exists (v : json) (n' : nat),
     generateRecommendations h userId products userPreferences maxRecommendations n
     = (Returns v, n'))
  /\ (forall n' : nat,
        pipeline h products userPreferences maxRecommendations n = (Throws, n') ->
        generateRecommendations h userId products userPreferences maxRecommendations n
        = (Returns fallback, n'))
  /\ (forall (r : result json) (n' m : nat),
        pipeline h products userPreferences maxRecommendations n = (r, n') ->
        (n <= m < n')%nat -> model h m = Rejects ->
        generateRecommendations h userId products userPreferences maxRecommendations n
        = (Returns fallback, n'))
  /\ (only_prose h n ->
      exists n' : nat,
        generateRecommendations h userId products userPreferences maxRecommendations n
        = (Returns (JArr []), n')).
Proof.
  intros fallback. unfold generateRecommendations, try_catch.
  split; [|split; [|split]].
  - destruct (pipeline h products userPreferences maxRecommendations n) as [[v|] n'];
      eexists _, _; reflexivity.
  - intros n' E. now rewrite E.
  - intros r n' m E Hm Hrej. rewrite E. destruct r as [v|]; [|reflexivity].
    destruct (accounted_pipeline h products userPreferences maxRecommendations
                n (Returns v) n' E) as [_ Hans].
    now destruct (Hans v eq_refl m Hm).
  - intros Hprose.
    destruct (pipeline_prose h products userPreferences maxRecommendations n Hprose)
      as (n' & E).
    exists n'. now rewrite E.
Qed.

(** A model that rejects the first call: the result is the fallback. *)
Lemma generateRecommendations_never_throws_witness :
  pipeline (example_host failing_model) [test_product] electronics_preferences 10 0%nat
  = (Throws, 1%nat)
  /\ generateRecommendations (example_host failing_model) "test-user-id"
       [test_product] electronics_preferences 10 0%nat
     = (Returns (JArr (List.map Recommendation.to_json
                         (getFallbackRecommendations [test_product]
                            electronics_preferences 10))), 1%nat).
Proof.
  split; [reflexivity|].
  apply (generateRecommendations_never_throws (example_host failing_model)
           "test-user-id" [test_product] electronics_preferences 10 0%nat).
  reflexivity.
Defined.

(** *** De-duplication by productId *)

Lemma findIndex_from_first {A} (q : nat -> A -> result bool)
    (pre rest : list A) (k : nat) :
  JSM.findIndex_from q k (pre ++ rest) = Returns (Z.of_nat (k + length pre)) ->
  forall (j : nat) (y : A), pre !! j = Some y -> q (k + j)%nat y = Returns false.
Proof.
  revert k. induction pre as [|y0 pre IH]; intros k E j y Hj; [discriminate|].
  cbn [app JSM.findIndex_from] in E.
  destruct (q k y0) as [[|]|] eqn:Eq; cbn [result_bind] in E; try discriminate.
  - injection E as E. cbn [length] in E. lia.
  - destruct j as [|j]; cbn in Hj.
    + injection Hj as <-. now rewrite Nat.add_0_r.
    + replace (k + S j)%nat with (S k + j)%nat by lia.
      apply IH; [|exact Hj].
      rewrite E. f_equal. cbn [length]. lia.
Qed.

Lemma same_productId_false (j index : nat) (r rec : json) :
  same_productId j r index rec = Returns false -> shares_productId r rec = false.
Proof.
  unfold same_productId, shares_productId.
  destruct (Value.get r "productId") as [a|]; [|discriminate].
  destruct (Value.get rec "productId") as [b|]; [|discriminate].
  cbn [result_bind]. intros E. injection E as E.
  now apply orb_false_iff in E.
Qed.

Lemma uniqueRecommendations_from (all pre l u : list json) :
  all = (pre ++ l)%list ->
  JSM.filter_from
    (fun index rec =>
       (i <- JSM.findIndex (fun j r => same_productId j r index rec) all ;;
        Returns (i =? Z.of_nat index)%Z)%result)
    (length pre) l = Returns u ->
  distinct_productIds u
  /\ Forall (fun x => Forall (fun y => shares_productId y x = false) pre) u.
Proof.
  revert pre u. induction l as [|x l IH]; intros pre u Hall E.
  - injection E as <-. split; constructor.
  - cbn [JSM.filter_from] in E.
    destruct (JSM.findIndex _ all) as [i|] eqn:Ei; [|discriminate].
    cbn [result_bind] in E.
    destruct (JSM.filter_from _ (S (length pre)) l) as [r|] eqn:Er; [|discriminate].
    cbn [result_bind] in E. injection E as <-.
    destruct (IH (pre ++ [x])%list r) as [Hd Hpre].
    { now rewrite Hall, <- app_assoc. }
    { rewrite length_app. cbn [length]. now rewrite Nat.add_1_r. }
    assert (Hr : Forall (fun x' => Forall (fun y => shares_productId y x' = false) pre) r).
    { eapply List.Forall_impl; [|exact Hpre]. intros x' Hx'.
      now apply Forall_app in Hx'. }
    destruct (Z.eqb_spec i (Z.of_nat (length pre))) as [->|_]; [|now split].
    split.
    + constructor; [|exact Hd].
      eapply List.Forall_impl; [|exact Hpre]. intros x' Hx'.
      apply Forall_app in Hx'. destruct Hx' as [_ Hx'].
      now inversion Hx'.
    + constructor; [|exact Hr].
      apply Forall_lookup_2. intros j y Hj.
      apply (same_productId_false j (length pre)).
      unfold JSM.findIndex in Ei. rewrite Hall in Ei.
      exact (findIndex_from_first _ pre (x :: l) 0 Ei j y Hj).
Qed.

Lemma uniqueRecommendations_distinct (all u : list json) :
  uniqueRecommendations all = Returns u -> distinct_productIds u.
Proof.
  intros E. now destruct (uniqueRecommendations_from all [] all u eq_refl E).
Qed.

(** *** Sorting keeps the elements *)

Lemma insert_byM_perm {A} (after : A -> A -> result bool) (x : A) (l s : list A) :
  JSM.insert_by after x l = Returns s -> Permutation (x :: l) s.
Proof.
  revert s. induction l as [|y l IH]; intros s E; cbn [JSM.insert_by] in E.
  - now injection E as <-.
  - destruct (after x y) as [[|]|]; cbn [result_bind] in E; try discriminate.
    + destruct (JSM.insert_by after x l) as [r|]; [|discriminate].
      cbn [result_bind] in E. injection E as <-.
      rewrite perm_swap. apply perm_skip. now apply IH.
    + now injection E as <-.
Qed.

Lemma sort_byM_perm {A} (after : A -> A -> result bool) (l s : list A) :
  JSM.sort_by after l = Returns s -> Permutation l s.
Proof.
  revert s. induction l as [|x l IH]; intros s E; cbn [JSM.sort_by foldr] in E.
  - now injection E as <-.
  - fold (JSM.sort_by after l) in E.
    destruct (JSM.sort_by after l) as [r|]; [|discriminate].
    cbn [result_bind] in E. apply insert_byM_perm in E.
    rewrite <- E. apply perm_skip. now apply IH.
Qed.

(** *** Distinctness under reordering and truncation *)

Lemma strict_eq_apart_sym (a b : option json) :
  Value.strict_eq_apart a b = Value.strict_eq_apart b a.
Proof.
  destruct a as [[| x | x | x | x | x]|], b as [[| y | y | y | y | y]|];
    cbn; try reflexivity.
  - now destruct x, y.
  - destruct x as [p| |], y as [q| |]; cbn; try reflexivity.
    destruct (Qeq_bool p q) eqn:E.
    + apply Qeq_bool_iff in E. symmetry. apply Qeq_bool_iff. now symmetry.
    + destruct (Qeq_bool q p) eqn:E'; [|reflexivity].
      apply Qeq_bool_iff in E'. symmetry in E'. apply Qeq_bool_iff in E'. congruence.
  - apply String.eqb_sym.
Qed.

Lemma shares_productId_sym (a b : json) :
  shares_productId a b = shares_productId b a.
Proof.
  unfold shares_productId.
  destruct (Value.get a "productId"), (Value.get b "productId"); try reflexivity.
  apply strict_eq_apart_sym.
Qed.

Lemma distinct_productIds_perm (l l' : list json) :
  Permutation l l' -> distinct_productIds l -> distinct_productIds l'.
Proof.
  unfold distinct_productIds.
  induction 1 as [|x l l' Hp IH|x y l|l1 l2 l3 _ IH1 _ IH2]; intros H.
  - constructor.
  - inversion H as [|? ? Hx Hl]; subst. constructor; [|now apply IH].
    now rewrite <- Hp.
  - inversion H as [|? ? Hy Hxl]; subst.
    inversion Hxl as [|? ? Hx Hl]; subst.
    inversion Hy as [|? ? Hyx Hyl]; subst.
    constructor; [|constructor; assumption].
    constructor; [|exact Hx]. now rewrite shares_productId_sym.
  - auto.
Qed.

Lemma distinct_productIds_take (k : nat) (l : list json) :
  distinct_productIds l -> distinct_productIds (take k l).
Proof.
  unfold distinct_productIds. revert k.
  induction l as [|x l IH]; intros k H; [now rewrite take_nil|].
  destruct k as [|k]; [constructor|].
  inversion H as [|? ? Hx Hl]; subst. cbn [take]. constructor; [|now apply IH].
  apply Forall_take. exact Hx.
Qed.

Lemma distinct_productIds_slice0 (l : list json) (e : Z) :
  distinct_productIds l -> distinct_productIds (JS.slice0 l e).
Proof. unfold JS.slice0. apply distinct_productIds_take. Qed.

Lemma slice_value_length (v : json) (e : Z) (items : list json) :
  0 <= e -> slice_value v e = Returns (JArr items) ->
  Z.of_nat (length items) <= e.
Proof.
  intros He E. destruct v; try discriminate.
  injection E as <-. rewrite slice0_length_nonneg by exact He. lia.
Qed.

(** *** The fallback on a catalog with distinct ids *)

Lemma NoDup_map_filter {A B} (f : A -> B) (p : A -> bool) (l : list A) :
  List.NoDup (List.map f l) -> List.NoDup (List.map f (List.filter p l)).
Proof.
  induction l as [|x l IH]; cbn; [auto|].
  intros H. apply List.NoDup_cons_iff in H as [Hx Hl].
  destruct (p x); [|now apply IH]. cbn. apply List.NoDup_cons_iff.
  split; [|now apply IH].
  intros Hin. apply Hx.
  apply in_map_iff in Hin as (y & <- & Hy). apply in_map.
  now apply filter_In in Hy.
Qed.

Lemma NoDup_map_take {A B} (f : A -> B) (k : nat) (l : list A) :
  List.NoDup (List.map f l) -> List.NoDup (List.map f (take k l)).
Proof.
  intros H. rewrite <- (take_drop k l), map_app in H.
  now apply List.NoDup_app_remove_r in H.
Qed.

Lemma getFallbackRecommendations_NoDup
    (products : list Product.t) (userPreferences : UserPreference.t)
    (maxRecommendations : Z) :
  List.NoDup (List.map Product.id products) ->
  List.NoDup (List.map Recommendation.productId
           (getFallbackRecommendations products userPreferences maxRecommendations)).
Proof.
  intros H. unfold getFallbackRecommendations.
  rewrite List.map_map. cbn [fallback_recommendation Recommendation.productId].
  unfold JS.slice0. apply NoDup_map_take.
  eapply Permutation_NoDup.
  - apply Permutation_map. apply sort_by_perm.
  - now do 2 apply NoDup_map_filter.
Qed.

Lemma to_json_distinct (recs : list Recommendation.t) :
  List.NoDup (List.map Recommendation.productId recs) ->
  distinct_productIds (List.map Recommendation.to_json recs).
Proof.
  unfold distinct_productIds.
  induction recs as [|r recs IH]; cbn [List.map]; intros H; [constructor|].
  apply List.NoDup_cons_iff in H as [Hr Hrecs]. constructor; [|now apply IH].
  apply List.Forall_forall. intros x Hx.
  apply in_map_iff in Hx as (r' & <- & Hr').
  unfold shares_productId. cbn.
  apply String.eqb_neq. intros E. apply Hr.
  rewrite E. now apply in_map.
Qed.

(** *** The result of generateRecommendations *)

(** C1 as stated fails: the model answers prose to the analysis and the
    candidate prompts and a ranking that names product p1 twice; the result
    is that ranking, with two entries for p1. *)
Lemma generateRecommendations_duplicates :
  ~ bounded_and_distinct (example_host duplicating_model) "test-user-id"
      [] test_preferences 10 0.
Proof.
  intros (items & n' & E & _ & Hd).
  vm_compute in E. injection E as <- <-.
  inversion Hd as [|a l Ha _]; subst.
  inversion Ha as [|b l' Hab _]; subst.
  vm_compute in Hab. discriminate.
Qed.

End Pipeline.

(** ** De-duplication, in full *)

Section Deduplication.
Import AIRecommendationService.

Lemma get_not_null (v : json) (k : string) :
  v <> JNull -> exists x, Value.get v k = Returns x.
Proof. destruct v; try congruence; eexists; reflexivity. Qed.

Lemma same_productId_not_null (j index : nat) (r rec : json) :
  r <> JNull -> rec <> JNull ->
  same_productId j r index rec
  = Returns ((j =? index)%nat || shares_productId r rec).
Proof.
  intros Hr Hrec. unfold same_productId, shares_productId.
  destruct (get_not_null r "productId" Hr) as (a & ->).
  destruct (get_not_null rec "productId" Hrec) as (b & ->).
  reflexivity.
Qed.

Lemma same_productId_null (j index : nat) (r : json) :
  same_productId j r index JNull = Throws.
Proof.
  unfold same_productId. destruct (Value.get r "productId"); reflexivity.
Qed.

(** The scan of [findIndex] stops at the first entry that shares the
    productId, or at the entry itself. *)
Lemma findIndex_scan (pre rest : list json) (x : json) (k : nat) :
  Forall (fun y => y <> JNull) pre -> x <> JNull ->
  exists i : Z,
    JSM.findIndex_from (fun j r => same_productId j r (k + length pre) x) k
      (pre ++ x :: rest) = Returns i
    /\ (i =? Z.of_nat (k + length pre))
       = forallb (fun y => negb (shares_productId y x)) pre.
Proof.
  intros Hpre Hx. revert k. induction Hpre as [|y pre Hy Hpre IH]; intros k.
  - cbn [app JSM.findIndex_from length forallb].
    rewrite (same_productId_not_null _ _ _ _ Hx Hx), Nat.add_0_r, Nat.eqb_refl.
    cbn. eexists. split; [reflexivity|]. apply Z.eqb_refl.
  - cbn [app JSM.findIndex_from length forallb].
    rewrite (same_productId_not_null _ _ _ _ Hy Hx).
    replace (k =? k + S (length pre))%nat with false
      by (symmetry; apply Nat.eqb_neq; lia).
    cbn [orb result_bind].
    destruct (shares_productId y x) eqn:Es.
    + eexists. split; [reflexivity|]. cbn. apply Z.eqb_neq. lia.
    + destruct (IH (S k)) as (i & Ei & Hi).
      replace (S k + length pre)%nat with (k + S (length pre))%nat in Ei, Hi by lia.
      exists i. split; [exact Ei | exact Hi].
Qed.

Lemma uniqueRecommendations_keep_first (all pre l : list json) :
  all = (pre ++ l)%list -> Forall (fun y => y <> JNull) all ->
  JSM.filter_from
    (fun index rec =>
       (i <- JSM.findIndex (fun j r => same_productId j r index rec) all ;;
        Returns (i =? Z.of_nat index)%Z)%result)
    (length pre) l
  = Returns (Merge.keep_first pre l).
Proof.
  revert pre. induction l as [|x l IH]; intros pre Hall Hnn; [reflexivity|].
  cbn [JSM.filter_from Merge.keep_first].
  assert (Hpre : Forall (fun y => y <> JNull) pre)
    by (rewrite Hall in Hnn; now apply Forall_app in Hnn).
  assert (Hx : x <> JNull).
  { rewrite Hall in Hnn. apply Forall_app in Hnn as [_ Hnn]. now inversion Hnn. }
  destruct (findIndex_scan pre l x 0 Hpre Hx) as (i & Ei & Hi).
  cbn [Nat.add] in Ei, Hi. rewrite <- Hall in Ei.
  unfold JSM.findIndex. rewrite Ei. cbn [result_bind]. rewrite Hi.
  assert (IH' := IH (pre ++ [x])%list).
  rewrite length_app in IH'. cbn [length] in IH'. rewrite Nat.add_1_r in IH'.
  unfold JSM.findIndex in IH'. rewrite IH'.
  - reflexivity.
  - now rewrite Hall, <- app_assoc.
  - exact Hnn.
Qed.

Lemma uniqueRecommendations_null (all pre l : list json) :
  all = (pre ++ l)%list -> In JNull l ->
  JSM.filter_from
    (fun index rec =>
       (i <- JSM.findIndex (fun j r => same_productId j r index rec) all ;;
        Returns (i =? Z.of_nat index)%Z)%result)
    (length pre) l
  = Throws.
Proof.
  revert pre. induction l as [|x l IH]; intros pre Hall Hin; [destruct Hin|].
  cbn [JSM.filter_from].
  destruct Hin as [->|Hin].
  - unfold JSM.findIndex. rewrite Hall.
    destruct pre as [|y pre]; cbn [app JSM.findIndex_from];
      rewrite same_productId_null; reflexivity.
  - assert (IH' := IH (pre ++ [x])%list).
    rewrite length_app in IH'. cbn [length] in IH'. rewrite Nat.add_1_r in IH'.
    rewrite IH'.
    + destruct (JSM.findIndex _ all); reflexivity.
    + now rewrite Hall, <- app_assoc.
    + exact Hin.
Qed.

Lemma keep_first_sublist (earlier items : list json) :
  Merge.keep_first earlier items `sublist_of` items.
Proof.
  revert earlier. induction items as [|x items IH]; intros earlier; cbn.
  - constructor.
  - destruct (forallb _ earlier); [apply sublist_skip | apply sublist_cons]; apply IH.
Qed.

(** X1: the de-duplication of combineAndRankRecommendations throws exactly
    when some candidate is null; otherwise it keeps, in order, exactly the
    candidates whose productId no earlier candidate shares. *)
Theorem uniqueRecommendations_characterised (all : list json) :
  (In JNull all -> uniqueRecommendations all = Throws)
  /\ (~ In JNull all ->
      uniqueRecommendations all = Returns (Merge.keep_first [] all)
      /\ Merge.keep_first [] all `sublist_of` all
      /\ distinct_productIds (Merge.keep_first [] all)).
Proof.
  split.
  - intros Hin. exact (uniqueRecommendations_null all [] all eq_refl Hin).
  - intros Hnn.
    assert (E : uniqueRecommendations all = Returns (Merge.keep_first [] all)).
    { apply (uniqueRecommendations_keep_first all [] all eq_refl).
      apply List.Forall_forall. intros y Hy ->. now apply Hnn. }
    split; [exact E|]. split; [apply keep_first_sublist|].
    exact (uniqueRecommendations_distinct all _ E).
Qed.

Lemma uniqueRecommendations_characterised_witness :
  In JNull [JStr "x"; JNull]
  /\ uniqueRecommendations [JStr "x"; JNull] = Throws
  /\ ~ In JNull [JObj [("productId", JStr "p2")]; JObj [("productId", JStr "p2")]]
  /\ uniqueRecommendations
       [JObj [("productId", JStr "p2")]; JObj [("productId", JStr "p2")]]
     = Returns [JObj [("productId", JStr "p2")]].
Proof.
  split; [right; left; reflexivity|].
  split; [apply (uniqueRecommendations_characterised [JStr "x"; JNull]);
          right; left; reflexivity|].
  assert (H : ~ In JNull [JObj [("productId", JStr "p2")];
                          JObj [("productId", JStr "p2")]])
    by (intros [E|[E|[]]]; discriminate).
  split; [exact H|].
  apply (uniqueRecommendations_characterised
           [JObj [("productId", JStr "p2")]; JObj [("productId", JStr "p2")]]).
  exact H.
Defined.

End Deduplication.

(** ** The merge on well-formed candidates *)

Section TypedMerge.
Import AIRecommendationService.










End TypedMerge.

(** ** The result of generateRecommendations *)

Section RecommendationResult.
Import AIRecommendationService.

Lemma null_or_not (l : list json) :
  In JNull l \/ Forall (fun y => y <> JNull) l.
Proof.
  induction l as [|x l [IH|IH]].
  - right. constructor.
  - left. now right.
  - destruct x; try (right; constructor; [discriminate | exact IH]).
    left. now left.
Qed.

Lemma uniqueRecommendations_returns (all unique : list json) :
  uniqueRecommendations all = Returns unique ->
  ~ In JNull all /\ unique = Merge.keep_first [] all.
Proof.
  intros E. destruct (null_or_not all) as [Hin|Hnn].
  - pose proof (uniqueRecommendations_null all [] all eq_refl Hin) as Ht.
    unfold uniqueRecommendations, JSM.filter in E. cbn [length] in Ht.
    rewrite Ht in E. discriminate.
  - pose proof (uniqueRecommendations_keep_first all [] all eq_refl Hnn) as Hk.
    unfold uniqueRecommendations, JSM.filter in E. cbn [length] in Hk.
    rewrite Hk in E. injection E as <-. split; [|reflexivity].
    intros Hin. rewrite List.Forall_forall in Hnn. now apply (Hnn JNull Hin).
Qed.

Lemma score_after_finite (h : Host) (a b : json) (qa qb : Q) :
  Value.get a "score" = Returns (Some (JNum (Finite qa))) ->
  Value.get b "score" = Returns (Some (JNum (Finite qb))) ->
  score_after h a b = Returns (JS.positive (qb - qa)%Q).
Proof.
  intros Ha Hb. unfold score_after. rewrite Ha, Hb. reflexivity.
Qed.

Lemma insert_byM_pure {A} (afterM : A -> A -> result bool) (after : A -> A -> bool)
    (x : A) (l : list A) :
  (forall y, In y l -> afterM x y = Returns (after x y)) ->
  JSM.insert_by afterM x l = Returns (JS.insert_by after x l).
Proof.
  induction l as [|y l IH]; intros H; [reflexivity|].
  cbn [JSM.insert_by JS.insert_by]. rewrite (H y) by now left.
  cbn [result_bind]. destruct (after x y); [|reflexivity].
  rewrite IH; [reflexivity|]. intros z Hz. apply H. now right.
Qed.

Lemma sort_byM_pure {A} (afterM : A -> A -> result bool) (after : A -> A -> bool)
    (l : list A) :
  (forall x y, In x l -> In y l -> afterM x y = Returns (after x y)) ->
  JSM.sort_by afterM l = Returns (JS.sort_by after l).
Proof.
  induction l as [|x l IH]; intros H; [reflexivity|].
  unfold JSM.sort_by in *. cbn [foldr]. rewrite IH.
  - cbn [result_bind]. apply insert_byM_pure. intros y Hy.
    apply H; [now left|]. right. now apply (sort_by_In after l y).
  - intros y z Hy Hz. apply H; now right.
Qed.

(** Candidates whose scores are finite numbers are put in descending order
    of score. *)
Lemma sort_byM_finite (h : Host) (l sorted : list json) :
  JSM.sort_by (score_after h) l = Returns sorted ->
  (forall x, In x sorted ->
     exists q, Value.get x "score" = Returns (Some (JNum (Finite q)))) ->
  StronglySorted
    (fun a b =>
       forall qa qb,
         Value.get a "score" = Returns (Some (JNum (Finite qa))) ->
         Value.get b "score" = Returns (Some (JNum (Finite qb))) ->
         (qb <= qa)%Q)
    sorted.
Proof.
  intros Es Hfin.
  assert (Hl : forall x, In x l ->
                 exists q, Value.get x "score" = Returns (Some (JNum (Finite q)))).
  { intros x Hx. apply Hfin.
    exact (Permutation_in _ (sort_byM_perm _ _ _ Es) Hx). }
  assert (Ep : JSM.sort_by (score_after h) l
               = Returns (JS.sort (fun a b => (Merge.finite_score b
                                               - Merge.finite_score a)%Q) l)).
  { apply sort_byM_pure. intros x y Hx Hy.
    destruct (Hl x Hx) as (qx & Ex). destruct (Hl y Hy) as (qy & Ey).
    rewrite (score_after_finite h x y qx qy Ex Ey).
    unfold Merge.finite_score. now rewrite Ex, Ey. }
  rewrite Ep in Es. injection Es as <-.
  eapply StronglySorted_weaken; [|apply (sort_descending Merge.finite_score)].
  intros a b Hle qa qb Ha Hb. unfold Merge.finite_score in Hle.
  now rewrite Ha, Hb in Hle.
Qed.

(** *** What the merge returns *)

Lemma combineAndRankRecommendations_cases (h : Host)
    (content collaborative userAnalysis : json) (n : nat) (v : json) (n' : nat) :
  combineAndRankRecommendations h content collaborative userAnalysis n
  = (Returns v, n') ->
  n' = S n
  /\ exists text, model h n = Responds text
     /\ (extract h bracket_open bracket_close text = Some v
         \/ (extract h bracket_open bracket_close text = None
             /\ exists fromContent fromCollaborative sorted : list json,
                  spread content = Returns fromContent
                  /\ spread collaborative = Returns fromCollaborative
                  /\ ~ In JNull (fromContent ++ fromCollaborative)
                  /\ JSM.sort_by (score_after h)
                       (Merge.keep_first [] (fromContent ++ fromCollaborative))
                     = Returns sorted
                  /\ v = JArr sorted)).
Proof.
  unfold combineAndRankRecommendations, bind, lift, generateContent, ret,
    allRecommendations.
  destruct (spread content) as [c1|]; [|discriminate].
  destruct (spread collaborative) as [c2|]; [|discriminate].
  cbn [result_bind].
  destruct (uniqueRecommendations (c1 ++ c2)) as [unique|] eqn:Eu; [|discriminate].
  destruct (rank_prompt h userAnalysis unique); [|discriminate].
  destruct (model h n) as [|text]; [discriminate|].
  destruct (extract h bracket_open bracket_close text) as [ranked|] eqn:Ex.
  - intros E. injection E as <- <-. split; [reflexivity|].
    exists text. split; [reflexivity|]. now left.
  - destruct (JSM.sort_by (score_after h) unique) as [sorted|] eqn:Es; [|discriminate].
    intros E. injection E as <- <-. split; [reflexivity|].
    exists text. split; [reflexivity|]. right. split; [exact Ex|].
    destruct (uniqueRecommendations_returns _ _ Eu) as [Hnn ->].
    exists c1, c2, sorted. auto.
Qed.

(** C1, amended: for a non-negative maxCount the returned array has at most
    maxCount entries.  The result is one of three.  (a) The array the model
    gave as its ranking, cut to maxCount, entries as the model gave them.
    (b) When the ranking reply holds no parsable array: the candidates of
    the content-based stage followed by those of the collaborative stage,
    without those whose productId an earlier candidate shares, rearranged
    (in descending order of score when every score is a finite number) and
    cut to the first maxCount; no two of these share a productId.  (c) When
    the pipeline throws: the fallback, whose entries have different
    productIds whenever the catalog's ids are different. *)
Theorem generateRecommendations_result
    (h : Host) (userId : string) (products : list Product.t)
    (userPreferences : UserPreference.t) (maxRecommendations : Z)
    (n : nat) (v : json) (n' : nat) :
  0 <= maxRecommendations ->
  generateRecommendations h userId products userPreferences maxRecommendations n
  = (Returns v, n') ->
  (forall items, v = JArr items -> Z.of_nat (length items) <= maxRecommendations)
  /\ ((exists (m : nat) (text : string) (ranked : json),
         n' = S m /\ model h m = Responds text
         /\ extract h bracket_open bracket_close text = Some ranked
         /\ slice_value ranked maxRecommendations = Returns v)
      \/ (exists (m : nat) (text : string) (userAnalysis content collaborative : json)
                 (n1 n2 : nat) (fromContent fromCollaborative sorted : list json),
            n' = S m /\ model h m = Responds text
            /\ extract h bracket_open bracket_close text = None
            /\ analyzeUserBehavior h userPreferences n = (Returns userAnalysis, n1)
            /\ getContentBasedRecommendations h products userPreferences userAnalysis n1
               = (Returns content, n2)
            /\ getCollaborativeRecommendations h products userPreferences userAnalysis n2
               = (Returns collaborative, m)
            /\ spread content = Returns fromContent
            /\ spread collaborative = Returns fromCollaborative
            /\ ~ In JNull (fromContent ++ fromCollaborative)
            /\ Permutation (Merge.keep_first [] (fromContent ++ fromCollaborative))
                 sorted
            /\ ((forall x, In x sorted ->
                   exists q, Value.get x "score" = Returns (Some (JNum (Finite q)))) ->
                StronglySorted
                  (fun a b =>
                     forall qa qb,
                       Value.get a "score" = Returns (Some (JNum (Finite qa))) ->
                       Value.get b "score" = Returns (Some (JNum (Finite qb))) ->
                       (qb <= qa)%Q)
                  sorted)
            /\ v = JArr (take (Z.to_nat maxRecommendations) sorted)
            /\ distinct_productIds (take (Z.to_nat maxRecommendations) sorted))
      \/ (pipeline h products userPreferences maxRecommendations n = (Throws, n')
          /\ v = JArr (List.map Recommendation.to_json
                         (getFallbackRecommendations products userPreferences
                            maxRecommendations))
          /\ (List.NoDup (List.map Product.id products) -> distinct_productIds
                (List.map Recommendation.to_json
                   (getFallbackRecommendations products userPreferences
                      maxRecommendations))))).
Proof.
  intros Hmax E. unfold generateRecommendations, try_catch in E.
  destruct (pipeline h products userPreferences maxRecommendations n)
    as [[v0|] n0] eqn:Ep.
  - injection E as -> ->. unfold pipeline, bind in Ep.
    destruct (analyzeUserBehavior h userPreferences n) as [[userAnalysis|] n1] eqn:Ea;
      [|discriminate].
    destruct (getContentBasedRecommendations h products userPreferences userAnalysis n1)
      as [[content|] n2] eqn:Ect; [|discriminate].
    destruct (getCollaborativeRecommendations h products userPreferences userAnalysis n2)
      as [[collab|] n3] eqn:Ecl; [|discriminate].
    destruct (combineAndRankRecommendations h content collab userAnalysis n3)
      as [[combined|] n4] eqn:Ec; [|discriminate].
    unfold lift in Ep. injection Ep as Es <-.
    destruct (combineAndRankRecommendations_cases _ _ _ _ _ _ _ Ec)
      as (-> & text & Em & Hcases).
    split; [intros items ->; now apply (slice_value_length combined)|].
    destruct Hcases as [Hx|(Hx & c1 & c2 & sorted & H1 & H2 & Hnn & Hs & ->)].
    + left. exists n3, text, combined. auto.
    + right. left. cbn [slice_value] in Es. injection Es as <-.
      rewrite slice0_nonneg by exact Hmax.
      exists n3, text, userAnalysis, content, collab, n1, n2, c1, c2, sorted.
      assert (Hp : Permutation (Merge.keep_first [] (c1 ++ c2)) sorted)
        by exact (sort_byM_perm _ _ _ Hs).
      repeat (split; [first [reflexivity | assumption]|]).
      split; [exact (sort_byM_finite h _ _ Hs)|]. split; [reflexivity|].
      apply distinct_productIds_take.
      apply (distinct_productIds_perm _ _ Hp).
      apply (uniqueRecommendations_distinct (c1 ++ c2)).
      apply (uniqueRecommendations_keep_first _ [] _ eq_refl).
      apply List.Forall_forall. intros y Hy ->. now apply Hnn.
  - unfold ret in E. injection E as <- <-. split.
    + intros items Hi. injection Hi as <-.
      unfold getFallbackRecommendations. rewrite !length_map.
      rewrite slice0_length_nonneg by exact Hmax. lia.
    + right. right. split; [reflexivity|]. split; [reflexivity|].
      intros Hnd. apply to_json_distinct.
      now apply getFallbackRecommendations_NoDup.
Qed.

(** Candidates p2 (score 40), p3 (score 70) and p2 again (score 10) from
    the collaborative stage, prose for the ranking, maxCount = 1: the
    result is the one entry p3. *)
Lemma generateRecommendations_result_witness :
  0 <= 1
  /\ exists (v : json) (n' : nat),
       generateRecommendations (example_host unranked_model) "test-user-id"
         [test_product] electronics_preferences 1 0%nat
       = (Returns v, n')
       /\ v = JArr [JObj [("productId", JStr "p3"); ("score", JNum (Finite 70));
                          ("reason", JStr "d"); ("category", JStr "collaborative")]]
       /\ (forall items, v = JArr items -> Z.of_nat (length items) <= 1)
       /\ (exists sorted,
             v = JArr (take 1 sorted)
             /\ distinct_productIds (take 1 sorted)).
Proof.
  split; [lia|]. eexists _, _. split; [vm_compute; reflexivity|].
  split; [reflexivity|].
  destruct (generateRecommendations_result (example_host unranked_model)
              "test-user-id" [test_product] electronics_preferences 1 0%nat
              _ _ ltac:(lia) ltac:(vm_compute; reflexivity))
    as (Hlen & [(m & text & ranked & Hn & Hm & Hx & _)
               |[(m & text & ua & ct & cl & n1 & n2 & c1 & c2 & sorted
                  & _ & _ & _ & _ & _ & _ & _ & _ & _ & _ & _ & Hv & Hd)
                |(Hp & _)]]).
  - exfalso. injection Hn as <-. vm_compute in Hm. injection Hm as <-.
    vm_compute in Hx. discriminate.
  - split; [exact Hlen|]. exists sorted. split; [exact Hv | exact Hd].
  - exfalso. vm_compute in Hp. discriminate.
Defined.

End RecommendationResult.

(** ** How many calls a recommendation costs *)

Section CallBudget.
Import AIRecommendationService.

Lemma spends_ret {A} (a : A) : spends (ret a : M A) 0 0.
Proof. intros n r n' E. injection E as <- <-. lia. Qed.

Lemma spends_lift {A} (x : result A) : spends (lift x : M A) 0 0.
Proof. intros n r n' E. injection E as <- <-. lia. Qed.

Lemma spends_generateContent (h : Host) : spends (generateContent h) 1 1.
Proof. intros n r n' E. unfold generateContent in E. injection E as <- <-. lia. Qed.

Lemma spends_weaken {A} (c : M A) (lo hi lo' hi' : nat) :
  (lo' <= lo)%nat -> (hi <= hi')%nat -> spends c lo hi -> spends c lo' hi'.
Proof. intros Hlo Hhi H n r n' E. specialize (H n r n' E). lia. Qed.

Lemma spends_bind {A B} (c : M A) (k : A -> M B) (lo hi hi' : nat) :
  spends c lo hi -> (forall a, spends (k a) 0 hi') ->
  spends (bind c k) lo (hi + hi').
Proof.
  intros Hc Hk n r n' E. unfold bind in E.
  destruct (c n) as [[a|] n1] eqn:Ec.
  - specialize (Hc _ _ _ Ec). specialize (Hk a _ _ _ E). lia.
  - injection E as <- <-. specialize (Hc _ _ _ Ec). lia.
Qed.

Lemma spends_to_return_bind {A B} (c : M A) (k : A -> M B) (lo lo' : nat) :
  spends_to_return c lo -> (forall a, spends_to_return (k a) lo') ->
  spends_to_return (bind c k) (lo + lo').
Proof.
  intros Hc Hk n b n' E. unfold bind in E.
  destruct (c n) as [[a|] n1] eqn:Ec; [|discriminate].
  specialize (Hc _ _ _ Ec). specialize (Hk a _ _ _ E). lia.
Qed.

Lemma spends_returning {A} (c : M A) (lo hi : nat) :
  spends c lo hi -> spends_to_return c lo.
Proof. intros H n a n' E. specialize (H _ _ _ E). lia. Qed.

Lemma spends_extracted {A} (h : Host) (x : option A) (d : M A) (hi : nat) :
  spends d 0 hi -> spends (match x with Some a => ret a | None => d end) 0 hi.
Proof.
  intros Hd. destruct x; [|exact Hd].
  apply (spends_weaken _ 0 0); [lia | lia | apply spends_ret].
Qed.

(** A stage that prints into its prompt, calls the model and parses. *)
Lemma spends_stage (h : Host) (prompt : result (list string)) (d : json) :
  spends
    (_ <- lift prompt ;;
     text <- generateContent h ;;
     match extract h bracket_open bracket_close text with
     | Some recommendations => ret recommendations
     | None => ret d
     end)%model 0 1
  /\ spends_to_return
       (_ <- lift prompt ;;
        text <- generateContent h ;;
        match extract h bracket_open bracket_close text with
        | Some recommendations => ret recommendations
        | None => ret d
        end)%model 1.
Proof.
  split.
  - apply (spends_bind _ _ 0 0 1); [apply spends_lift|]. intros _.
    apply (spends_weaken _ 1 1); [lia | lia |].
    apply (spends_bind _ _ 1 1 0); [apply spends_generateContent|].
    intros text. destruct (extract _ _ _ _); apply spends_ret.
  - apply (spends_to_return_bind _ _ 0 1);
      [apply (spends_returning _ 0 0), spends_lift|]. intros _.
    apply (spends_to_return_bind _ _ 1 0);
      [apply (spends_returning _ 1 1), spends_generateContent|].
    intros text. destruct (extract _ _ _ _); apply (spends_returning _ 0 0), spends_ret.
Qed.

Lemma spends_analyzeUserBehavior h userPreferences :
  spends (analyzeUserBehavior h userPreferences) 1 1.
Proof.
  apply (spends_bind _ _ 1 1 0); [apply spends_generateContent|].
  intros text. destruct (extract _ _ _ _); apply spends_ret.
Qed.

Lemma spends_getContentBasedRecommendations h products userPreferences userAnalysis :
  spends (getContentBasedRecommendations h products userPreferences userAnalysis) 0 1.
Proof.
  unfold getContentBasedRecommendations.
  destruct (_ =? 0)%nat;
    [apply (spends_weaken _ 0 0); [lia | lia | apply spends_ret]|].
  apply spends_stage.
Qed.

Lemma spends_combineAndRankRecommendations h content collaborative userAnalysis :
  spends (combineAndRankRecommendations h content collaborative userAnalysis) 0 1
  /\ spends_to_return
       (combineAndRankRecommendations h content collaborative userAnalysis) 1.
Proof.
  unfold combineAndRankRecommendations. split.
  - apply (spends_bind _ _ 0 0 1); [apply spends_lift|]. intros all.
    apply (spends_bind _ _ 0 0 1); [apply spends_lift|]. intros unique.
    apply (spends_bind _ _ 0 0 1); [apply spends_lift|]. intros _.
    apply (spends_weaken _ 1 1); [lia | lia |].
    apply (spends_bind _ _ 1 1 0); [apply spends_generateContent|].
    intros text. destruct (extract _ _ _ _); [apply spends_ret|].
    apply (spends_bind _ _ 0 0 0); [apply spends_lift|]. intros; apply spends_ret.
  - apply (spends_to_return_bind _ _ 0 1);
      [apply (spends_returning _ 0 0), spends_lift|]. intros all.
    apply (spends_to_return_bind _ _ 0 1);
      [apply (spends_returning _ 0 0), spends_lift|]. intros unique.
    apply (spends_to_return_bind _ _ 0 1);
      [apply (spends_returning _ 0 0), spends_lift|]. intros _.
    apply (spends_to_return_bind _ _ 1 0);
      [apply (spends_returning _ 1 1), spends_generateContent|].
    intros text. intros n a n' E.
    destruct (extract _ _ _ _).
    + injection E as <- <-. lia.
    + unfold bind, lift, ret in E.
      destruct (JSM.sort_by _ _); [injection E as <- <-; lia | discriminate].
Qed.

Lemma spends_pipeline h products userPreferences maxRecommendations :
  spends (pipeline h products userPreferences maxRecommendations) 1 4
  /\ spends_to_return (pipeline h products userPreferences maxRecommendations) 3
  /\ (UserPreference.interactionHistory userPreferences = [] ->
      spends (pipeline h products userPreferences maxRecommendations) 1 3).
Proof.
  unfold pipeline. split; [|split].
  - apply (spends_bind _ _ 1 1 3); [apply spends_analyzeUserBehavior|]. intros ua.
    apply (spends_bind _ _ 0 1 2); [apply spends_getContentBasedRecommendations|].
    intros content.
    apply (spends_bind _ _ 0 1 1); [apply spends_stage|]. intros collab.
    apply (spends_bind _ _ 0 1 0); [apply spends_combineAndRankRecommendations|].
    intros; apply spends_lift.
  - apply (spends_to_return_bind _ _ 1 2);
      [apply (spends_returning _ 1 1), spends_analyzeUserBehavior|]. intros ua.
    apply (spends_to_return_bind _ _ 0 2);
      [apply (spends_returning _ 0 1), spends_getContentBasedRecommendations|].
    intros content.
    apply (spends_to_return_bind _ _ 1 1); [apply spends_stage|]. intros collab.
    apply (spends_to_return_bind _ _ 1 0); [apply spends_combineAndRankRecommendations|].
    intros; apply (spends_returning _ 0 0), spends_lift.
  - intros Hhist.
    apply (spends_bind _ _ 1 1 2); [apply spends_analyzeUserBehavior|]. intros ua.
    apply (spends_bind _ _ 0 0 2).
    { intros n r n' E. unfold getContentBasedRecommendations in E.
      rewrite Hhist in E. cbn [List.map] in E. rewrite filter_includes_nil in E.
      injection E as <- <-. lia. }
    intros content.
    apply (spends_bind _ _ 0 1 1); [apply spends_stage|]. intros collab.
    apply (spends_bind _ _ 0 1 0); [apply spends_combineAndRankRecommendations|].
    intros; apply spends_lift.
Qed.

(** X3: one call of generateRecommendations issues between one and four
    calls to the model, at least three when the pipeline completes, and at
    most three for a user with an empty interaction history. *)
Theorem generateRecommendations_call_budget
    (h : Host) (userId : string) (products : list Product.t)
    (userPreferences : UserPreference.t) (maxRecommendations : Z)
    (n : nat) (r : result json) (n' : nat) :
  generateRecommendations h userId products userPreferences maxRecommendations n
  = (r, n') ->
  (n + 1 <= n' <= n + 4)%nat
  /\ (forall v, pipeline h products userPreferences maxRecommendations n
                = (Returns v, n') -> (n + 3 <= n')%nat)
  /\ (UserPreference.interactionHistory userPreferences = [] -> (n' <= n + 3)%nat).
Proof.
  intros E. unfold generateRecommendations, try_catch in E.
  destruct (spends_pipeline h products userPreferences maxRecommendations)
    as (Hall & Hret & Hempty).
  destruct (pipeline h products userPreferences maxRecommendations n)
    as [[v|] n0] eqn:Ep.
  - injection E as <- <-. split; [exact (Hall _ _ _ Ep)|]. split.
    + intros v' _. exact (Hret _ _ _ Ep).
    + intros Hh. specialize (Hempty Hh _ _ _ Ep). lia.
  - unfold ret in E. injection E as <- <-. split; [exact (Hall _ _ _ Ep)|]. split.
    + intros v' Ev. discriminate.
    + intros Hh. specialize (Hempty Hh _ _ _ Ep). lia.
Qed.

Lemma generateRecommendations_call_budget_witness :
  exists (r : result json) (n' : nat),
    generateRecommendations (example_host unranked_model) "test-user-id"
      [test_product] electronics_preferences 10 0%nat
    = (r, n')
    /\ (0 + 1 <= n' <= 0 + 4)%nat
    /\ (n' <= 0 + 3)%nat.
Proof.
  eexists _, _. split; [vm_compute; reflexivity|].
  destruct (generateRecommendations_call_budget (example_host unranked_model)
              "test-user-id" [test_product] electronics_preferences 10 0%nat _ _
              ltac:(vm_compute; reflexivity))
    as (Hbounds & _ & Hempty).
  split; [exact Hbounds | exact (Hempty eq_refl)].
Defined.

End CallBudget.

(** ** An analysis that lacks its behaviour patterns *)

Section IncompleteAnalysis.
Import AIRecommendationService.





End IncompleteAnalysis.

(** ** Answers of the model to getTrendingProducts and getSimilarProducts *)

Section AskedArrays.
Import AIRecommendationService.

(** X5: getTrendingProducts and getSimilarProducts never throw and issue
    exactly one call; when the reply holds a parsable array they return it
    as the model gave it, whatever the catalog and maxResults, and
    otherwise their fallback. *)
Theorem model_answer_returned_as_given (h : Host) (n : nat) :
  (forall (products : list Product.t) (maxResults : Z),
     exists v : json,
       getTrendingProducts h products maxResults n = (Returns v, S n)
       /\ (forall text parsed,
             model h n = Responds text ->
             extract h bracket_open bracket_close text = Some parsed ->
             v = parsed)
       /\ (model_failed h n ->
           v = JArr (List.map Recommendation.to_json
                       (trending_fallback h products maxResults))))
  /\ (forall (targetProduct : Product.t) (allProducts : list Product.t)
             (maxResults : Z),
        exists v : json,
          getSimilarProducts h targetProduct allProducts maxResults n
          = (Returns v, S n)
          /\ (forall text parsed,
                model h n = Responds text ->
                extract h bracket_open bracket_close text = Some parsed ->
                v = parsed)
          /\ (model_failed h n ->
              v = JArr (List.map Recommendation.to_json
                          (similar_fallback targetProduct allProducts maxResults)))).
Proof.
  split.
  - intros products maxResults.
    unfold getTrendingProducts, bind, model_failed. rewrite ask_for_array_eq.
    destruct (model h n) as [|text] eqn:Em.
    + eexists. split; [reflexivity|]. split; [intros ? ? E; discriminate E|]. reflexivity.
    + destruct (extract h bracket_open bracket_close text) as [parsed|] eqn:Ex.
      * eexists. split; [reflexivity|]. split.
        -- intros text' parsed' E Ex'. injection E as <-. congruence.
        -- intros [E|(text' & E & Ex')]; [discriminate|].
           injection E as <-. congruence.
      * eexists. split; [reflexivity|]. split.
        -- intros text' parsed' E Ex'. injection E as <-. congruence.
        -- reflexivity.
  - intros targetProduct allProducts maxResults.
    unfold getSimilarProducts, bind, model_failed. rewrite ask_for_array_eq.
    destruct (model h n) as [|text] eqn:Em.
    + eexists. split; [reflexivity|]. split; [intros ? ? E; discriminate E|]. reflexivity.
    + destruct (extract h bracket_open bracket_close text) as [parsed|] eqn:Ex.
      * eexists. split; [reflexivity|]. split.
        -- intros text' parsed' E Ex'. injection E as <-. congruence.
        -- intros [E|(text' & E & Ex')]; [discriminate|].
           injection E as <-. congruence.
      * eexists. split; [reflexivity|]. split.
        -- intros text' parsed' E Ex'. injection E as <-. congruence.
        -- reflexivity.
Qed.

(** A ranking of two entries comes back whole although maxResults is 1. *)
Lemma model_answer_returned_as_given_witness :
  duplicating_model 2 = Responds ranking_text
  /\ exists v : json,
       getSimilarProducts (example_host duplicating_model) target_100
         [candidate_90] 1 2%nat
       = (Returns v, 3%nat)
       /\ v = ranking_value.
Proof.
  split; [reflexivity|].
  destruct (proj2 (model_answer_returned_as_given (example_host duplicating_model) 2)
              target_100 [candidate_90] 1)
    as (v & E & Hparsed & _).
  exists v. split; [exact E|].
  apply (Hparsed ranking_text ranking_value); reflexivity.
Defined.

End AskedArrays.

(** ** Scores and order of the deterministic fallbacks *)

Section FallbackScores.
Import AIRecommendationService.

Lemma StronglySorted_take {A} (R : A -> A -> Prop) (k : nat) (l : list A) :
  StronglySorted R l -> StronglySorted R (take k l).
Proof.
  intros H. revert k. induction H as [|x l Hs IH Hall]; intros k.
  - rewrite take_nil. constructor.
  - destruct k as [|k]; cbn [take]; constructor; [apply IH|].
    now apply Forall_take.
Qed.

Lemma StronglySorted_map {A B} (f : A -> B) (R : B -> B -> Prop) (l : list A) :
  StronglySorted (fun a b => R (f a) (f b)) l -> StronglySorted R (List.map f l).
Proof.
  induction 1 as [|x l Hs IH Hall]; cbn [List.map]; constructor; [exact IH|].
  apply List.Forall_forall. intros y Hy.
  apply in_map_iff in Hy as (z & <- & Hz).
  rewrite List.Forall_forall in Hall. now apply Hall.
Qed.

Lemma In_slice0 {A} (l : list A) (e : Z) (x : A) : In x (JS.slice0 l e) -> In x l.
Proof.
  unfold JS.slice0. intros H. rewrite <- (take_drop (Z.to_nat
    (if e <? 0 then Z.max (Z.of_nat (length l) + e) 0 else Z.min e (Z.of_nat (length l)))) l).
  apply in_or_app. now left.
Qed.

(** X6: the fallback of getSimilarProducts never lists the target itself,
    gives no score above 80, lists its entries in non-increasing order of
    score, and lists at most maxResults of them when maxResults is not
    negative. *)
Theorem similar_fallback_scores
    (targetProduct : Product.t) (allProducts : list Product.t) (maxResults : Z) :
  let result := similar_fallback targetProduct allProducts maxResults in
  ~ In (Product.id targetProduct) (List.map Recommendation.productId result)
  /\ Forall (fun r => (Recommendation.score r <= 80)%Q) result
  /\ StronglySorted
       (fun a b => (Recommendation.score b <= Recommendation.score a)%Q) result
  /\ (0 <= maxResults -> Z.of_nat (length result) <= maxResults).
Proof.
  intros result. unfold result, similar_fallback.
  set (keep := fun p => negb (String.eqb (Product.id p) (Product.id targetProduct))
                 && String.eqb (Product.category p) (Product.category targetProduct)).
  set (sorted := JS.sort _ (List.filter keep allProducts)).
  assert (Hin : forall p, In p (JS.slice0 sorted maxResults) ->
                          In p allProducts /\ keep p = true).
  { intros p Hp. apply In_slice0 in Hp. apply sort_by_In in Hp.
    now apply filter_In in Hp. }
  split; [|split; [|split]].
  - intros H. rewrite List.map_map in H. apply in_map_iff in H as (p & E & Hp).
    destruct (Hin p Hp) as [_ Hk]. unfold keep in Hk.
    apply andb_true_iff in Hk as [Hk _]. apply negb_true_iff, String.eqb_neq in Hk.
    now apply Hk.
  - apply List.Forall_forall. intros r Hr. apply in_map_iff in Hr as (p & <- & _).
    cbn [Recommendation.score similar_recommendation].
    assert (Hd : (0 <= price_distance targetProduct p)%Q) by apply Qabs_nonneg.
    assert (Hq : (0 <= price_distance targetProduct p / 10)%Q).
    { apply Qle_shift_div_l; [reflexivity|]. now rewrite Qmult_0_l. }
    set (d := (price_distance targetProduct p / 10)%Q) in *. lra.
  - apply StronglySorted_map. unfold JS.slice0. apply StronglySorted_take.
    eapply StronglySorted_weaken;
      [|exact (sort_ascending (price_distance targetProduct) (List.filter keep allProducts))].
    intros a b Hab. cbn [Recommendation.score similar_recommendation].
    assert (Hq : (price_distance targetProduct a / 10
                  <= price_distance targetProduct b / 10)%Q).
    { unfold Qdiv. apply Qmult_le_compat_r; [exact Hab | discriminate]. }
    set (da := (price_distance targetProduct a / 10)%Q) in *.
    set (db := (price_distance targetProduct b / 10)%Q) in *. lra.
  - intros Hmax. rewrite length_map, slice0_length_nonneg by exact Hmax. lia.
Qed.

(** X7: when every rating average of the catalog lies between 0 and 5, the
    scores of getFallbackRecommendations lie between 0 and 100; its entries
    come in non-increasing order of score, name products of the catalog,
    and never a product of the interaction history. *)
Theorem getFallbackRecommendations_scores
    (products : list Product.t) (userPreferences : UserPreference.t)
    (maxRecommendations : Z) :
  Forall (fun p => (0 <= Product.average (Product.ratings p) <= 5)%Q) products ->
  let result :=
    getFallbackRecommendations products userPreferences maxRecommendations in
  Forall (fun r => (0 <= Recommendation.score r <= 100)%Q) result
  /\ StronglySorted
       (fun a b => (Recommendation.score b <= Recommendation.score a)%Q) result
  /\ Forall (fun r =>
               In (Recommendation.productId r) (List.map Product.id products)
               /\ ~ In (Recommendation.productId r)
                      (List.map UserInteraction.productId
                         (UserPreference.interactionHistory userPreferences)))
       result.
Proof.
  intros Hrange result. unfold result, getFallbackRecommendations.
  set (interacted := List.map UserInteraction.productId
                       (UserPreference.interactionHistory userPreferences)).
  set (eligible := List.filter _ (List.filter _ products)).
  set (key := fun p => Product.average (Product.ratings p)).
  assert (Hin : forall p,
             In p (JS.slice0 (JS.sort (fun a b => (key b - key a)%Q) eligible)
                     maxRecommendations) ->
             In p products /\ JS.includes interacted (Product.id p) = false).
  { intros p Hp. apply In_slice0 in Hp. apply sort_by_In in Hp.
    unfold eligible in Hp. apply filter_In in Hp as [Hp _].
    apply filter_In in Hp as [Hp Hn]. split; [exact Hp|].
    now apply negb_true_iff in Hn. }
  split; [|split].
  - apply List.Forall_forall. intros r Hr. apply in_map_iff in Hr as (p & <- & Hp).
    destruct (Hin p Hp) as [Hp' _]. rewrite List.Forall_forall in Hrange.
    specialize (Hrange p Hp'). cbn [Recommendation.score fallback_recommendation]. lra.
  - apply StronglySorted_map. unfold JS.slice0. apply StronglySorted_take.
    eapply StronglySorted_weaken; [|exact (sort_descending key eligible)].
    intros a b Hab. cbn [Recommendation.score fallback_recommendation].
    unfold key in Hab. lra.
  - apply List.Forall_forall. intros r Hr. apply in_map_iff in Hr as (p & <- & Hp).
    destruct (Hin p Hp) as [Hp' Hn]. cbn. split; [now apply in_map|].
    intros Hc. apply includes_spec in Hc. congruence.
Qed.

Lemma getFallbackRecommendations_scores_witness :
  Forall (fun p => (0 <= Product.average (Product.ratings p) <= 5)%Q) [test_product]
  /\ Forall (fun r => (0 <= Recommendation.score r <= 100)%Q)
       (getFallbackRecommendations [test_product] electronics_preferences 10).
Proof.
  assert (H : Forall (fun p => (0 <= Product.average (Product.ratings p) <= 5)%Q)
                [test_product])
    by (repeat constructor; discriminate).
  split; [exact H|].
  exact (proj1 (getFallbackRecommendations_scores [test_product]
                  electronics_preferences 10 H)).
Defined.

Lemma product_A_outweighs_B : (trending_weight product_B < trending_weight product_A)%R.
Proof.
  rewrite (trending_weight_eq product_A 4 100), (trending_weight_eq product_B (9 # 2) 5);
    try reflexivity.
  replace (INR 100 + 1)%R with 101%R
    by (rewrite INR_IZR_INZ; change (Z.of_nat 100) with 100%Z; lra).
  replace (INR 5 + 1)%R with 6%R
    by (rewrite INR_IZR_INZ; change (Z.of_nat 5) with 5%Z; lra).
  replace (Q2R 4) with 4%R by (unfold Q2R; simpl; lra).
  replace (Q2R (9 # 2)) with (9 / 2)%R by (unfold Q2R; simpl; lra).
  exact ln_101_vs_6.
Qed.

(** X8: the fallback of getTrendingProducts orders by
    average * ln(count + 1) but scores by average * 20, so its entries need
    not come in order of score: of two products, the one with the larger
    weight is listed first even when its rating average, and with it its
    score, is the lower one. *)
Theorem trending_fallback_not_by_score
    (h : Host) (a b : Product.t) (maxResults : Z) :
  (trending_weight b < trending_weight a)%R ->
  (Product.average (Product.ratings a) < Product.average (Product.ratings b))%Q ->
  2 <= maxResults ->
  trending_fallback h [b; a] maxResults
  = [trending_recommendation h a; trending_recommendation h b]
  /\ trending_fallback h [a; b] maxResults
     = [trending_recommendation h a; trending_recommendation h b]
  /\ (Recommendation.score (trending_recommendation h a)
      < Recommendation.score (trending_recommendation h b))%Q.
Proof.
  intros Hw Havg Hmax.
  assert (Eba : trending_after b a = true) by now apply trending_after_true.
  assert (Eab : trending_after a b = false) by (apply trending_after_false; lra).
  unfold trending_fallback. cbn [JS.sort_by foldr JS.insert_by]. rewrite Eba, Eab.
  rewrite !slice0_nonneg by lia.
  replace (Z.to_nat maxResults) with (S (S (Z.to_nat (maxResults - 2)))) by lia.
  cbn [take List.map]. rewrite take_nil.
  split; [reflexivity|]. split; [reflexivity|].
  cbn [Recommendation.score trending_recommendation]. lra.
Qed.

Lemma trending_fallback_not_by_score_witness :
  (trending_weight product_B < trending_weight product_A)%R
  /\ (Product.average (Product.ratings product_A)
      < Product.average (Product.ratings product_B))%Q
  /\ 2 <= 10
  /\ trending_fallback (example_host failing_model) [product_B; product_A] 10
     = [trending_recommendation (example_host failing_model) product_A;
        trending_recommendation (example_host failing_model) product_B]
  /\ (Recommendation.score (trending_recommendation (example_host failing_model) product_A)
      < Recommendation.score
          (trending_recommendation (example_host failing_model) product_B))%Q.
Proof.
  assert (Havg : (Product.average (Product.ratings product_A)
                  < Product.average (Product.ratings product_B))%Q) by reflexivity.
  assert (Hmax : 2 <= 10) by lia.
  split; [exact product_A_outweighs_B|]. split; [exact Havg|]. split; [exact Hmax|].
  destruct (trending_fallback_not_by_score (example_host failing_model)
              product_A product_B 10 product_A_outweighs_B Havg Hmax)
    as (E & _ & Hs).
  split; [exact E | exact Hs].
Defined.

Lemma similar_fallback_scores_witness :
  0 <= 5
  /\ Z.of_nat (length (similar_fallback target_100
                         [target_100; candidate_150; candidate_90] 5)) <= 5
  /\ ~ In (Product.id target_100)
         (List.map Recommendation.productId
            (similar_fallback target_100 [target_100; candidate_150; candidate_90] 5)).
Proof.
  destruct (similar_fallback_scores target_100
              [target_100; candidate_150; candidate_90] 5)
    as (Hnot & _ & _ & Hlen).
  split; [lia|]. split; [apply Hlen; lia | exact Hnot].
Defined.

End FallbackScores.

(** ** Where an interaction ends up *)

Section TrackOutcomes.
Import InteractionTracker.

Lemma filter_drop_suffix {A} (p : A -> bool) (k : nat) (l : list A) :
  List.filter p (drop k l) `suffix_of` List.filter p l.
Proof.
  exists (List.filter p (take k l)).
  now rewrite <- List.filter_app, take_drop.
Qed.

Lemma push_capped_drop (l : list UserInteraction.t) (x : UserInteraction.t) :
  exists k : nat, push_capped l x = (drop k l ++ [x])%list.
Proof.
  unfold push_capped.
  destruct (Nat.ltb_spec 1000 (length (l ++ [x]))) as [H|H].
  - exists (length (l ++ [x]) - 1000)%nat.
    rewrite length_app in *. cbn [length] in *.
    rewrite drop_app_le by lia. reflexivity.
  - exists 0%nat. reflexivity.
Qed.

Lemma trackInteraction_eq (t : Tracker) (interaction : NewInteraction.t)
    (newId : string) (now : Z) (w : World) :
  let row (user_id : string) :=
    {| InsertRow.user_id := user_id;
       InsertRow.product_id := NewInteraction.productId interaction;
       InsertRow.interaction_type := NewInteraction.interactionType interaction;
       InsertRow.session_id := sessionId t;
       InsertRow.metadata := default Metadata.empty (NewInteraction.metadata interaction) |} in
  trackInteraction t interaction newId now w
  = match auth_getUser (supabase t) with
    | Rejected =>
        trackInteractionLocal t interaction newId now
          {| localStorage := localStorage w; trace := trace w ++ [AuthGetUser] |}
    | Resolved None =>
        (Returns tt, {| localStorage := localStorage w; trace := trace w ++ [AuthGetUser] |})
    | Resolved (Some user_id) =>
        match insert (supabase t) (row user_id) with
        | Resolved false =>
            (Returns tt,
             {| localStorage := localStorage w;
                trace := (trace w ++ [AuthGetUser])
                         ++ [RemoteInsert "user_interactions" (row user_id)] |})
        | _ =>
            trackInteractionLocal t interaction newId now
              {| localStorage := localStorage w;
                 trace := (trace w ++ [AuthGetUser])
                          ++ [RemoteInsert "user_interactions" (row user_id)] |}
        end
    end.
Proof.
  intros row. unfold trackInteraction, try_catch, await, emit, ret, throw, bind.
  cbn [localStorage trace].
  destruct (auth_getUser (supabase t)) as [|[user_id|]]; try reflexivity.
  fold (row user_id).
  destruct (insert (supabase t) (row user_id)) as [|[|]]; reflexivity.
Qed.

Lemma getUserInteractions_after_local
    (t : Tracker) (interaction : NewInteraction.t) (newId : string) (now : Z)
    (w : World) (userId : string) :
  exists older : list UserInteraction.t,
    older `suffix_of`
      List.filter (fun i => String.eqb (UserInteraction.userId i) userId)
        (default [] (user_interactions (localStorage w)))
    /\ fst (getUserInteractions userId
              (snd (trackInteractionLocal t interaction newId now w)))
       = Returns (if String.eqb (NewInteraction.userId interaction) userId
                  then (older ++ [newInteraction t interaction newId now])%list
                  else older).
Proof.
  rewrite trackInteractionLocal_eq.
  rewrite getUserInteractions_eq.
  cbn [fst snd localStorage user_interactions default from_option].
  destruct (push_capped_drop (default [] (user_interactions (localStorage w)))
              (newInteraction t interaction newId now)) as (k & ->).
  exists (List.filter (fun i => String.eqb (UserInteraction.userId i) userId)
            (drop k (default [] (user_interactions (localStorage w))))).
  split; [apply filter_drop_suffix|].
  unfold Datatypes.id. rewrite List.filter_app.
  cbn [List.filter newInteraction UserInteraction.userId].
  destruct (String.eqb (NewInteraction.userId interaction) userId);
    [reflexivity | now rewrite app_nil_r].
Qed.

(** X9: trackInteraction never throws, whatever the remote side does.  With
    nobody signed in nothing is recorded.  With a user signed in the
    interaction is recorded once: by a remote insert under the signed-in
    user's id when the insert succeeds, and otherwise (as when the identity
    lookup is rejected) in the local store under the userId the caller
    passed.  Both records carry the tracker's session identifier; the
    sessionId the caller passed is not used. *)
Theorem trackInteraction_outcomes (t : Tracker) (interaction : NewInteraction.t)
    (newId : string) (now : Z) (w : World) :
  let row (user_id : string) :=
    {| InsertRow.user_id := user_id;
       InsertRow.product_id := NewInteraction.productId interaction;
       InsertRow.interaction_type := NewInteraction.interactionType interaction;
       InsertRow.session_id := sessionId t;
       InsertRow.metadata := default Metadata.empty (NewInteraction.metadata interaction) |} in
  let stored :=
    {| UserInteraction.id := newId;
       UserInteraction.userId := NewInteraction.userId interaction;
       UserInteraction.productId := NewInteraction.productId interaction;
       UserInteraction.interactionType := NewInteraction.interactionType interaction;
       UserInteraction.timestamp := now;
       UserInteraction.sessionId := sessionId t;
       UserInteraction.metadata :=
         Some (default Metadata.empty (NewInteraction.metadata interaction)) |} in
  exists w' : World,
    trackInteraction t interaction newId now w = (Returns tt, w')
    /\ user_preferences (localStorage w') = user_preferences (localStorage w)
    /\ ((auth_getUser (supabase t) = Resolved None
         /\ localStorage w' = localStorage w
         /\ new_events w w' = [AuthGetUser])
        \/ (exists user_id,
              auth_getUser (supabase t) = Resolved (Some user_id)
              /\ insert (supabase t) (row user_id) = Resolved false
              /\ localStorage w' = localStorage w
              /\ new_events w w'
                 = [AuthGetUser; RemoteInsert "user_interactions" (row user_id)])
        \/ ((auth_getUser (supabase t) = Rejected
             \/ exists user_id,
                  auth_getUser (supabase t) = Resolved (Some user_id)
                  /\ insert (supabase t) (row user_id) <> Resolved false)
            /\ user_interactions (localStorage w')
               = Some (push_capped (default [] (user_interactions (localStorage w)))
                         stored))).
Proof.
  intros row stored. rewrite trackInteraction_eq. subst row stored. cbv zeta.
  destruct (auth_getUser (supabase t)) as [|[user_id|]] eqn:Eauth.
  - rewrite trackInteractionLocal_eq. eexists. split; [reflexivity|].
    split; [reflexivity|]. right. right. split; [now left | reflexivity].
  - match goal with
    | |- context [insert (supabase t) ?r] =>
        destruct (insert (supabase t) r) as [|[|]] eqn:Eins
    end.
    + rewrite trackInteractionLocal_eq. eexists. split; [reflexivity|].
      split; [reflexivity|]. right. right. split; [|reflexivity].
      right. exists user_id. split; [reflexivity|]. rewrite Eins. discriminate.
    + rewrite trackInteractionLocal_eq. eexists. split; [reflexivity|].
      split; [reflexivity|]. right. right. split; [|reflexivity].
      right. exists user_id. split; [reflexivity|]. rewrite Eins. discriminate.
    + eexists. split; [reflexivity|]. split; [reflexivity|]. right. left.
      exists user_id. split; [reflexivity|]. split; [exact Eins|].
      split; [reflexivity|].
      unfold new_events. cbn [trace]. rewrite <- app_assoc.
      now rewrite drop_app_length.
  - eexists. split; [reflexivity|]. split; [reflexivity|]. left.
    split; [reflexivity|]. split; [reflexivity|].
    unfold new_events. cbn [trace]. now rewrite drop_app_length.
Qed.

(** X10: after trackInteractionLocal, getUserInteractions for the userId of
    the interaction ends with the record just stored, preceded by a suffix
    of what it returned before (the cap may have dropped the oldest
    entry); for any other userId it returns a suffix of what it returned
    before. *)
Theorem trackInteractionLocal_then_getUserInteractions
    (t : Tracker) (interaction : NewInteraction.t) (newId : string) (now : Z)
    (w : World) (userId : string) :
  let before :=
    List.filter (fun i => String.eqb (UserInteraction.userId i) userId)
      (default [] (user_interactions (localStorage w))) in
  let w1 := snd (trackInteractionLocal t interaction newId now w) in
  exists older : list UserInteraction.t,
    older `suffix_of` before
    /\ fst (getUserInteractions userId w1)
       = Returns (if String.eqb (NewInteraction.userId interaction) userId
                  then (older ++ [newInteraction t interaction newId now])%list
                  else older).
Proof.
  intros before w1.
  exact (getUserInteractions_after_local t interaction newId now w userId).
Qed.

Lemma find_product_none (products : list Product.t) (productId : string) :
  (forall p, In p products -> Product.id p <> productId) ->
  ProductCatalog.find_product products productId = None.
Proof.
  unfold ProductCatalog.find_product.
  induction products as [|q products IH]; intros H; [reflexivity|].
  cbn [find]. destruct (String.eqb_spec (Product.id q) productId) as [E|_].
  - exfalso. apply (H q); [now left | exact E].
  - apply IH. intros p Hp. apply H. now right.
Qed.

Lemma find_product_first (earlier later : list Product.t) (p : Product.t)
    (productId : string) :
  Product.id p = productId ->
  (forall q, In q earlier -> Product.id q <> productId) ->
  ProductCatalog.find_product (earlier ++ p :: later) productId = Some p.
Proof.
  unfold ProductCatalog.find_product. intros Hp.
  induction earlier as [|q earlier IH]; intros H; cbn [app find].
  - destruct (String.eqb_spec (Product.id p) productId); [reflexivity | contradiction].
  - destruct (String.eqb_spec (Product.id q) productId) as [E|_].
    + exfalso. apply (H q); [now left | exact E].
    + apply IH. intros x Hx. apply H. now right.
Qed.

(** X11: the catalog page tracks every interaction with userId
    "anonymous"; when such an interaction is stored locally, the record is
    that of the product and interaction type clicked, carries the tracker's
    session identifier, the category and price of the first product of the
    catalog with that id (and neither when the catalog has no such
    product), and the search query when it is not empty; the local
    interactions of any other user gain nothing. *)
Theorem catalog_interaction_stored_as_anonymous
    (t : Tracker) (products : list Product.t) (searchQuery productId : string)
    (interactionType : InteractionType) (newId : string) (now : Z) (w : World)
    (userId : string) :
  userId <> "anonymous" ->
  let interaction :=
    ProductCatalog.tracked_interaction products searchQuery productId interactionType in
  let w1 := snd (trackInteractionLocal t interaction newId now w) in
  (exists stored,
     last (default [] (user_interactions (localStorage w1))) = Some stored
     /\ UserInteraction.userId stored = "anonymous"
     /\ UserInteraction.sessionId stored = sessionId t
     /\ UserInteraction.productId stored = productId
     /\ UserInteraction.interactionType stored = interactionType
     /\ ((forall p, In p products -> Product.id p <> productId) ->
         (UserInteraction.metadata stored ≫= Metadata.category) = None
         /\ (UserInteraction.metadata stored ≫= Metadata.price) = None)
     /\ (forall (earlier later : list Product.t) (p : Product.t),
           products = (earlier ++ p :: later)%list ->
           Product.id p = productId ->
           (forall q, In q earlier -> Product.id q <> productId) ->
           (UserInteraction.metadata stored ≫= Metadata.category)
           = Some (Product.category p)
           /\ (UserInteraction.metadata stored ≫= Metadata.price)
              = Some (Product.price p))
     /\ (UserInteraction.metadata stored ≫= Metadata.searchQuery)
        = (if String.eqb searchQuery "" then None else Some searchQuery))
  /\ exists remaining : list UserInteraction.t,
       fst (getUserInteractions userId w1) = Returns remaining
       /\ remaining `suffix_of`
            List.filter (fun i => String.eqb (UserInteraction.userId i) userId)
              (default [] (user_interactions (localStorage w))).
Proof.
  intros Hne interaction w1. split.
  - destruct (push_capped_drop (default [] (user_interactions (localStorage w)))
                (newInteraction t interaction newId now)) as (k & Ek).
    assert (Ed : forall l : list UserInteraction.t, default [] (Some l) = l)
      by reflexivity.
    unfold w1. rewrite trackInteractionLocal_eq.
    cbn [snd localStorage user_interactions]. rewrite Ek, Ed.
    exists (newInteraction t interaction newId now).
    split; [apply last_snoc|].
    do 4 (split; [reflexivity|]).
    split; [|split].
    + intros Hnone.
      cbn [newInteraction interaction ProductCatalog.tracked_interaction
           UserInteraction.metadata NewInteraction.metadata default from_option
           mbind option_bind Metadata.category Metadata.price].
      unfold interaction, ProductCatalog.tracked_interaction. cbn.
      rewrite (find_product_none products productId Hnone). split; reflexivity.
    + intros earlier later p -> Hp Hfirst.
      unfold interaction, ProductCatalog.tracked_interaction. cbn.
      rewrite (find_product_first earlier later p productId Hp Hfirst).
      split; reflexivity.
    + unfold interaction, ProductCatalog.tracked_interaction. cbn.
      now destruct (String.eqb searchQuery "").
  - destruct (getUserInteractions_after_local t interaction newId now w userId)
      as (older & Hs & E).
    exists older. split; [|exact Hs].
    fold w1 in E. rewrite E.
    replace (String.eqb (NewInteraction.userId interaction) userId) with false;
      [reflexivity|].
    symmetry. apply String.eqb_neq. cbn. congruence.
Qed.

Lemma catalog_interaction_stored_as_anonymous_witness :
  "test-user-id" <> "anonymous"
  /\ exists remaining : list UserInteraction.t,
       fst (getUserInteractions "test-user-id"
              (snd (trackInteractionLocal mock_tracker
                      (ProductCatalog.tracked_interaction
                         [AIRecommendationService.test_product] "laptop"
                         "1" view)
                      "k3j2h1" 7 empty_world)))
       = Returns remaining
       /\ remaining `suffix_of`
            List.filter (fun i => String.eqb (UserInteraction.userId i) "test-user-id")
              (default [] (user_interactions (localStorage empty_world))).
Proof.
  assert (Hne : "test-user-id" <> "anonymous") by discriminate.
  split; [exact Hne|].
  exact (proj2 (catalog_interaction_stored_as_anonymous mock_tracker
                  [AIRecommendationService.test_product]
                  "laptop" "1" view "k3j2h1" 7 empty_world
                  "test-user-id" Hne)).
Defined.

End TrackOutcomes.

(** ** Reading the preferences *)

Section ReadPreferences.
Import InteractionTracker.

Lemma getUserPreferencesLocal_eq (userId : option string) (now : Z) (w : World) :
  getUserPreferencesLocal userId now w
  = (Returns (default (getDefaultPreferences now)
                (user_preferences (localStorage w) !! default "anonymous" (truthy userId))),
     {| localStorage := localStorage w;
        trace := trace w ++ [LocalGetItem ("user_preferences_"
                                           ++ default "anonymous" (truthy userId))] |}).
Proof.
  unfold getUserPreferencesLocal, getItem_preferences, emit, ret, bind.
  cbn [localStorage trace].
  destruct (user_preferences (localStorage w) !! default "anonymous" (truthy userId));
    reflexivity.
Qed.

Lemma getUserPreferences_eq (t : Tracker) (userId : option string) (now : Z) (w : World) :
  let w1 := {| localStorage := localStorage w; trace := trace w ++ [AuthGetUser] |} in
  getUserPreferences t userId now w
  = match auth_getUser (supabase t) with
    | Rejected => getUserPreferencesLocal userId now w1
    | Resolved user =>
        match truthy (or_string userId user) with
        | None => (Returns (getDefaultPreferences now), w1)
        | Some targetUserId =>
            let w2 := {| localStorage := localStorage w;
                         trace := trace w1
                                  ++ [RemoteSelect "user_preferences" targetUserId] |} in
            match select_preferences (supabase t) targetUserId with
            | Rejected => getUserPreferencesLocal userId now w2
            | Resolved preferences =>
                let w3 := {| localStorage := localStorage w;
                             trace := trace w2
                                      ++ [RemoteSelect "user_interactions" targetUserId] |} in
                match select_interactions (supabase t) targetUserId with
                | Rejected => getUserPreferencesLocal userId now w3
                | Resolved interactions =>
                    (Returns
                       {| UserPreference.userId := targetUserId;
                          UserPreference.preferredCategories :=
                            default [] (preferences ≫= PreferenceRow.preferred_categories);
                          UserPreference.preferredBrands :=
                            default [] (preferences ≫= PreferenceRow.preferred_brands);
                          UserPreference.priceRange :=
                            (or_number (preferences ≫= PreferenceRow.price_range_min) 0,
                             or_number (preferences ≫= PreferenceRow.price_range_max) 3000);
                          UserPreference.preferredFeatures :=
                            default [] (preferences ≫= PreferenceRow.preferred_features);
                          UserPreference.interactionHistory :=
                            default []
                              (List.map (interaction_of_row targetUserId) <$> interactions);
                          UserPreference.lastUpdated :=
                            default now (preferences ≫= PreferenceRow.updated_at) |},
                     w3)
                end
            end
        end
    end.
Proof.
  intros w1. subst w1.
  unfold getUserPreferences, try_catch, await, emit, ret, throw, bind.
  cbn [localStorage trace].
  destruct (auth_getUser (supabase t)) as [|user]; [reflexivity|].
  destruct (truthy (or_string userId user)) as [target|]; [|reflexivity].
  cbn [localStorage trace].
  destruct (select_preferences (supabase t) target) as [|preferences]; [reflexivity|].
  destruct (select_interactions (supabase t) target) as [|interactions]; reflexivity.
Qed.

(** X12: getUserPreferences without an identity (no userId argument and
    nobody signed in) returns the default preferences after the identity
    lookup alone.  When the identity lookup or one of the two table reads
    is rejected it returns what the local store holds under the userId
    argument, or under "anonymous" when there is none (also when a user is
    signed in), and the default preferences when the store holds nothing
    there.  It never changes the local store. *)
Theorem getUserPreferences_degrades (t : Tracker) (userId : option string)
    (now : Z) (w : World) :
  (forall user,
     auth_getUser (supabase t) = Resolved user ->
     truthy (or_string userId user) = None ->
     getUserPreferences t userId now w
     = (Returns (getDefaultPreferences now),
        {| localStorage := localStorage w; trace := trace w ++ [AuthGetUser] |}))
  /\ ((auth_getUser (supabase t) = Rejected
       \/ exists user targetUserId,
            auth_getUser (supabase t) = Resolved user
            /\ truthy (or_string userId user) = Some targetUserId
            /\ (select_preferences (supabase t) targetUserId = Rejected
                \/ select_interactions (supabase t) targetUserId = Rejected)) ->
      fst (getUserPreferences t userId now w)
      = Returns (default (getDefaultPreferences now)
                   (user_preferences (localStorage w)
                      !! default "anonymous" (truthy userId))))
  /\ localStorage (snd (getUserPreferences t userId now w)) = localStorage w.
Proof.
  rewrite getUserPreferences_eq. cbv zeta. split; [|split].
  - intros user -> ->. reflexivity.
  - intros [->|(user & target & -> & -> & [->|Hi])].
    + now rewrite getUserPreferencesLocal_eq.
    + now rewrite getUserPreferencesLocal_eq.
    + destruct (select_preferences (supabase t) target);
        rewrite ?Hi, getUserPreferencesLocal_eq; reflexivity.
  - destruct (auth_getUser (supabase t)) as [|user];
      [now rewrite getUserPreferencesLocal_eq|].
    destruct (truthy (or_string userId user)) as [target|]; [|reflexivity].
    destruct (select_preferences (supabase t) target);
      [now rewrite getUserPreferencesLocal_eq|].
    destruct (select_interactions (supabase t) target);
      [now rewrite getUserPreferencesLocal_eq | reflexivity].
Qed.

Lemma getUserPreferences_degrades_witness :
  auth_getUser (supabase signed_out_tracker) = Resolved None
  /\ truthy (or_string None None) = None
  /\ getUserPreferences signed_out_tracker None 7 empty_world
     = (Returns (getDefaultPreferences 7),
        {| localStorage := localStorage empty_world; trace := [AuthGetUser] |}).
Proof.
  split; [reflexivity|]. split; [reflexivity|].
  exact (proj1 (getUserPreferences_degrades signed_out_tracker None 7 empty_world)
           None eq_refl eq_refl).
Defined.

(** X13: when the identity lookup and both table reads resolve,
    getUserPreferences reports the rows of the target user, who is the
    userId argument whenever one is given, whoever is signed in.  Every
    interaction of the history carries the target's id.  A stored maximum
    price that is absent or 0 is reported as 3000. *)
Theorem getUserPreferences_from_rows (t : Tracker) (userId : option string)
    (now : Z) (w : World) (user : option string) (targetUserId : string)
    (preferences : option PreferenceRow.t)
    (interactions : option (list InteractionRow.t)) :
  auth_getUser (supabase t) = Resolved user ->
  truthy (or_string userId user) = Some targetUserId ->
  select_preferences (supabase t) targetUserId = Resolved preferences ->
  select_interactions (supabase t) targetUserId = Resolved interactions ->
  exists p : UserPreference.t,
    fst (getUserPreferences t userId now w) = Returns p
    /\ UserPreference.userId p = targetUserId
    /\ (forall s, truthy userId = Some s -> targetUserId = s)
    /\ UserPreference.interactionHistory p
       = List.map (interaction_of_row targetUserId) (default [] interactions)
    /\ Forall (fun i => UserInteraction.userId i = targetUserId)
         (UserPreference.interactionHistory p)
    /\ (match preferences ≫= PreferenceRow.price_range_max with
        | None => snd (UserPreference.priceRange p) = 3000%Q
        | Some q =>
            (q == 0 -> snd (UserPreference.priceRange p) = 3000%Q)
            /\ (~ q == 0 -> snd (UserPreference.priceRange p) = q)
        end)%Q.
Proof.
  intros Hauth Htarget Hprefs Hinter.
  rewrite getUserPreferences_eq. cbv zeta. rewrite Hauth, Htarget, Hprefs, Hinter.
  eexists. split; [reflexivity|]. cbn [UserPreference.userId
    UserPreference.interactionHistory UserPreference.priceRange snd].
  split; [reflexivity|]. split; [|split; [|split]].
  - intros s Hs. unfold or_string in Htarget. rewrite Hs in Htarget.
    unfold truthy in Hs, Htarget. destruct userId as [u|]; [|discriminate].
    destruct (String.eqb u ""); [discriminate|]. injection Hs as <-.
    destruct (String.eqb u "") eqn:E; congruence.
  - destruct interactions; reflexivity.
  - destruct interactions as [rows|]; cbn; [|constructor].
    apply List.Forall_forall. intros i Hi. apply in_map_iff in Hi as (r & <- & _).
    reflexivity.
  - unfold or_number.
    destruct (preferences ≫= PreferenceRow.price_range_max) as [q|]; [|reflexivity].
    destruct (Qeq_bool q 0) eqn:E.
    + split; [reflexivity|]. intros Hq. apply Qeq_bool_iff in E. contradiction.
    + split; [|reflexivity]. intros Hq. apply Qeq_bool_iff in Hq. congruence.
Qed.

Lemma getUserPreferences_from_rows_witness :
  auth_getUser (supabase mock_tracker) = Resolved (Some "test-user-id")
  /\ truthy (or_string (Some "someone-else") (Some "test-user-id")) = Some "someone-else"
  /\ exists p : UserPreference.t,
       fst (getUserPreferences mock_tracker (Some "someone-else") 7 empty_world)
       = Returns p
       /\ UserPreference.userId p = "someone-else"
       /\ snd (UserPreference.priceRange p) = 3000%Q.
Proof.
  split; [reflexivity|]. split; [reflexivity|].
  destruct (getUserPreferences_from_rows mock_tracker (Some "someone-else") 7
              empty_world (Some "test-user-id") "someone-else" None (Some [])
              eq_refl eq_refl eq_refl eq_refl)
    as (p & E & Hid & _ & _ & _ & Hmax).
  exists p. split; [exact E|]. split; [exact Hid | exact Hmax].
Defined.

End ReadPreferences.

(** ** Writing and clearing the local preferences *)

Section WritePreferences.
Import InteractionTracker TrackerOperations.

Lemma truthy_key (x : option string) :
  truthy (Some (default "anonymous" (truthy x))) = Some (default "anonymous" (truthy x)).
Proof.
  destruct x as [s|]; [|reflexivity].
  destruct (String.eqb_spec s "") as [->|Hs]; [reflexivity|].
  rewrite (truthy_nonempty s Hs). exact (truthy_nonempty s Hs).
Qed.

Lemma updateUserPreferencesLocal_eq (preferences : PartialPreference.t) (now : Z)
    (w : World) :
  let key := default "anonymous" (truthy (PartialPreference.userId preferences)) in
  updateUserPreferencesLocal preferences now w
  = (Returns tt,
     {| localStorage :=
          {| user_interactions := user_interactions (localStorage w);
             user_preferences :=
               <[key := merge_preferences
                          (default (getDefaultPreferences now)
                             (user_preferences (localStorage w) !! key))
                          preferences now]>
                 (user_preferences (localStorage w)) |};
        trace := trace w ++ [LocalGetItem ("user_preferences_" ++ key);
                             LocalSetItem ("user_preferences_" ++ key)] |}).
Proof.
  intros key. unfold updateUserPreferencesLocal. fold key.
  unfold bind. rewrite getUserPreferencesLocal_eq.
  assert (Hk : truthy (Some key) = Some key) by apply truthy_key.
  rewrite Hk.
  unfold setItem_preferences, emit, bind. cbn [localStorage trace].
  change (default "anonymous" (Some key)) with key.
  now rewrite <- app_assoc.
Qed.

(** X14: after updateUserPreferencesLocal, getUserPreferencesLocal for the
    same user (or for "anonymous" when the update names none) returns the
    preferences held before, or the defaults, with every property the
    update carries (userId, preferredCategories, preferredBrands,
    priceRange, preferredFeatures, interactionHistory) replaced by the
    update's value and lastUpdated set to the time of the update; the
    entries of the other users and the stored interactions are
    untouched. *)
Theorem updateUserPreferencesLocal_round_trip
    (preferences : PartialPreference.t) (now later : Z) (w : World) :
  let key := default "anonymous" (truthy (PartialPreference.userId preferences)) in
  let previous :=
    match user_preferences (localStorage w) !! key with
    | Some stored => stored
    | None =>
        {| UserPreference.userId := "anonymous";
           UserPreference.preferredCategories := [];
           UserPreference.preferredBrands := [];
           UserPreference.priceRange := (0%Q, 3000%Q);
           UserPreference.preferredFeatures := [];
           UserPreference.interactionHistory := [];
           UserPreference.lastUpdated := now |}
    end in
  let carried {A} (given : option A) (held : A) : A :=
    match given with
    | Some value => value
    | None => held
    end in
  let w1 := snd (updateUserPreferencesLocal preferences now w) in
  fst (updateUserPreferencesLocal preferences now w) = Returns tt
  /\ fst (getUserPreferencesLocal (PartialPreference.userId preferences) later w1)
     = Returns
         {| UserPreference.userId :=
              carried (PartialPreference.userId preferences)
                (UserPreference.userId previous);
            UserPreference.preferredCategories :=
              carried (PartialPreference.preferredCategories preferences)
                (UserPreference.preferredCategories previous);
            UserPreference.preferredBrands :=
              carried (PartialPreference.preferredBrands preferences)
                (UserPreference.preferredBrands previous);
            UserPreference.priceRange :=
              carried (PartialPreference.priceRange preferences)
                (UserPreference.priceRange previous);
            UserPreference.preferredFeatures :=
              carried (PartialPreference.preferredFeatures preferences)
                (UserPreference.preferredFeatures previous);
            UserPreference.interactionHistory :=
              carried (PartialPreference.interactionHistory preferences)
                (UserPreference.interactionHistory previous);
            UserPreference.lastUpdated := now |}
  /\ (forall k, k <> key ->
        user_preferences (localStorage w1) !! k
        = user_preferences (localStorage w) !! k)
  /\ user_interactions (localStorage w1) = user_interactions (localStorage w).
Proof.
  intros key previous carried w1. unfold w1. rewrite updateUserPreferencesLocal_eq.
  cbv zeta. fold key. cbn [fst snd].
  split; [reflexivity|]. split; [|split].
  - rewrite getUserPreferencesLocal_eq. fold key.
    cbn [fst localStorage user_preferences]. rewrite lookup_insert_eq.
    unfold previous, carried, merge_preferences, getDefaultPreferences.
    destruct (user_preferences (localStorage w) !! key); reflexivity.
  - intros k Hk. cbn [localStorage user_preferences]. now rewrite lookup_insert_ne.
  - reflexivity.
Qed.

Lemma earlier_updateUserPreferencesLocal (preferences : PartialPreference.t)
    (now : Z) (s : Session) :
  let key := default "anonymous" (truthy (PartialPreference.userId preferences)) in
  earlier (updateUserPreferencesLocal preferences now) s
  = (Returns tt,
     {| store :=
          {| user_interactions := user_interactions (store s);
             user_preferences :=
               <[key := merge_preferences
                          (default (getDefaultPreferences now)
                             (user_preferences (store s) !! key))
                          preferences now]>
                 (user_preferences (store s)) |};
        log := log s ++ [Earlier (LocalGetItem ("user_preferences_" ++ key));
                         Earlier (LocalSetItem ("user_preferences_" ++ key))] |}).
Proof.
  intros key. unfold earlier. rewrite updateUserPreferencesLocal_eq. reflexivity.
Qed.

Lemma updateUserPreferences_eq (t : Tracker) (tables : RemoteTables)
    (preferences : PartialPreference.t) (now : Z) (s : Session) :
  let s1 := {| store := store s; log := log s ++ [Earlier AuthGetUser] |} in
  updateUserPreferences t tables preferences now s
  = match auth_getUser (supabase t) with
    | Rejected => earlier (updateUserPreferencesLocal preferences now) s1
    | Resolved None => (Returns tt, s1)
    | Resolved (Some user_id) =>
        let s2 := {| store := store s;
                     log := log s1 ++ [RemoteUpsert "user_preferences"
                                         (upsert_row user_id preferences now)] |} in
        match upsert tables (upsert_row user_id preferences now) with
        | Resolved false => (Returns tt, s2)
        | _ => earlier (updateUserPreferencesLocal preferences now) s2
        end
    end.
Proof.
  intros s1. subst s1.
  unfold updateUserPreferences, try_catch, awaited, record, ret, throw, bind.
  cbn [store log].
  destruct (auth_getUser (supabase t)) as [|[user_id|]]; try reflexivity.
  destruct (upsert tables (upsert_row user_id preferences now)) as [|[|]];
    try reflexivity.
  now rewrite !earlier_updateUserPreferencesLocal.
Qed.

(** X15: updateUserPreferences never throws.  With nobody signed in it
    writes nothing.  With a user signed in it upserts one row whose user_id
    is that user's id and whose columns are the update's lists, minimum and
    maximum price, each property the update omits (and a price of 0) sent
    as its default (empty list, 0, 3000); only when the upsert fails or the
    identity lookup is rejected does it write the local store, and then it
    stores, under the userId the update names, or "anonymous", the entry
    held there (or the defaults) with the update's properties replaced. *)
Theorem updateUserPreferences_outcomes (t : Tracker) (tables : RemoteTables)
    (preferences : PartialPreference.t) (now : Z) (s : Session) :
  let key := default "anonymous" (truthy (PartialPreference.userId preferences)) in
  let previous :=
    match user_preferences (store s) !! key with
    | Some stored => stored
    | None =>
        {| UserPreference.userId := "anonymous";
           UserPreference.preferredCategories := [];
           UserPreference.preferredBrands := [];
           UserPreference.priceRange := (0%Q, 3000%Q);
           UserPreference.preferredFeatures := [];
           UserPreference.interactionHistory := [];
           UserPreference.lastUpdated := now |}
    end in
  let carried {A} (given : option A) (held : A) : A :=
    match given with
    | Some value => value
    | None => held
    end in
  let merged :=
    {| UserPreference.userId :=
         carried (PartialPreference.userId preferences) (UserPreference.userId previous);
       UserPreference.preferredCategories :=
         carried (PartialPreference.preferredCategories preferences)
           (UserPreference.preferredCategories previous);
       UserPreference.preferredBrands :=
         carried (PartialPreference.preferredBrands preferences)
           (UserPreference.preferredBrands previous);
       UserPreference.priceRange :=
         carried (PartialPreference.priceRange preferences)
           (UserPreference.priceRange previous);
       UserPreference.preferredFeatures :=
         carried (PartialPreference.preferredFeatures preferences)
           (UserPreference.preferredFeatures previous);
       UserPreference.interactionHistory :=
         carried (PartialPreference.interactionHistory preferences)
           (UserPreference.interactionHistory previous);
       UserPreference.lastUpdated := now |} in
  let row (user_id : string) :=
    {| UpsertRow.user_id := user_id;
       UpsertRow.preferred_categories :=
         carried (PartialPreference.preferredCategories preferences) [];
       UpsertRow.preferred_brands :=
         carried (PartialPreference.preferredBrands preferences) [];
       UpsertRow.price_range_min :=
         match PartialPreference.priceRange preferences with
         | Some (lowest, _) => if Qeq_bool lowest 0 then 0%Q else lowest
         | None => 0%Q
         end;
       UpsertRow.price_range_max :=
         match PartialPreference.priceRange preferences with
         | Some (_, highest) => if Qeq_bool highest 0 then 3000%Q else highest
         | None => 3000%Q
         end;
       UpsertRow.preferred_features :=
         carried (PartialPreference.preferredFeatures preferences) [];
       UpsertRow.updated_at := now |} in
  exists s' : Session,
    updateUserPreferences t tables preferences now s = (Returns tt, s')
    /\ user_interactions (store s') = user_interactions (store s)
    /\ ((auth_getUser (supabase t) = Resolved None
         /\ store s' = store s
         /\ log s' = (log s ++ [Earlier AuthGetUser])%list)
        \/ (exists user_id,
              auth_getUser (supabase t) = Resolved (Some user_id)
              /\ upsert tables (row user_id) = Resolved false
              /\ store s' = store s
              /\ log s' = (log s ++ [Earlier AuthGetUser;
                                     RemoteUpsert "user_preferences" (row user_id)])%list)
        \/ ((auth_getUser (supabase t) = Rejected
             /\ log s'
                = (log s ++ [Earlier AuthGetUser;
                             Earlier (LocalGetItem ("user_preferences_" ++ key));
                             Earlier (LocalSetItem ("user_preferences_" ++ key))])%list
             \/ exists user_id,
                  auth_getUser (supabase t) = Resolved (Some user_id)
                  /\ upsert tables (row user_id) <> Resolved false
                  /\ log s'
                     = (log s ++ [Earlier AuthGetUser;
                                  RemoteUpsert "user_preferences" (row user_id);
                                  Earlier (LocalGetItem ("user_preferences_" ++ key));
                                  Earlier (LocalSetItem ("user_preferences_" ++ key))])%list)
            /\ user_preferences (store s')
               = <[key := merged]> (user_preferences (store s)))).
Proof.
  intros key previous carried merged row.
  assert (Hrow : forall user_id, upsert_row user_id preferences now = row user_id).
  { intros user_id. unfold upsert_row, row, carried, or_number.
    destruct (PartialPreference.priceRange preferences) as [[lowest highest]|];
      reflexivity. }
  assert (Hmerged :
            merge_preferences
              (default (getDefaultPreferences now) (user_preferences (store s) !! key))
              preferences now = merged).
  { unfold merged, previous, carried, merge_preferences, getDefaultPreferences.
    destruct (user_preferences (store s) !! key); reflexivity. }
  rewrite updateUserPreferences_eq. cbv zeta.
  destruct (auth_getUser (supabase t)) as [|[user_id|]] eqn:Eauth.
  - rewrite earlier_updateUserPreferencesLocal. cbv zeta. cbn [store log].
      fold key. rewrite Hmerged.
    eexists. split; [reflexivity|].
    split; [reflexivity|]. right. right. split; [|reflexivity]. left.
    split; [reflexivity|]. cbn [log]. now rewrite <- app_assoc.
  - rewrite (Hrow user_id).
    destruct (upsert tables (row user_id)) as [|[|]] eqn:Eup.
    + rewrite earlier_updateUserPreferencesLocal. cbv zeta. cbn [store log].
      fold key. rewrite Hmerged.
      eexists. split; [reflexivity|].
      split; [reflexivity|]. right. right. split; [|reflexivity].
      right. exists user_id. split; [reflexivity|].
      split; [rewrite ?Eup; intros Ebad; discriminate Ebad|].
      cbn [log]. now rewrite <- !app_assoc.
    + rewrite earlier_updateUserPreferencesLocal. cbv zeta. cbn [store log].
      fold key. rewrite Hmerged.
      eexists. split; [reflexivity|].
      split; [reflexivity|]. right. right. split; [|reflexivity].
      right. exists user_id. split; [reflexivity|].
      split; [rewrite ?Eup; intros Ebad; discriminate Ebad|].
      cbn [log]. now rewrite <- !app_assoc.
    + eexists. split; [reflexivity|]. split; [reflexivity|]. right. left.
      exists user_id. split; [reflexivity|]. split; [exact Eup|].
      split; [reflexivity|]. cbn [log]. now rewrite <- app_assoc.
  - eexists. split; [reflexivity|]. split; [reflexivity|]. left.
    split; [reflexivity|]. split; reflexivity.
Qed.

(** X16: clearUserData removes from the local store every interaction of
    the user, in place, and the user's preference entry, keeping the
    interactions of the other users in their order; it contacts nothing
    but localStorage.  Afterwards getUserInteractions returns nothing for
    that user and the same as before for any other. *)
Theorem clearUserData_clears (userId : string) (s : Session) :
  let key := default "anonymous" (truthy (Some userId)) in
  let before := default [] (user_interactions (store s)) in
  exists s' : Session,
    clearUserData userId s = (Returns tt, s')
    /\ user_interactions (store s')
       = Some (List.filter (fun i => negb (String.eqb (UserInteraction.userId i) userId))
                 before)
    /\ user_preferences (store s') = delete key (user_preferences (store s))
    /\ log s' = (log s ++ [LocalRemoveItem ("user_preferences_" ++ key)%string;
                           Earlier (LocalGetItem "user_interactions");
                           Earlier (LocalSetItem "user_interactions")])%list
    /\ (forall u,
          fst (getUserInteractions u {| localStorage := store s'; trace := [] |})
          = Returns (if String.eqb u userId then []
                     else List.filter
                            (fun i => String.eqb (UserInteraction.userId i) u) before)).
Proof.
  intros key before.
  unfold clearUserData, bind, removeItem_preferences, bind, record, earlier,
    getAllInteractions, bind, getItem_interactions, bind, emit, ret,
    setItem_interactions, bind, emit.
  cbn [store log localStorage trace user_interactions user_preferences].
  fold key. fold before.
  eexists. split; [reflexivity|]. cbn [store log user_interactions user_preferences].
  split; [reflexivity|]. split; [reflexivity|]. split.
  - cbn [List.map app]. rewrite <- !app_assoc. reflexivity.
  - intros u. rewrite getUserInteractions_eq.
    cbn [fst localStorage user_interactions default from_option]. unfold Datatypes.id.
    f_equal. rewrite filter_filter.
    destruct (String.eqb_spec u userId) as [->|Hne].
    + induction before as [|i l IH]; [reflexivity|]. cbn [List.filter].
      destruct (String.eqb (UserInteraction.userId i) userId); cbn; exact IH.
    + apply List.filter_ext. intros i.
      destruct (String.eqb_spec (UserInteraction.userId i) u) as [->|Hi].
      * apply String.eqb_neq in Hne. rewrite Hne. reflexivity.
      * now rewrite andb_false_r.
Qed.

End WritePreferences.

(** ** Trending products from the recorded interactions *)

Section TrackerTrending.
Import InteractionTracker TrackerOperations.

Lemma map_get_set (k : string) (v : Z) (m : list (string * Z)) (p : string) :
  map_get p (map_set k v m) = if String.eqb p k then Some v else map_get p m.
Proof.
  induction m as [|[k' v'] m IH]; cbn [map_set map_get].
  - reflexivity.
  - destruct (String.eqb_spec k k') as [->|Hk]; cbn [map_get].
    + now destruct (String.eqb p k').
    + rewrite IH. destruct (String.eqb_spec p k') as [->|Hp]; [|reflexivity].
      destruct (String.eqb_spec k' k); [congruence | reflexivity].
Qed.

Lemma map_get_In (m : list (string * Z)) (p : string) (v : Z) :
  map_get p m = Some v -> In (p, v) m.
Proof.
  induction m as [|[k' v'] m IH]; cbn [map_get]; [discriminate|].
  destruct (String.eqb_spec p k') as [->|Hp].
  - intros [= ->]. now left.
  - intros H. right. now apply IH.
Qed.

Lemma map_get_None (m : list (string * Z)) (p : string) :
  map_get p m = None -> ~ In p (List.map fst m).
Proof.
  induction m as [|[k' v'] m IH]; cbn [map_get List.map fst]; [tauto|].
  destruct (String.eqb_spec p k') as [->|Hp]; [discriminate|].
  intros H [E|Hin]; [congruence | now apply IH].
Qed.

Lemma In_map_get (m : list (string * Z)) (p : string) (v : Z) :
  List.NoDup (List.map fst m) -> In (p, v) m -> map_get p m = Some v.
Proof.
  induction m as [|[k' v'] m IH]; cbn [map_get List.map fst]; [intros _ []|].
  intros Hnd [E|Hin].
  - injection E as -> ->. now rewrite String.eqb_refl.
  - apply List.NoDup_cons_iff in Hnd as [Hk Hnd].
    destruct (String.eqb_spec p k') as [->|Hp]; [|now apply IH].
    exfalso. apply Hk. change k' with (fst (k', v)). now apply in_map.
Qed.

Lemma map_set_keys (k : string) (v : Z) (m : list (string * Z)) :
  List.map fst (map_set k v m)
  = match map_get k m with
    | Some _ => List.map fst m
    | None => (List.map fst m ++ [k])%list
    end.
Proof.
  induction m as [|[k' v'] m IH]; cbn [map_set map_get List.map fst app].
  - reflexivity.
  - destruct (String.eqb_spec k k') as [->|Hk]; cbn [List.map fst]; [reflexivity|].
    rewrite IH. now destruct (map_get k m).
Qed.

Lemma map_set_NoDup (k : string) (v : Z) (m : list (string * Z)) :
  List.NoDup (List.map fst m) -> List.NoDup (List.map fst (map_set k v m)).
Proof.
  intros Hnd. rewrite map_set_keys. destruct (map_get k m) eqn:E; [exact Hnd|].
  apply (Permutation_NoDup (l := k :: List.map fst m)).
  - apply Permutation_cons_append.
  - constructor; [now apply map_get_None | exact Hnd].
Qed.

Lemma map_set_length (k : string) (v : Z) (m : list (string * Z)) :
  (length (map_set k v m) <= length m + 1)%nat.
Proof.
  induction m as [|[k' v'] m IH]; cbn [map_set length]; [lia|].
  destruct (String.eqb k k'); cbn [length]; lia.
Qed.

Lemma score_of_cons (p : string) (r : TrendRow.t) (rows : list TrendRow.t) :
  score_of p (r :: rows)
  = ((if String.eqb p (TrendRow.product_id r)
      then weight (TrendRow.interaction_type r) else 0)
     + score_of p rows)%Z.
Proof.
  unfold score_of. cbn [List.filter]. rewrite (String.eqb_sym (TrendRow.product_id r) p).
  now destruct (String.eqb p (TrendRow.product_id r)).
Qed.

Lemma score_of_absent (p : string) (rows : list TrendRow.t) :
  existsb (String.eqb p) (List.map TrendRow.product_id rows) = false ->
  score_of p rows = 0%Z.
Proof.
  induction rows as [|r rows IH]; [reflexivity|].
  cbn [List.map existsb]. rewrite score_of_cons.
  destruct (String.eqb p (TrendRow.product_id r)); [discriminate|].
  intros H. now rewrite IH.
Qed.

Lemma weight_positive (k : InteractionType) : (1 <= weight k)%Z.
Proof. destruct k; cbn; lia. Qed.

(** The loop of [forEach]: afterwards the map holds, for each product, what
    it held before plus the weights of the product's rows. *)
Lemma fold_add_score (rows : list TrendRow.t) (m : list (string * Z)) (p : string) :
  map_get p (fold_left add_score rows m)
  = if existsb (String.eqb p) (List.map TrendRow.product_id rows)
    then Some (or_zero (map_get p m) + score_of p rows)%Z
    else map_get p m.
Proof.
  revert m. induction rows as [|r rows IH]; intros m; [reflexivity|].
  cbn [fold_left List.map existsb]. rewrite IH, score_of_cons.
  unfold add_score. rewrite map_get_set.
  destruct (String.eqb p (TrendRow.product_id r)) eqn:E; cbn [orb or_zero].
  - apply String.eqb_eq in E. subst p.
    destruct (existsb _ _) eqn:Ex.
    + f_equal. lia.
    + rewrite (score_of_absent _ _ Ex). f_equal. lia.
  - destruct (existsb _ _); [f_equal|]; reflexivity.
Qed.

Lemma fold_add_score_NoDup (rows : list TrendRow.t) (m : list (string * Z)) :
  List.NoDup (List.map fst m) ->
  List.NoDup (List.map fst (fold_left add_score rows m)).
Proof.
  revert m. induction rows as [|r rows IH]; intros m Hnd; [exact Hnd|].
  cbn [fold_left]. apply IH. unfold add_score. now apply map_set_NoDup.
Qed.

Lemma fold_add_score_length (rows : list TrendRow.t) (m : list (string * Z)) :
  (length (fold_left add_score rows m) <= length m + length rows)%nat.
Proof.
  revert m. induction rows as [|r rows IH]; intros m; cbn [fold_left length]; [lia|].
  specialize (IH (add_score m r)). unfold add_score in *.
  pose proof (map_set_length (TrendRow.product_id r)
    (or_zero (map_get (TrendRow.product_id r) m)
     + weight (TrendRow.interaction_type r)) m). lia.
Qed.

Lemma productScores_spec (rows : list TrendRow.t) (p : string) (score : Z) :
  In (p, score) (productScores rows)
  <-> In p (List.map TrendRow.product_id rows) /\ score = score_of p rows.
Proof.
  unfold productScores.
  assert (Hex : existsb (String.eqb p) (List.map TrendRow.product_id rows) = true
                <-> In p (List.map TrendRow.product_id rows)).
  { rewrite existsb_exists. split.
    - intros (x & Hx & E). apply String.eqb_eq in E. now subst.
    - intros H. exists p. split; [exact H | apply String.eqb_refl]. }
  pose proof (fold_add_score rows [] p) as Hget. cbn [map_get or_zero] in Hget.
  split.
  - intros Hin. apply In_map_get in Hin;
      [|apply fold_add_score_NoDup; constructor].
    rewrite Hin in Hget.
    destruct (existsb _ _); [|discriminate].
    injection Hget as ->. split; [now apply Hex | lia].
  - intros [Hp ->]. apply map_get_In. rewrite Hget.
    apply Hex in Hp. rewrite Hp. f_equal.
Qed.

Lemma top_scores_sorted (rows : list TrendRow.t) (limit : Z) :
  StronglySorted (fun a b => (snd b <= snd a)%Z) (top_scores rows limit).
Proof.
  unfold top_scores, JS.slice0. apply StronglySorted_take.
  eapply StronglySorted_weaken; [|apply sort_by_sorted].
  - intros x y H. cbn beta in H. apply Z.ltb_ge in H. lia.
  - intros x y H. apply Z.ltb_lt in H. apply Z.ltb_ge. lia.
  - intros x y z H1 H2. apply Z.ltb_ge in H1, H2. apply Z.ltb_ge. lia.
Qed.

Lemma getTrendingProducts_eq (tables : RemoteTables) (limit now : Z) (s : Session) :
  let since := (now - 7 * 24 * 60 * 60 * 1000)%Z in
  getTrendingProducts tables limit now s
  = (Returns match select_since tables since with
             | Resolved (Some rows) => top_scores rows limit
             | _ => []
             end,
     {| store := store s;
        log := (log s ++ [RemoteSelectSince "user_interactions" since])%list |}).
Proof.
  intros since. unfold getTrendingProducts, try_catch, awaited, record, ret, throw, bind.
  fold since. destruct (select_since tables since) as [|[rows|]]; try reflexivity.
  destruct rows as [|r rows]; [|reflexivity].
  cbn [length Nat.eqb]. unfold top_scores, productScores. cbn [fold_left JS.sort_by foldr].
  now rewrite slice0_nil.
Qed.

Lemma score_of_weights (p : string) (rows : list TrendRow.t) :
  score_of p rows
  = (1 * Z.of_nat (rows_of p view rows)
     + 3 * Z.of_nat (rows_of p like rows)
     + 5 * Z.of_nat (rows_of p cart_add rows)
     + 10 * Z.of_nat (rows_of p purchase rows)
     + 2 * Z.of_nat (rows_of p wishlist_add rows))%Z.
Proof.
  induction rows as [|r rows IH]; [reflexivity|].
  rewrite score_of_cons, IH. unfold rows_of. cbn [List.filter].
  rewrite (String.eqb_sym p (TrendRow.product_id r)).
  destruct (String.eqb (TrendRow.product_id r) p); cbn [andb]; [|lia].
  destruct (TrendRow.interaction_type r); cbn [interactionType_name weight];
    cbn [String.eqb Ascii.eqb Bool.eqb andb length]; lia.
Qed.

(** X17: the tracker's getTrendingProducts never throws, asks the remote
    table once for the rows of the last seven days and leaves localStorage
    alone.  Its result is empty when the query fails or gives no rows;
    otherwise it lists distinct products of the rows, each with the score
    1 per view + 3 per like + 5 per cart_add + 10 per purchase
    + 2 per wishlist_add over its rows, in non-increasing order of score,
    at most limit of them for a limit that is not negative, and all of
    them when the limit is at least the number of rows. *)
Theorem getTrendingProducts_scores (tables : RemoteTables) (limit now : Z) (s : Session) :
  let since := (now - 604800000)%Z in
  let weighted (p : string) (rows : list TrendRow.t) : Z :=
    (1 * Z.of_nat (rows_of p view rows)
     + 3 * Z.of_nat (rows_of p like rows)
     + 5 * Z.of_nat (rows_of p cart_add rows)
     + 10 * Z.of_nat (rows_of p purchase rows)
     + 2 * Z.of_nat (rows_of p wishlist_add rows))%Z in
  exists result : list (string * Z),
    getTrendingProducts tables limit now s
    = (Returns result,
       {| store := store s;
          log := (log s ++ [RemoteSelectSince "user_interactions" since])%list |})
    /\ List.NoDup (List.map fst result)
    /\ StronglySorted (fun a b => (snd b <= snd a)%Z) result
    /\ (0 <= limit -> Z.of_nat (length result) <= limit)%Z
    /\ (forall p score,
          In (p, score) result ->
          exists rows,
            select_since tables since = Resolved (Some rows)
            /\ In p (List.map TrendRow.product_id rows)
            /\ score = weighted p rows
            /\ (1 <= score)%Z)
    /\ (forall rows,
          select_since tables since = Resolved (Some rows) ->
          (Z.of_nat (length rows) <= limit)%Z ->
          forall r, In r rows ->
            In (TrendRow.product_id r, weighted (TrendRow.product_id r) rows) result)
    /\ (select_since tables since = Rejected
        \/ select_since tables since = Resolved None
        \/ select_since tables since = Resolved (Some [])
        -> result = []).
Proof.
  intros since weighted. rewrite getTrendingProducts_eq. cbv zeta.
  change (now - 7 * 24 * 60 * 60 * 1000)%Z with since.
  assert (Hw : forall p rows, weighted p rows = score_of p rows)
    by (intros; symmetry; apply score_of_weights).
  eexists. split; [reflexivity|].
  destruct (select_since tables since) as [|[rows|]] eqn:Esel.
  2:{ (* rows *)
    split; [|split; [|split; [|split; [|split]]]].
    - unfold top_scores, JS.slice0. apply NoDup_map_take.
      eapply Permutation_NoDup; [apply Permutation_map, sort_by_perm|].
      unfold productScores. apply fold_add_score_NoDup. constructor.
    - apply top_scores_sorted.
    - intros Hl. unfold top_scores. rewrite slice0_length_nonneg by exact Hl. lia.
    - intros p score Hin. exists rows. split; [reflexivity|].
      unfold top_scores in Hin. apply In_slice0 in Hin. apply sort_by_In in Hin.
      apply productScores_spec in Hin as [Hp ->]. split; [exact Hp|].
      split; [symmetry; apply Hw|].
      clear - Hp. induction rows as [|r rows IH]; [destruct Hp|].
      rewrite score_of_cons. cbn [List.map] in Hp.
      destruct (String.eqb_spec p (TrendRow.product_id r)) as [->|Hne].
      + pose proof (weight_positive (TrendRow.interaction_type r)).
        assert (0 <= score_of (TrendRow.product_id r) rows)%Z; [|lia].
        clear. induction rows as [|r' rows IH]; [unfold score_of; cbn; lia|].
        rewrite score_of_cons.
        pose proof (weight_positive (TrendRow.interaction_type r')).
        destruct (String.eqb _ _); lia.
      + destruct Hp as [E|Hp]; [congruence|]. specialize (IH Hp). lia.
    - intros rows' [= <-] Hlen r Hr. unfold top_scores.
      rewrite slice0_nonneg by lia. rewrite take_ge.
      + apply sort_by_In. apply productScores_spec.
        split; [now apply in_map | apply Hw].
      + rewrite sort_by_length. unfold productScores.
        pose proof (fold_add_score_length rows []). cbn [length] in *. lia.
    - intros [H|[H|H]]; try discriminate H. injection H as ->.
      unfold top_scores, productScores. cbn [fold_left JS.sort_by foldr].
      apply slice0_nil. }
  all: split; [constructor|]; split; [constructor|]; split; [cbn; lia|];
    split; [intros ? ? []|]; split; [intros ? [=]|]; reflexivity.
Qed.

End TrackerTrending.

(** ** The counters of getUserAnalytics *)

Section AnalyticsCounts.
Import InteractionTracker TrackerOperations.

Lemma count_key_lookup (acc : gmap string nat) (k key : string) :
  count_key acc k !! key
  = if String.eqb key k then Some (default 0 (acc !! k) + 1)%nat else acc !! key.
Proof.
  unfold count_key. destruct (String.eqb_spec key k) as [->|Hne].
  - now rewrite lookup_insert_eq.
  - now rewrite lookup_insert_ne by congruence.
Qed.

Lemma total_count_key (acc : gmap string nat) (k : string) :
  total (count_key acc k) = (total acc + 1)%nat.
Proof.
  unfold total, count_key.
  assert (Hcomm : forall (m : gmap string nat) (j1 j2 : string) (z1 z2 y : nat),
             j1 <> j2 -> m !! j1 = Some z1 -> m !! j2 = Some z2 ->
             (z1 + (z2 + y) = z2 + (z1 + y))%nat) by (intros; lia).
  destruct (acc !! k) as [v|] eqn:E; cbn [default from_option]; unfold Datatypes.id.
  - rewrite <- (insert_delete_eq acc k (v + 1)%nat).
    rewrite map_fold_insert_L; [|apply Hcomm | apply lookup_delete_eq].
    rewrite (map_fold_delete_L _ _ k v acc (Hcomm acc) E). lia.
  - rewrite map_fold_insert_L; [lia | apply Hcomm | exact E].
Qed.

Lemma fold_count_key_total {A} (key : A -> string) (l : list A) (acc : gmap string nat) :
  total (fold_left (fun acc i => count_key acc (key i)) l acc)
  = (total acc + length l)%nat.
Proof.
  revert acc. induction l as [|x l IH]; intros acc; cbn [fold_left length]; [lia|].
  rewrite IH, total_count_key. lia.
Qed.

Lemma fold_count_key_lookup {A} (key : A -> string) (l : list A)
    (acc : gmap string nat) (k : string) :
  fold_left (fun acc i => count_key acc (key i)) l acc !! k
  = match length (List.filter (fun i => String.eqb (key i) k) l) with
    | O => acc !! k
    | n => Some (default 0 (acc !! k) + n)%nat
    end.
Proof.
  revert acc. induction l as [|x l IH]; intros acc; [reflexivity|].
  cbn [fold_left List.filter]. rewrite IH, count_key_lookup.
  rewrite (String.eqb_sym k (key x)).
  destruct (String.eqb_spec (key x) k) as [->|Hne]; cbn [length].
  - cbn [default from_option]. unfold Datatypes.id.
    destruct (length _); f_equal; lia.
  - reflexivity.
Qed.

Lemma total_empty : total (∅ : gmap string nat) = 0%nat.
Proof. unfold total. apply map_fold_empty. Qed.

(** X18: in the result of getUserAnalytics, totalInteractions is the number
    of the user's interactions in the local store; interactionCounts has,
    for each interaction type, the number of those interactions of that
    type, and no entry for a type that does not occur nor for any other
    key; its values add up to totalInteractions; and recentActivity never
    exceeds totalInteractions. *)
Theorem getUserAnalytics_counts (t : Tracker) (userId : string) (now weekAgo : Z)
    (w : World) :
  let mine :=
    List.filter (fun i => String.eqb (UserInteraction.userId i) userId)
      (default [] (user_interactions (localStorage w))) in
  exists a : Analytics.t,
    fst (getUserAnalytics t userId now weekAgo w) = Returns a
    /\ Analytics.totalInteractions a = length mine
    /\ (forall k : InteractionType,
          Analytics.interactionCounts a !! interactionType_name k
          = match count_of_type k mine with
            | O => None
            | n => Some n
            end)
    /\ (forall key : string,
          (forall k : InteractionType, key <> interactionType_name k) ->
          Analytics.interactionCounts a !! key = None)
    /\ total (Analytics.interactionCounts a) = Analytics.totalInteractions a
    /\ (Analytics.recentActivity a <= Analytics.totalInteractions a)%nat.
Proof.
  intros mine.
  set (w1 := {| localStorage := localStorage w;
                trace := trace w ++ [LocalGetItem "user_interactions"] |}).
  destruct (getUserPreferences_returns t (Some userId) now w1) as (p & rest & E).
  unfold getUserAnalytics, bind. rewrite getUserInteractions_eq. fold w1. fold mine.
  rewrite E. unfold ret. eexists. split; [reflexivity|].
  cbn [Analytics.totalInteractions Analytics.interactionCounts Analytics.recentActivity].
  split; [reflexivity|]. split; [|split; [|split]].
  - intros k. unfold interactionCounts_of, count_of_type.
    rewrite fold_count_key_lookup. rewrite lookup_empty.
    now destruct (length _).
  - intros key Hkey. unfold interactionCounts_of.
    rewrite fold_count_key_lookup. rewrite lookup_empty.
    replace (List.filter _ mine) with (@nil UserInteraction.t); [reflexivity|].
    symmetry. clear - Hkey. induction mine as [|i l IH]; [reflexivity|].
    cbn [List.filter].
    destruct (String.eqb_spec
                (interactionType_name (UserInteraction.interactionType i)) key)
      as [Ek|_]; [|exact IH].
    exfalso. exact (Hkey _ (eq_sym Ek)).
  - unfold interactionCounts_of. rewrite fold_count_key_total, total_empty. lia.
  - unfold recentActivity_of. apply List.filter_length_le.
Qed.

End AnalyticsCounts.

(** ** The span of a text matched by the patterns *)

Section MatchedSpan.

Lemma chars_app (a b : string) :
  list_ascii_of_string (a ++ b)
  = (list_ascii_of_string a ++ list_ascii_of_string b)%list.
Proof.
  induction a as [|x a IH]; [reflexivity|].
  change (x :: list_ascii_of_string (a ++ b)
          = x :: (list_ascii_of_string a ++ list_ascii_of_string b)%list).
  now f_equal.
Qed.

Lemma append_assoc (a b c : string) : ((a ++ b) ++ c = a ++ (b ++ c))%string.
Proof.
  induction a as [|x a IH]; [reflexivity|].
  change (String x ((a ++ b) ++ c) = String x (a ++ (b ++ c))).
  now f_equal.
Qed.

Lemma append_nil_l (s : string) : ("" ++ s = s)%string.
Proof. reflexivity. Qed.

Lemma append_cons (a : ascii) (s t : string) :
  (String a s ++ t = String a (s ++ t))%string.
Proof. reflexivity. Qed.

Lemma from_first_None (c : ascii) (s : string) :
  JS.from_first c s = None <-> ~ In c (list_ascii_of_string s).
Proof.
  induction s as [|a s IH]; cbn [JS.from_first list_ascii_of_string].
  - split; [intros _ [] | reflexivity].
  - destruct (Ascii.eqb_spec a c) as [->|Hne].
    + split; [discriminate | intros H; exfalso; apply H; now left].
    + rewrite IH. split.
      * intros H [E|Hin]; [congruence | now apply H].
      * intros H Hin. apply H. now right.
Qed.

Lemma from_first_Some (c : ascii) (s r : string) :
  JS.from_first c s = Some r
  <-> exists pre, s = pre ++ String c r /\ ~ In c (list_ascii_of_string pre).
Proof.
  split.
  - revert r. induction s as [|a s IH]; intros r; cbn [JS.from_first]; [discriminate|].
    destruct (Ascii.eqb_spec a c) as [->|Hne].
    + intros [= ->]. exists "". split; [reflexivity | intros []].
    + intros H. destruct (IH r H) as (pre & -> & Hpre).
      exists (String a pre). split; [reflexivity|].
      cbn [list_ascii_of_string]. intros [E|Hin]; [congruence | now apply Hpre].
  - intros (pre & -> & Hpre). induction pre as [|a pre IH]; rewrite ?append_nil_l, ?append_cons; cbn [JS.from_first].
    + now rewrite Ascii.eqb_refl.
    + cbn [list_ascii_of_string] in Hpre. destruct (Ascii.eqb_spec a c) as [->|Hne].
      * exfalso. apply Hpre. now left.
      * apply IH. intros Hin. apply Hpre. now right.
Qed.

Lemma upto_last_None (c : ascii) (s : string) :
  JS.upto_last c s = None <-> ~ In c (list_ascii_of_string s).
Proof.
  induction s as [|a s IH]; cbn [JS.upto_last list_ascii_of_string].
  - split; [intros _ [] | reflexivity].
  - destruct (JS.upto_last c s) as [r|].
    + split; [discriminate|]. intros H. exfalso.
      assert (Hn : Some r = None); [|discriminate Hn].
      apply IH. intros Hin. apply H. now right.
    + destruct (Ascii.eqb_spec a c) as [->|Hne].
      * split; [discriminate | intros H; exfalso; apply H; now left].
      * split; [|reflexivity]. intros _ [E|Hin]; [congruence|].
        now apply (proj1 IH eq_refl).
Qed.

Lemma upto_last_Some (c : ascii) (s r : string) :
  JS.upto_last c s = Some r
  <-> exists inner post,
        s = inner ++ String c post /\ r = inner ++ String c ""
        /\ ~ In c (list_ascii_of_string post).
Proof.
  split.
  - revert r. induction s as [|a s IH]; intros r; cbn [JS.upto_last]; [discriminate|].
    destruct (JS.upto_last c s) as [r'|] eqn:E.
    + intros [= <-]. destruct (IH r' eq_refl) as (inner & post & -> & -> & Hpost).
      exists (String a inner), post. repeat split; assumption.
    + destruct (Ascii.eqb_spec a c) as [->|Hne]; [|discriminate].
      intros [= <-]. exists "", s. repeat split. now apply upto_last_None.
  - intros (inner & post & -> & -> & Hpost).
    induction inner as [|a inner IH]; rewrite ?append_nil_l, ?append_cons; cbn [JS.upto_last].
    + apply upto_last_None in Hpost. rewrite Hpost. now rewrite Ascii.eqb_refl.
    + now rewrite IH.
Qed.

Lemma from_first_rest (c : ascii) (s r pre rest : string) :
  JS.from_first c s = Some r -> s = pre ++ String c rest ->
  exists mid, r = mid ++ rest.
Proof.
  revert pre. induction s as [|a s IH]; intros pre; cbn [JS.from_first]; [discriminate|].
  destruct pre as [|b pre]; rewrite ?append_nil_l, ?append_cons.
  - intros H [= -> ->]. rewrite Ascii.eqb_refl in H. injection H as <-.
    now exists "".
  - intros H E. injection E as Ea Es. subst b.
    destruct (Ascii.eqb_spec a c) as [->|Hne].
    + injection H as <-. exists (pre ++ String c ""). rewrite Es.
      now rewrite append_assoc.
    + now apply (IH pre).
Qed.

(** X19: what text.match(/\[[\s\S]*\]/) and text.match(/\{[\s\S]*\}/) hand
    to JSON.parse.  The match is found exactly when the text has an opening
    character with a closing character somewhere after it, and it is then
    the part of the text from the first opening character to the last
    closing character, whatever lies between. *)
Theorem match_span_characterised (opening closing : ascii) (text : string) :
  (forall m,
     JS.match_span opening closing text = Some m
     <-> exists pre inner post,
           text = pre ++ String opening (inner ++ String closing post)
           /\ m = String opening (inner ++ String closing "")
           /\ ~ In opening (list_ascii_of_string pre)
           /\ ~ In closing (list_ascii_of_string post))
  /\ (JS.match_span opening closing text = None
      <-> forall pre rest,
            text = pre ++ String opening rest ->
            ~ In closing (list_ascii_of_string rest)).
Proof.
  assert (Hsome : forall m,
     JS.match_span opening closing text = Some m
     <-> exists pre inner post,
           text = pre ++ String opening (inner ++ String closing post)
           /\ m = String opening (inner ++ String closing "")
           /\ ~ In opening (list_ascii_of_string pre)
           /\ ~ In closing (list_ascii_of_string post)).
  { intros m. unfold JS.match_span. split.
    - destruct (JS.from_first opening text) as [rest|] eqn:Ef; [|discriminate].
      destruct (JS.upto_last closing rest) as [body|] eqn:Eu; [|discriminate].
      intros [= <-].
      apply from_first_Some in Ef as (pre & -> & Hpre).
      apply upto_last_Some in Eu as (inner & post & -> & -> & Hpost).
      now exists pre, inner, post.
    - intros (pre & inner & post & -> & -> & Hpre & Hpost).
      rewrite (proj2 (from_first_Some opening _ (inner ++ String closing post)))
        by now exists pre.
      rewrite (proj2 (upto_last_Some closing _ (inner ++ String closing "")))
        by now exists inner, post.
      reflexivity. }
  split; [exact Hsome|]. split.
  - intros Hnone pre rest -> Hin.
    unfold JS.match_span in Hnone.
    destruct (JS.from_first opening (pre ++ String opening rest)) as [r|] eqn:Ef.
    + destruct (from_first_rest _ _ _ _ _ Ef eq_refl) as (mid & ->).
      destruct (JS.upto_last closing (mid ++ rest)) as [body|] eqn:Eu; [discriminate|].
      apply upto_last_None in Eu. apply Eu. rewrite chars_app.
      apply in_or_app. now right.
    + apply from_first_None in Ef. apply Ef. rewrite chars_app.
      apply in_or_app. right. now left.
  - intros Hall. destruct (JS.match_span opening closing text) as [m|] eqn:E;
      [|reflexivity].
    destruct (proj1 (Hsome m) eq_refl) as (pre & inner & post & -> & _ & _ & _).
    exfalso. apply (Hall pre (inner ++ String closing post) eq_refl).
    rewrite chars_app. apply in_or_app. right. now left.
Qed.

End MatchedSpan.

(** ** The catalog page's liked and cart sets *)

Section CatalogSelection.
Import ProductCatalog.

Lemma unlike_like (s : gset string) (p : string) : p ∈ s -> (s ∖ {[p]}) ∪ {[p]} = s.
Proof.
  intros Hin. apply set_eq. intros x.
  rewrite elem_of_union, elem_of_difference, elem_of_singleton.
  destruct (decide (x = p)) as [->|]; tauto.
Qed.

Lemma like_unlike (s : gset string) (p : string) : p ∉ s -> (s ∪ {[p]}) ∖ {[p]} = s.
Proof.
  intros Hin. apply set_eq. intros x.
  rewrite elem_of_difference, elem_of_union, elem_of_singleton.
  destruct (decide (x = p)) as [->|]; tauto.
Qed.

(** X20: on the catalog page a second like of the same product undoes the
    first (the liked set is back to what it was, other products are never
    affected), yet each of the two clicks tracks an interaction of type
    like; and no interaction ever removes a product from the cart set. *)
Theorem catalog_like_toggles (products : list Product.t) (searchQuery : string)
    (s : Selection) (productId : string) :
  let once := handleInteraction products searchQuery s productId like in
  let twice := handleInteraction products searchQuery (fst once) productId like in
  (productId ∈ likedProducts (fst once) <-> productId ∉ likedProducts s)
  /\ (forall other, other <> productId ->
        (other ∈ likedProducts (fst once) <-> other ∈ likedProducts s))
  /\ likedProducts (fst twice) = likedProducts s
  /\ cartItems (fst twice) = cartItems s
  /\ InteractionTracker.NewInteraction.interactionType (snd once) = like
  /\ InteractionTracker.NewInteraction.interactionType (snd twice) = like
  /\ (forall (interactionType : InteractionType) (other : string),
        cartItems s
        ⊆ cartItems (fst (handleInteraction products searchQuery s other
                            interactionType))).
Proof.
  intros once twice. unfold twice, once, handleInteraction.
  cbn [fst snd update_selection likedProducts cartItems tracked_interaction
       InteractionTracker.NewInteraction.interactionType].
  split; [|split; [|split; [|split; [|split; [|split]]]]]; try reflexivity.
  - destruct (decide (productId ∈ likedProducts s)) as [Hin|Hout].
    + rewrite elem_of_difference, elem_of_singleton. tauto.
    + rewrite elem_of_union, elem_of_singleton. tauto.
  - intros other Hne. destruct (decide (productId ∈ likedProducts s)).
    + rewrite elem_of_difference, elem_of_singleton. tauto.
    + rewrite elem_of_union, elem_of_singleton. tauto.
  - destruct (decide (productId ∈ likedProducts s)) as [Hin|Hout].
    + destruct (decide (productId ∈ likedProducts s ∖ {[productId]})) as [H|_].
      * exfalso. revert H. rewrite elem_of_difference, elem_of_singleton. tauto.
      * now apply unlike_like.
    + destruct (decide (productId ∈ likedProducts s ∪ {[productId]})) as [_|H].
      * now apply like_unlike.
      * exfalso. apply H. rewrite elem_of_union, elem_of_singleton. tauto.
  - intros interactionType other.
    destruct interactionType; cbn [update_selection cartItems];
      try reflexivity.
    apply union_subseteq_l.
Qed.

End CatalogSelection.
